(** * Course management system: fee dashboard and REST record service

    A shallow embedding of the two halves of the application:

    - the dashboard component [CourseManagement.jsx] (aggregates over the
      fetched course list, the fee badge, the student form);
    - the Express/Mongoose server (the seven route handlers over the
      [Course] and [Student] collections).

    The student form builds fee amounts with [parseInt], and [Dashboard]
    holds the amounts of a fetched student as whole numbers ([Z]).
    [Analytics] has the fee analytics on the amounts as the fetched JSON
    delivers them: IEEE 754 binary64 numbers, [null], or missing.  Strings
    are sequences of one-byte characters. *)

From Stdlib Require Import ZArith NArith List String Ascii Bool Lia.
From Stdlib Require Import Permutation DecimalString DecimalZ DecimalPos DecimalN.
From Stdlib Require Import Floats.SpecFloat.
Import ListNotations.

Local Open Scope string_scope.
Local Open Scope list_scope.
Local Open Scope Z_scope.

(** ** JavaScript values and operators used by the component *)

(** A property that may be absent ([undefined]) or [null]. *)
Inductive maybe (A : Type) : Type :=
| Undefined
| Null
| Defined (a : A).

Arguments Undefined {A}.
Arguments Null {A}.
Arguments Defined {A} a.

(** [v?.f] : optional chaining short-circuits to [undefined] on
    [undefined] and on [null]. *)
Definition optChain {A B : Type} (v : maybe A) (f : A -> B) : maybe B :=
  match v with
  | Defined a => Defined (f a)
  | Undefined | Null => Undefined
  end.

(** [v || d] on numbers: [undefined], [null] and [0] are falsy. *)
Definition orNumber (v : maybe Z) (d : Z) : Z :=
  match v with
  | Defined n => if n =? 0 then d else n
  | Undefined | Null => d
  end.

(** [v || d] on strings: [undefined], [null] and the empty string are
    falsy. *)
Definition orString (v : maybe string) (d : string) : string :=
  match v with
  | Defined EmptyString => d
  | Defined s => s
  | Undefined | Null => d
  end.

(** [String(v)] as applied by [parseInt] to its argument. *)
Definition toString (v : maybe string) : string :=
  match v with
  | Defined s => s
  | Undefined => "undefined"
  | Null => "null"
  end.

(** [s.startsWith(p)]. *)
Fixpoint startsWith (s p : string) : bool :=
  match p, s with
  | EmptyString, _ => true
  | String a p', String b s' => Ascii.eqb a b && startsWith s' p'
  | String _ _, EmptyString => false
  end.

(** *** [parseInt] with no radix argument

    The result is [None] for [NaN]. *)

Definition isWhiteSpace (c : ascii) : bool :=
  let n := nat_of_ascii c in
  ((9 <=? n)%nat && (n <=? 13)%nat) || (n =? 32)%nat.

Fixpoint trimStart (s : string) : string :=
  match s with
  | String c s' => if isWhiteSpace c then trimStart s' else s
  | EmptyString => EmptyString
  end.

(** Value of a character as a digit: [0-9], then [a-z] or [A-Z] for 10
    to 35. *)
Definition digitValue (c : ascii) : option Z :=
  let n := Z.of_nat (nat_of_ascii c) in
  if (48 <=? n) && (n <=? 57) then Some (n - 48)
  else if (97 <=? n) && (n <=? 122) then Some (n - 87)
  else if (65 <=? n) && (n <=? 90) then Some (n - 55)
  else None.

(** The longest prefix of radix-[R] digits, read as a number; [acc] is
    [None] while no digit has been read. *)
Fixpoint readDigits (R : Z) (s : string) (acc : option Z) : option Z :=
  match s with
  | String c s' =>
      match digitValue c with
      | Some d =>
          if d <? R
          then readDigits R s' (Some (R * match acc with Some a => a | None => 0 end + d))
          else acc
      | None => acc
      end
  | EmptyString => acc
  end.

Definition stripSign (s : string) : Z * string :=
  match s with
  | String "-" s' => (-1, s')
  | String "+" s' => (1, s')
  | _ => (1, s)
  end.

Definition stripHexPrefix (s : string) : Z * string :=
  match s with
  | String "0" (String "x" s') => (16, s')
  | String "0" (String "X" s') => (16, s')
  | _ => (10, s)
  end.

Definition parseInt (s : string) : option Z :=
  let (sign, s1) := stripSign (trimStart s) in
  let (R, s2) := stripHexPrefix s1 in
  match readDigits R s2 None with
  | Some n => Some (sign * n)
  | None => None
  end.

(** [parseInt(v) || d] : [NaN] and [0] are falsy. *)
Definition parseIntOr (v : maybe string) (d : Z) : Z :=
  match parseInt (toString v) with
  | Some n => if n =? 0 then d else n
  | None => d
  end.

(** ** Request bodies

    The JSON bodies the handlers receive.  A field left out is [None].
    Dates and ids travel as strings.  A body may carry an [_id]: the
    component sends none when it creates a document, and sends the
    document's own when it updates a reminder. *)

Module CourseBody.
Record t : Type := mk {
  _id : option string;
  title : option string;
  description : option string;
  whatYouLearn : option string;
  startDate : option string;
  endDate : option string;
  language : option string
}.
End CourseBody.

Module StudentBody.
Record t : Type := mk {
  _id : option string;
  name : option string;
  email : option string;
  phone : option string;
  joinDate : option string;
  totalFee : option Z;
  paidAmount : option Z;
  reminderMessage : option string;
  courseId : option string
}.
End StudentBody.

(** ** The dashboard component ([CourseManagement.jsx]) *)

Module Dashboard.

(** A student as the component reads it from the fetched list, with
    both amounts present and whole. *)
Record Student : Type := mkStudent {
  s_id : string;
  name : string;
  email : string;
  phone : string;
  joinDate : string;
  totalFee : Z;
  paidAmount : Z;
  reminderMessage : maybe string;
  courseId : string
}.

(** A course of the fetched list; [students] may be missing. *)
Record Course : Type := mkCourse {
  c_id : string;
  title : string;
  students : maybe (list Student)
}.

(** *** Analytics *)

Definition totalStudents (courses : list Course) : Z :=
  fold_left
    (fun sum c =>
       sum + orNumber (optChain (students c) (fun l => Z.of_nat (List.length l))) 0)
    courses 0.

Definition totalCourses (courses : list Course) : Z :=
  Z.of_nat (List.length courses).

Definition totalPendingFees (courses : list Course) : Z :=
  fold_left
    (fun sum c =>
       sum +
       orNumber
         (optChain (students c)
            (fun l =>
               fold_left
                 (fun sSum s =>
                    sSum + (if paidAmount s <? totalFee s
                            then totalFee s - paidAmount s
                            else 0))
                 l 0))
         0)
    courses 0.

Definition reminders (courses : list Course) : Z :=
  fold_left
    (fun sum c =>
       sum +
       orNumber
         (optChain (students c)
            (fun l =>
               Z.of_nat
                 (List.length (filter (fun s => paidAmount s <? totalFee s) l))))
         0)
    courses 0.

(** *** Helpers *)

(** The test of [getFeeStatusBadge]: the badge reads "Paid" when it
    holds and "Pending" otherwise. *)
Definition isPaid (student : Student) : bool :=
  paidAmount student >=? totalFee student.

Inductive badge : Type := Paid | Pending.

Definition getFeeStatusBadge (student : Student) : badge :=
  if isPaid student then Paid else Pending.

(** *** The student form *)

Module Form.
Record t : Type := mk {
  studentName : string;
  email : string;
  phone : string;
  joinDate : string;
  totalFee : string;
  paidAmount : maybe string
}.
End Form.

(** The [data] object that [handleSaveStudent] sends, from the form,
    the student being edited (if any) and the selected course. *)
Definition handleSaveStudent_data
    (form : Form.t) (editingStudent : option Student)
    (selectedCourse : Course) : StudentBody.t :=
  let totalFee := parseIntOr (Defined (Form.totalFee form)) 18000 in
  let paidAmount := parseIntOr (Form.paidAmount form) 0 in
  StudentBody.mk None
    (Some (Form.studentName form))
    (Some (Form.email form))
    (Some (if startsWith (Form.phone form) "+"
           then Form.phone form
           else ("+91" ++ Form.phone form)%string))
    (Some (Form.joinDate form))
    (Some totalFee)
    (Some paidAmount)
    (Some (orString
             (match editingStudent with
              | Some s => reminderMessage s
              | None => Undefined
              end)
             ""))
    (Some (c_id selectedCourse)).

End Dashboard.

(** ** Numbers as JavaScript computes with them

    A number is an IEEE 754 binary64 value; sums and differences are
    rounded to nearest, ties to even. *)

Module Number.

Definition t : Type := spec_float.

Definition prec : Z := 53.
Definition emax : Z := 1024.

(** The literal [0], and [NaN]. *)
Definition zero : t := S754_zero false.
Definition NaN : t := S754_nan.

(** The number nearest to a whole number: the number itself up to
    2^53. *)
Definition ofZ (n : Z) : t := binary_normalize prec emax n 0 false.

(** The whole number that a number is, when it is one. *)
Definition toZ (x : t) : option Z :=
  match x with
  | S754_zero _ => Some 0
  | S754_finite s m e =>
      match e with
      | Zneg k =>
          if Zpos m mod 2 ^ Zpos k =? 0
          then Some (cond_Zopp s (Zpos m / 2 ^ Zpos k))
          else None
      | _ => Some (cond_Zopp s (Zpos m * 2 ^ e))
      end
  | S754_infinity _ | S754_nan => None
  end.

(** [x + y] and [x - y] on numbers. *)
Definition add : t -> t -> t := SFadd prec emax.
Definition sub : t -> t -> t := SFsub prec emax.

(** [x < y] and [x >= y] on numbers: both are false when an operand is
    [NaN]. *)
Definition lt (x y : t) : bool :=
  match SFcompare x y with
  | Some Lt => true
  | _ => false
  end.

Definition ge (x y : t) : bool :=
  match SFcompare x y with
  | Some Lt | None => false
  | Some _ => true
  end.

(** [ToNumber] of a property that holds a number, [null], or nothing. *)
Definition toNumber (v : maybe t) : t :=
  match v with
  | Defined x => x
  | Null => zero
  | Undefined => NaN
  end.

(** [v || d] where [v] is a number or [undefined]: [undefined], [NaN]
    and the two zeros are falsy. *)
Definition orElse (v : maybe t) (d : t) : t :=
  match v with
  | Defined (S754_zero _) | Defined S754_nan => d
  | Defined x => x
  | Undefined | Null => d
  end.

End Number.

(** ** The fee analytics on fetched amounts ([CourseManagement.jsx]) *)

Module Analytics.

(** A student of the fetched list, with the two properties the fee
    analytics and the badge read: each is a number, [null], or
    missing. *)
Record Student : Type := mkStudent {
  totalFee : maybe Number.t;
  paidAmount : maybe Number.t
}.

Record Course : Type := mkCourse {
  students : maybe (list Student)
}.

(** [s.paidAmount < s.totalFee] *)
Definition owes (s : Student) : bool :=
  Number.lt (Number.toNumber (paidAmount s)) (Number.toNumber (totalFee s)).

(** [s.paidAmount < s.totalFee ? s.totalFee - s.paidAmount : 0] *)
Definition pending (s : Student) : Number.t :=
  if owes s
  then Number.sub (Number.toNumber (totalFee s)) (Number.toNumber (paidAmount s))
  else Number.zero.

Definition totalPendingFees (courses : list Course) : Number.t :=
  fold_left
    (fun sum c =>
       Number.add sum
         (Number.orElse
            (optChain (students c)
               (fun l =>
                  fold_left (fun sSum s => Number.add sSum (pending s))
                    l Number.zero))
            Number.zero))
    courses Number.zero.

Definition reminders (courses : list Course) : Z :=
  fold_left
    (fun sum c =>
       sum +
       orNumber
         (optChain (students c)
            (fun l => Z.of_nat (List.length (filter owes l))))
         0)
    courses 0.

(** [student.paidAmount >= student.totalFee] *)
Definition isPaid (student : Student) : bool :=
  Number.ge (Number.toNumber (paidAmount student))
    (Number.toNumber (totalFee student)).

Definition getFeeStatusBadge (student : Student) : Dashboard.badge :=
  if isPaid student then Dashboard.Paid else Dashboard.Pending.

(** A student and a course of [Dashboard], as fetched: the amounts are
    the numbers nearest to the whole amounts. *)
Definition fetched (s : Dashboard.Student) : Student :=
  mkStudent (Defined (Number.ofZ (Dashboard.totalFee s)))
    (Defined (Number.ofZ (Dashboard.paidAmount s))).

Definition fetchedCourse (c : Dashboard.Course) : Course :=
  mkCourse
    (match Dashboard.students c with
     | Defined l => Defined (map fetched l)
     | Null => Null
     | Undefined => Undefined
     end).

End Analytics.

(** ** Mongoose documents ([models/Course.js], [models/Student.js]) *)

(** An [ObjectId] is a 12-byte value, held as the number its 24
    hexadecimal digits denote. *)
Definition ObjectId : Type := N.

Bind Scope N_scope with ObjectId.

Fixpoint readHex (s : string) (acc : N) : option N :=
  match s with
  | EmptyString => Some acc
  | String c s' =>
      match digitValue c with
      | Some d => if d <? 16 then readHex s' (16 * acc + Z.to_N d)%N else None
      | None => None
      end
  end.

(** Mongoose's cast of a route parameter or a body field to an
    [ObjectId]: a string of 24 hexadecimal digits; anything else is a
    cast error. *)
Definition castObjectId (s : string) : option ObjectId :=
  if (String.length s =? 24)%nat then readHex s 0%N else None.

(** A [Date] path holds a time value: milliseconds since 1970-01-01
    UTC. *)
Definition Date : Type := Z.

Bind Scope Z_scope with Date.

Module Course.
Record t : Type := mk {
  _id : ObjectId;
  title : string;
  description : option string;
  whatYouLearn : option string;
  startDate : option Date;
  endDate : option Date;
  language : string
}.
End Course.

Module Student.
Record t : Type := mk {
  _id : ObjectId;
  name : string;
  email : string;
  phone : option string;
  joinDate : option Date;
  totalFee : option Z;
  paidAmount : option Z;
  reminderMessage : option string;
  courseId : ObjectId
}.
End Student.

(** [{ ...course.toObject(), students }] *)
Module CourseWithStudents.
Record t : Type := mk {
  course : Course.t;
  students : list Student.t
}.
End CourseWithStudents.

(** ** The server state and its effects *)

(** The two collections, in insertion order, and the counter of the
    [ObjectId] generator: it draws [nextId], and never an id that is or
    has been stored. *)
Record state : Type := mkState {
  courses : list Course.t;
  students : list Student.t;
  nextId : N
}.

Definition initial : state := mkState [] [] 0%N.

(** What a rejected promise carries. *)
Inductive error : Type :=
| ValidationError   (* a required path is missing, or a path did not cast *)
| CastError         (* a query or update value did not cast *)
| MongoError.       (* the driver or the database refused or failed *)

(** An [async] computation over the state: it resolves to a value or
    rejects with an error; writes done before a rejection stay. *)
Definition M (A : Type) : Type := state -> (error + A) * state.

Definition ret {A : Type} (a : A) : M A := fun st => (inr a, st).

Definition bind {A B : Type} (m : M A) (k : A -> M B) : M B :=
  fun st =>
    match m st with
    | (inr a, st') => k a st'
    | (inl e, st') => (inl e, st')
    end.

Definition throw {A : Type} (e : error) : M A := fun st => (inl e, st).

Definition gets {A : Type} (f : state -> A) : M A := fun st => (inr (f st), st).

Definition modify (f : state -> state) : M unit := fun st => (inr tt, f st).

Notation "x <- m ;; k" := (bind m (fun x => k))
  (at level 61, m at next level, right associativity).
Notation "m ;;; k" := (bind m (fun _ => k))
  (at level 61, right associativity).

(** [Promise.all(l.map(f))] *)
Fixpoint mapM {A B : Type} (f : A -> M B) (l : list A) : M (list B) :=
  match l with
  | [] => ret []
  | a :: l' => b <- f a ;; bs <- mapM f l' ;; ret (b :: bs)
  end.

(** The storage operations the handlers await. *)
Inductive dbop : Type :=
| CourseFind
| StudentFind (courseId : ObjectId)
| CourseSave
| StudentSave
| CourseFindByIdAndUpdate
| StudentFindByIdAndUpdate
| CourseFindByIdAndDelete
| StudentFindByIdAndDelete
| StudentDeleteMany.

(** The surroundings of one request: which operations of the database
    fail, and how the runtime reads a date.  A failed single-document
    operation writes nothing; a failed [deleteMany] has removed
    [removedBeforeFailure] of the matching documents.  [dateOf s] is the
    time value of [new Date(s)] for a non-empty string [s], and [None]
    when that is an invalid date: outside the ECMAScript date format
    this is left to the runtime, so the statements are over every
    [env]. *)
Record env : Type := mkEnv {
  fails : dbop -> bool;
  removedBeforeFailure : nat;
  dateOf : string -> option Date
}.

(** *** A runtime that reads calendar dates

    [YYYY-MM-DD], as a date input gives them, read as midnight UTC; this
    sample runtime refuses every other string. *)

Definition digitAt (s : string) (i : nat) : option Z :=
  match String.get i s with
  | Some c =>
      match digitValue c with
      | Some d => if d <? 10 then Some d else None
      | None => None
      end
  | None => None
  end.

Definition isDash (s : string) (i : nat) : bool :=
  match String.get i s with
  | Some c => Ascii.eqb c "-"
  | None => false
  end.

Definition isLeapYear (y : Z) : bool :=
  ((y mod 4 =? 0) && negb (y mod 100 =? 0)) || (y mod 400 =? 0).

Definition daysInMonth (y m : Z) : Z :=
  if m =? 2 then (if isLeapYear y then 29 else 28)
  else if (m =? 4) || (m =? 6) || (m =? 9) || (m =? 11) then 30
  else 31.

(** Days from 1970-01-01 to the given day of the proleptic Gregorian
    calendar. *)
Definition daysFromCivil (y m d : Z) : Z :=
  let y' := if m <=? 2 then y - 1 else y in
  let era := y' / 400 in
  let yoe := y' - era * 400 in
  let doy := (153 * (if 2 <? m then m - 3 else m + 9) + 2) / 5 + d - 1 in
  let doe := yoe * 365 + yoe / 4 - yoe / 100 + doy in
  era * 146097 + doe - 719468.

Definition calendarDate (s : string) : option Date :=
  match digitAt s 0, digitAt s 1, digitAt s 2, digitAt s 3,
        digitAt s 5, digitAt s 6, digitAt s 8, digitAt s 9 with
  | Some y1, Some y2, Some y3, Some y4, Some m1, Some m2, Some d1, Some d2 =>
      let y := 1000 * y1 + 100 * y2 + 10 * y3 + y4 in
      let m := 10 * m1 + m2 in
      let d := 10 * d1 + d2 in
      if (String.length s =? 10)%nat && isDash s 4 && isDash s 7
         && (1 <=? m) && (m <=? 12) && (1 <=? d) && (d <=? daysInMonth y m)
      then Some (daysFromCivil y m d * 86400000)
      else None
  | _, _, _, _, _, _, _, _ => None
  end.

Definition noFaults : env := mkEnv (fun _ => false) 0 calendarDate.

(** [await op] under [e]. *)
Definition await {A : Type} (e : env) (op : dbop) (m : M A) : M A :=
  if fails e op then throw MongoError else m.

(** *** List operations behind the queries *)

(** Replace the first element satisfying [p]; returns it as replaced. *)
Fixpoint updateFirst {A : Type} (p : A -> bool) (f : A -> A) (l : list A)
  : list A * option A :=
  match l with
  | [] => ([], None)
  | a :: l' =>
      if p a then (f a :: l', Some (f a))
      else let (r, o) := updateFirst p f l' in (a :: r, o)
  end.

(** Remove the first element satisfying [p]; returns it. *)
Fixpoint removeFirst {A : Type} (p : A -> bool) (l : list A)
  : list A * option A :=
  match l with
  | [] => ([], None)
  | a :: l' =>
      if p a then (l', Some a)
      else let (r, o) := removeFirst p l' in (a :: r, o)
  end.

(** Remove the first [k] elements satisfying [p]. *)
Fixpoint removeUpTo {A : Type} (k : nat) (p : A -> bool) (l : list A) : list A :=
  match k, l with
  | O, _ => l
  | _, [] => []
  | S k', a :: l' => if p a then removeUpTo k' p l' else a :: removeUpTo k p l'
  end.

Definition orElse {A : Type} (o : option A) (d : A) : A :=
  match o with Some a => a | None => d end.

(** A [required: true] string path: present and not empty. *)
Definition requiredString (o : option string) : option string :=
  match o with
  | Some EmptyString => None
  | Some s => Some s
  | None => None
  end.

(** Fields of an update replace the stored ones; fields left out keep
    them. *)
Definition orKeep {A : Type} (new old : option A) : option A :=
  match new with Some _ => new | None => old end.

(** Mongoose's cast of a [Date] path: a path left out stays out, the
    empty string is [null], any other string is what the runtime reads
    in it, and an invalid date is a cast error ([None]).  The result
    [Some None] is a path without a date. *)
Definition castDate (e : env) (o : option string) : option (option Date) :=
  match o with
  | None => Some None
  | Some EmptyString => Some None
  | Some s =>
      match dateOf e s with
      | Some d => Some (Some d)
      | None => None
      end
  end.

(** The same cast in an update: [Some None] leaves the stored path as it
    is, [Some (Some v)] sets it to [v]. *)
Definition castDateSet (e : env) (o : option string)
  : option (option (option Date)) :=
  match o with
  | None => Some None
  | Some _ =>
      match castDate e o with
      | Some v => Some (Some v)
      | None => None
      end
  end.

(** The cast of an [_id] sent in a body: [Some None] when none is
    sent. *)
Definition castBodyId (o : option string) : option (option ObjectId) :=
  match o with
  | None => Some None
  | Some s =>
      match castObjectId s with
      | Some oid => Some (Some oid)
      | None => None
      end
  end.

Definition setCourses (l : list Course.t) : M unit :=
  modify (fun st => mkState l (students st) (nextId st)).

Definition setStudents (l : list Student.t) : M unit :=
  modify (fun st => mkState (courses st) l (nextId st)).

(** The generator draws a fresh [_id]. *)
Definition newObjectId : M ObjectId :=
  fun st => (inr (nextId st), mkState (courses st) (students st) (nextId st + 1)%N).

(** The generator never draws an id that has been stored: storing a
    document moves its counter past the document's id. *)
Definition stored (oid : ObjectId) : M unit :=
  modify (fun st =>
            mkState (courses st) (students st) (N.max (nextId st) (oid + 1))).

Definition hasId (oid : ObjectId) (c : Course.t) : bool :=
  (Course._id c =? oid)%N.

Definition hasStudentId (oid : ObjectId) (s : Student.t) : bool :=
  (Student._id s =? oid)%N.

Definition ofCourse (oid : ObjectId) (s : Student.t) : bool :=
  (Student.courseId s =? oid)%N.

(** *** The [Course] model *)

(** [new Course(body)]: the document keeps the [_id] of the body when it
    has one ([None] when that does not cast), and draws a fresh one
    otherwise. *)
Definition new_Course (b : CourseBody.t) : M (option ObjectId * CourseBody.t) :=
  match CourseBody._id b with
  | Some s => ret (castObjectId s, b)
  | None => id <- newObjectId ;; ret (Some id, b)
  end.

(** Schema validation of a new document: every path must cast, [title]
    is required, [language] defaults to "English". *)
Definition validateCourse (e : env) (doc : option ObjectId * CourseBody.t)
  : option Course.t :=
  let b := snd doc in
  match fst doc, requiredString (CourseBody.title b),
        castDate e (CourseBody.startDate b), castDate e (CourseBody.endDate b) with
  | Some id, Some t, Some sd, Some ed =>
      Some (Course.mk id t
              (CourseBody.description b) (CourseBody.whatYouLearn b) sd ed
              (orElse (CourseBody.language b) "English"))
  | _, _, _, _ => None
  end.

(** [doc.save()] of a new document: validation, then the insertion,
    which the database refuses when the collection has a document of
    the same [_id]. *)
Definition Course_save (e : env) (doc : option ObjectId * CourseBody.t)
  : M Course.t :=
  match validateCourse e doc with
  | None => throw ValidationError
  | Some c =>
      await e CourseSave
        (cs <- gets courses ;;
         if existsb (hasId (Course._id c)) cs then throw MongoError
         else setCourses (cs ++ [c]) ;;; stored (Course._id c) ;;; ret c)
  end.

(** [Course.find()] *)
Definition Course_find (e : env) : M (list Course.t) :=
  await e CourseFind (gets courses).

(** An update as cast against the schema. *)
Module CourseSet.
Record t : Type := mk {
  _id : option ObjectId;
  title : option string;
  description : option string;
  whatYouLearn : option string;
  startDate : option (option Date);
  endDate : option (option Date);
  language : option string
}.
End CourseSet.

Definition castCourseSet (e : env) (b : CourseBody.t) : option CourseSet.t :=
  match castBodyId (CourseBody._id b),
        castDateSet e (CourseBody.startDate b),
        castDateSet e (CourseBody.endDate b) with
  | Some i, Some sd, Some ed =>
      Some (CourseSet.mk i (CourseBody.title b) (CourseBody.description b)
              (CourseBody.whatYouLearn b) sd ed (CourseBody.language b))
  | _, _, _ => None
  end.

Definition applyCourseSet (u : CourseSet.t) (c : Course.t) : Course.t :=
  Course.mk (Course._id c)
    (orElse (CourseSet.title u) (Course.title c))
    (orKeep (CourseSet.description u) (Course.description c))
    (orKeep (CourseSet.whatYouLearn u) (Course.whatYouLearn c))
    (orElse (CourseSet.startDate u) (Course.startDate c))
    (orElse (CourseSet.endDate u) (Course.endDate c))
    (orElse (CourseSet.language u) (Course.language c)).

(** The update would give the document another [_id]: the database
    refuses it. *)
Definition changesId (i : option ObjectId) (oid : ObjectId) : bool :=
  match i with
  | Some x => negb (x =? oid)%N
  | None => false
  end.

(** [Course.findByIdAndUpdate(id, body, { new: true })]: the updated
    document, or [None] for [null] when no document has the id. *)
Definition Course_findByIdAndUpdate (e : env) (id : string) (b : CourseBody.t)
  : M (option Course.t) :=
  match castObjectId id, castCourseSet e b with
  | Some oid, Some u =>
      await e CourseFindByIdAndUpdate
        (cs <- gets courses ;;
         if existsb (hasId oid) cs
         then
           if changesId (CourseSet._id u) oid then throw MongoError
           else
             let (cs', r) := updateFirst (hasId oid) (applyCourseSet u) cs in
             setCourses cs' ;;; ret r
         else ret None)
  | _, _ => throw CastError
  end.

(** [Course.findByIdAndDelete(id)]: the removed document, or [None]. *)
Definition Course_findByIdAndDelete (e : env) (id : string) : M (option Course.t) :=
  match castObjectId id with
  | None => throw CastError
  | Some oid =>
      await e CourseFindByIdAndDelete
        (cs <- gets courses ;;
         let (cs', r) := removeFirst (hasId oid) cs in
         setCourses cs' ;;; ret r)
  end.

(** *** The [Student] model *)

(** [new Student(body)] *)
Definition new_Student (b : StudentBody.t) : M (option ObjectId * StudentBody.t) :=
  match StudentBody._id b with
  | Some s => ret (castObjectId s, b)
  | None => id <- newObjectId ;; ret (Some id, b)
  end.

(** Schema validation of a new document: every path must cast, [name],
    [email] and [courseId] are required.  Nothing looks the course
    up. *)
Definition validateStudent (e : env) (doc : option ObjectId * StudentBody.t)
  : option Student.t :=
  let b := snd doc in
  match fst doc,
        requiredString (StudentBody.name b),
        requiredString (StudentBody.email b),
        castDate e (StudentBody.joinDate b),
        StudentBody.courseId b with
  | Some id, Some n, Some m, Some jd, Some cid =>
      match castObjectId cid with
      | Some oid =>
          Some (Student.mk id n m
                  (StudentBody.phone b) jd
                  (StudentBody.totalFee b) (StudentBody.paidAmount b)
                  (StudentBody.reminderMessage b) oid)
      | None => None
      end
  | _, _, _, _, _ => None
  end.

(** [doc.save()] *)
Definition Student_save (e : env) (doc : option ObjectId * StudentBody.t)
  : M Student.t :=
  match validateStudent e doc with
  | None => throw ValidationError
  | Some s =>
      await e StudentSave
        (ss <- gets students ;;
         if existsb (hasStudentId (Student._id s)) ss then throw MongoError
         else setStudents (ss ++ [s]) ;;; stored (Student._id s) ;;; ret s)
  end.

(** [Student.find({ courseId })] *)
Definition Student_find (e : env) (courseId : ObjectId) : M (list Student.t) :=
  await e (StudentFind courseId)
    (ss <- gets students ;; ret (filter (ofCourse courseId) ss)).

(** The cast of the [courseId] of an update: [None] when it does not
    cast, [Some None] when the update has no [courseId]. *)
Definition castCourseId (b : StudentBody.t) : option (option ObjectId) :=
  match StudentBody.courseId b with
  | None => Some None
  | Some cid =>
      match castObjectId cid with
      | Some oid => Some (Some oid)
      | None => None
      end
  end.

(** An update as cast against the schema. *)
Module StudentSet.
Record t : Type := mk {
  _id : option ObjectId;
  name : option string;
  email : option string;
  phone : option string;
  joinDate : option (option Date);
  totalFee : option Z;
  paidAmount : option Z;
  reminderMessage : option string;
  courseId : option ObjectId
}.
End StudentSet.

Definition castStudentSet (e : env) (b : StudentBody.t) : option StudentSet.t :=
  match castBodyId (StudentBody._id b),
        castDateSet e (StudentBody.joinDate b),
        castCourseId b with
  | Some i, Some jd, Some cid =>
      Some (StudentSet.mk i (StudentBody.name b) (StudentBody.email b)
              (StudentBody.phone b) jd (StudentBody.totalFee b)
              (StudentBody.paidAmount b) (StudentBody.reminderMessage b) cid)
  | _, _, _ => None
  end.

Definition applyStudentSet (u : StudentSet.t) (s : Student.t) : Student.t :=
  Student.mk (Student._id s)
    (orElse (StudentSet.name u) (Student.name s))
    (orElse (StudentSet.email u) (Student.email s))
    (orKeep (StudentSet.phone u) (Student.phone s))
    (orElse (StudentSet.joinDate u) (Student.joinDate s))
    (orKeep (StudentSet.totalFee u) (Student.totalFee s))
    (orKeep (StudentSet.paidAmount u) (Student.paidAmount s))
    (orKeep (StudentSet.reminderMessage u) (Student.reminderMessage s))
    (orElse (StudentSet.courseId u) (Student.courseId s)).

(** [Student.findByIdAndUpdate(id, body, { new: true })] *)
Definition Student_findByIdAndUpdate (e : env) (id : string) (b : StudentBody.t)
  : M (option Student.t) :=
  match castObjectId id, castStudentSet e b with
  | Some oid, Some u =>
      await e StudentFindByIdAndUpdate
        (ss <- gets students ;;
         if existsb (hasStudentId oid) ss
         then
           if changesId (StudentSet._id u) oid then throw MongoError
           else
             let (ss', r) := updateFirst (hasStudentId oid) (applyStudentSet u) ss in
             setStudents ss' ;;; ret r
         else ret None)
  | _, _ => throw CastError
  end.

(** [Student.findByIdAndDelete(id)] *)
Definition Student_findByIdAndDelete (e : env) (id : string) : M (option Student.t) :=
  match castObjectId id with
  | None => throw CastError
  | Some oid =>
      await e StudentFindByIdAndDelete
        (ss <- gets students ;;
         let (ss', r) := removeFirst (hasStudentId oid) ss in
         setStudents ss' ;;; ret r)
  end.

(** [Student.deleteMany({ courseId })] *)
Definition Student_deleteMany (e : env) (courseId : string) : M unit :=
  match castObjectId courseId with
  | None => throw CastError
  | Some oid =>
      ss <- gets students ;;
      if fails e StudentDeleteMany
      then setStudents (removeUpTo (removedBeforeFailure e) (ofCourse oid) ss) ;;;
           throw MongoError
      else setStudents (filter (fun s => negb (ofCourse oid s)) ss)
  end.

(** ** The routes *)

Inductive json : Type :=
| JCourses (l : list CourseWithStudents.t)
| JCourseWithStudents (c : CourseWithStudents.t)
| JCourse (c : option Course.t)          (* [None] is [null] *)
| JStudent (s : option Student.t)        (* [None] is [null] *)
| JMessage (message : string)
| JError (e : error).                    (* [{ message: error.message }] *)

Record response : Type := mkResponse {
  status : Z;
  body : json
}.

(** [try { ... } catch (error) { res.status(code).json(...) }] *)
Definition tryCatch (m : M response) (code : Z) : state -> response * state :=
  fun st =>
    match m st with
    | (inr r, st') => (r, st')
    | (inl e, st') => (mkResponse code (JError e), st')
    end.

(** [GET /api/courses] *)
Definition get_courses (e : env) : state -> response * state :=
  tryCatch
    (courses <- Course_find e ;;
     coursesWithStudents <-
       mapM (fun course =>
               students <- Student_find e (Course._id course) ;;
               ret (CourseWithStudents.mk course students))
            courses ;;
     ret (mkResponse 200 (JCourses coursesWithStudents)))
    500.

(** [POST /api/courses] *)
Definition post_course (e : env) (b : CourseBody.t) : state -> response * state :=
  tryCatch
    (newCourse <- new_Course b ;;
     savedCourse <- Course_save e newCourse ;;
     ret (mkResponse 201 (JCourseWithStudents (CourseWithStudents.mk savedCourse []))))
    400.

(** [PUT /api/courses/:id] *)
Definition put_course (e : env) (id : string) (b : CourseBody.t)
  : state -> response * state :=
  tryCatch
    (updatedCourse <- Course_findByIdAndUpdate e id b ;;
     ret (mkResponse 200 (JCourse updatedCourse)))
    400.

(** [DELETE /api/courses/:id] *)
Definition delete_course (e : env) (id : string) : state -> response * state :=
  tryCatch
    (Student_deleteMany e id ;;;
     Course_findByIdAndDelete e id ;;;
     ret (mkResponse 200 (JMessage "Course and related students deleted")))
    500.

(** [POST /api/students] *)
Definition post_student (e : env) (b : StudentBody.t) : state -> response * state :=
  tryCatch
    (newStudent <- new_Student b ;;
     savedStudent <- Student_save e newStudent ;;
     ret (mkResponse 201 (JStudent (Some savedStudent))))
    400.

(** [PUT /api/students/:id] *)
Definition put_student (e : env) (id : string) (b : StudentBody.t)
  : state -> response * state :=
  tryCatch
    (updatedStudent <- Student_findByIdAndUpdate e id b ;;
     ret (mkResponse 200 (JStudent updatedStudent)))
    400.

(** [DELETE /api/students/:id] *)
Definition delete_student (e : env) (id : string) : state -> response * state :=
  tryCatch
    (Student_findByIdAndDelete e id ;;;
     ret (mkResponse 200 (JMessage "Student deleted")))
    500.

(** *** Runs of the server *)

Inductive request : Type :=
| GetCourses
| PostCourse (b : CourseBody.t)
| PutCourse (id : string) (b : CourseBody.t)
| DeleteCourse (id : string)
| PostStudent (b : StudentBody.t)
| PutStudent (id : string) (b : StudentBody.t)
| DeleteStudent (id : string).

Definition handle (e : env) (rq : request) : state -> response * state :=
  match rq with
  | GetCourses => get_courses e
  | PostCourse b => post_course e b
  | PutCourse id b => put_course e id b
  | DeleteCourse id => delete_course e id
  | PostStudent b => post_student e b
  | PutStudent id b => put_student e id b
  | DeleteStudent id => delete_student e id
  end.

(** The state after a sequence of requests, each served under its own
    database behaviour. *)
Fixpoint run (trace : list (env * request)) (st : state) : state :=
  match trace with
  | [] => st
  | (e, rq) :: trace' => run trace' (snd (handle e rq st))
  end.

(** No id occurs twice in the list. *)
Fixpoint distinct (l : list N) : bool :=
  match l with
  | [] => true
  | n :: l' => negb (existsb (N.eqb n) l') && distinct l'
  end.

(** Ids of the stored courses are distinct, and below the counter of
    the generator, which therefore draws none of them. *)
Definition wf (st : state) : bool :=
  forallb (fun c => (Course._id c <? nextId st)%N) (courses st)
  && distinct (map Course._id (courses st)).

(** ** Vocabulary of the statements *)

(** The students a fetched course carries: none when the field is
    missing. *)
Definition enrolled (c : Dashboard.Course) : list Dashboard.Student :=
  match Dashboard.students c with
  | Defined l => l
  | Undefined | Null => []
  end.

(** All students of the fetched list, course after course. *)
Definition allStudents (courses : list Dashboard.Course) : list Dashboard.Student :=
  flat_map enrolled courses.

(** The binary64 number that a positive whole number below 2^53 is: its
    bits, shifted to fill the 53 bits of the mantissa. *)
Definition canon (p : positive) : spec_float :=
  S754_finite false
    (Pos.shiftl_nat p (Z.to_nat (53 - Zpos (digits2_pos p))))
    (Zpos (digits2_pos p) - 53).

(** The balance of a student: what is left to pay, and nothing when the
    fee is paid or overpaid. *)
Definition balance (s : Dashboard.Student) : Z :=
  Z.max 0 (Dashboard.totalFee s - Dashboard.paidAmount s).

(** Both amounts of the student are whole numbers from 0 up to, and not
    including, 2^53. *)
Definition wholeAmounts (s : Dashboard.Student) : Prop :=
  0 <= Dashboard.paidAmount s < 2 ^ 53 /\ 0 <= Dashboard.totalFee s < 2 ^ 53.


(** The sum of [f] over a list. *)
Fixpoint sumOver {A : Type} (f : A -> Z) (l : list A) : Z :=
  match l with
  | [] => 0
  | a :: l' => f a + sumOver f l'
  end.

(** The number of elements satisfying [p]. *)
Definition countIf {A : Type} (p : A -> bool) (l : list A) : Z :=
  Z.of_nat (List.length (filter p l)).

(** A fetched course holding exactly the given students. *)
Definition courseOf (l : list Dashboard.Student) : Dashboard.Course :=
  Dashboard.mkCourse "" "" (Defined l).

(** The [_id] a new document gets from a body, and the state once the
    document is built. *)
Definition idOfNew (o : option string) (st : state) : option ObjectId :=
  match o with
  | Some s => castObjectId s
  | None => Some (nextId st)
  end.

Definition afterNew (o : option string) (st : state) : state :=
  match o with
  | Some _ => st
  | None => mkState (courses st) (students st) (nextId st + 1)%N
  end.

(** No stored course has the id. *)
Definition unknownCourse (oid : ObjectId) (st : state) : Prop :=
  forall c, In c (courses st) -> Course._id c <> oid.

(** No stored student has the id. *)
Definition unknownStudent (oid : ObjectId) (st : state) : Prop :=
  forall s, In s (students st) -> Student._id s <> oid.

(** The [courseId] of a create request as the schema casts it: [None]
    when it is missing or does not cast. *)
Definition bodyCourseId (b : StudentBody.t) : option ObjectId :=
  match StudentBody.courseId b with
  | Some cid => castObjectId cid
  | None => None
  end.

(** The environment in which exactly the given operation fails, after
    [k] removals if it is a [deleteMany]. *)
Definition failing (op : dbop) (k : nat) : env :=
  mkEnv
    (fun o =>
       match op, o with
       | CourseFind, CourseFind
       | CourseSave, CourseSave
       | StudentSave, StudentSave
       | CourseFindByIdAndUpdate, CourseFindByIdAndUpdate
       | StudentFindByIdAndUpdate, StudentFindByIdAndUpdate
       | CourseFindByIdAndDelete, CourseFindByIdAndDelete
       | StudentFindByIdAndDelete, StudentFindByIdAndDelete
       | StudentDeleteMany, StudentDeleteMany => true
       | StudentFind a, StudentFind b => (a =? b)%N
       | _, _ => false
       end)
    k calendarDate.

(** No stored course carries the id, and the generator will not draw
    it: the state of a course id after its course has been deleted. *)
Definition retired (oid : ObjectId) (st : state) : Prop :=
  unknownCourse oid st /\ (oid < nextId st)%N.

(** The request creates a Course under the given id: its body carries
    the id as [_id]. *)
Definition recreates (oid : ObjectId) (rq : request) : bool :=
  match rq with
  | PostCourse b =>
      match CourseBody._id b with
      | Some i =>
          match castObjectId i with
          | Some x => (x =? oid)%N
          | None => false
          end
      | None => false
      end
  | _ => false
  end.

(** ** More of the component *)

(** [fetchCourses], after [setCourses(res.data)]: the selection it leaves.
    [ref] is [selectedCourseRef.current], [selected] the selection state
    (kept as it is when [setSelectedCourse] is not called), [data] the
    fetched list. *)
Definition fetchCourses_selection
    (ref selected : option Dashboard.Course) (data : list Dashboard.Course)
  : option Dashboard.Course :=
  match ref with
  | Some currentSelected =>
      match find (fun c => String.eqb (Dashboard.c_id c) (Dashboard.c_id currentSelected))
                 data with
      | Some updatedSelected => Some updatedSelected
      | None => match data with c :: _ => Some c | [] => None end
      end
  | None =>
      match data with
      | c :: _ => Some c
      | [] => selected
      end
  end.

(** What the component renders once loading is over. *)
Inductive screen : Type :=
| NoCoursesScreen      (* "No courses available", with the create button *)
| BlankScreen          (* [return null] *)
| DashboardScreen (selectedCourse : Dashboard.Course).

Definition render (selectedCourse : option Dashboard.Course)
    (courses : list Dashboard.Course) : screen :=
  match selectedCourse with
  | None =>
      if (List.length courses =? 0)%nat then NoCoursesScreen else BlankScreen
  | Some c => DashboardScreen c
  end.

(** The header of the students table, [students?.length || 0], and the
    test of its empty row, [!students || students.length === 0]. *)
Definition enrolledCount (c : Dashboard.Course) : Z :=
  orNumber (optChain (Dashboard.students c) (fun l => Z.of_nat (List.length l))) 0.

Definition showsEmptyRow (c : Dashboard.Course) : bool :=
  match Dashboard.students c with
  | Defined l => (List.length l =? 0)%nat
  | Undefined | Null => true
  end.

(** [s.replace(pattern, replacement)] with a string pattern: the first
    occurrence only. *)
Fixpoint dropString (n : nat) (s : string) : string :=
  match n, s with
  | O, _ => s
  | S n', String _ s' => dropString n' s'
  | S _, EmptyString => EmptyString
  end.

Fixpoint replace (s pattern replacement : string) : string :=
  if startsWith s pattern
  then (replacement ++ dropString (String.length pattern) s)%string
  else match s with
       | String c s' => String c (replace s' pattern replacement)
       | EmptyString => EmptyString
       end.

(** [String(n)] for an integer [n]: its decimal digits, with a minus
    sign when negative.  (JavaScript prints this way below 10^21.) *)
Definition numberToString (n : Z) : string :=
  DecimalString.NilZero.string_of_int (Z.to_int n).

(** The values the student form opens with when editing a student:
    [phone?.replace("+91", "")], [totalFee || 18000], [paidAmount || 0]. *)
Definition phoneDefaultValue (editingStudent : Dashboard.Student) : string :=
  replace (Dashboard.phone editingStudent) "+91" "".

Definition totalFeeDefaultValue (editingStudent : Dashboard.Student) : string :=
  numberToString (orNumber (Defined (Dashboard.totalFee editingStudent)) 18000).

Definition paidAmountDefaultValue (editingStudent : Dashboard.Student) : string :=
  numberToString (orNumber (Defined (Dashboard.paidAmount editingStudent)) 0).

(** The course form and the [data] object that [handleSaveCourse]
    sends. *)
Module CourseForm.
Record t : Type := mk {
  courseTitle : string;
  description : string;
  whatYouLearn : string;
  startDate : string;
  endDate : string
}.
End CourseForm.

Definition handleSaveCourse_data (form : CourseForm.t) : CourseBody.t :=
  CourseBody.mk None
    (Some (CourseForm.courseTitle form))
    (Some (CourseForm.description form))
    (Some (CourseForm.whatYouLearn form))
    (Some (CourseForm.startDate form))
    (Some (CourseForm.endDate form))
    (Some "English").

(** The character occurs in the string. *)
Fixpoint occursIn (c : ascii) (s : string) : bool :=
  match s with
  | EmptyString => false
  | String a s' => Ascii.eqb a c || occursIn c s'
  end.

(** The first fetched course, [data[0] || null]. *)
Definition firstCourse (data : list Dashboard.Course) : option Dashboard.Course :=
  match data with
  | c :: _ => Some c
  | [] => None
  end.

(** The body that [updateStudentReminder] sends:
    [{ ...selectedStudent, reminderMessage: message }], the copy's own
    [_id] included. *)
Definition updateStudentReminder_data (selectedStudent : Dashboard.Student)
    (message : string) : StudentBody.t :=
  StudentBody.mk
    (Some (Dashboard.s_id selectedStudent))
    (Some (Dashboard.name selectedStudent))
    (Some (Dashboard.email selectedStudent))
    (Some (Dashboard.phone selectedStudent))
    (Some (Dashboard.joinDate selectedStudent))
    (Some (Dashboard.totalFee selectedStudent))
    (Some (Dashboard.paidAmount selectedStudent))
    (Some message)
    (Some (Dashboard.courseId selectedStudent)).

(** The component's copy of a student agrees with the stored document,
    the reminder message apart: ids and the date are the stored ones as
    the listing prints them, so they cast back to what is stored. *)
Definition mirrors (e : env) (v : Dashboard.Student) (s : Student.t) : Prop :=
  castObjectId (Dashboard.s_id v) = Some (Student._id s)
  /\ Dashboard.name v = Student.name s
  /\ Dashboard.email v = Student.email s
  /\ Some (Dashboard.phone v) = Student.phone s
  /\ castDate e (Some (Dashboard.joinDate v)) = Some (Student.joinDate s)
  /\ Some (Dashboard.totalFee v) = Student.totalFee s
  /\ Some (Dashboard.paidAmount v) = Student.paidAmount s
  /\ castObjectId (Dashboard.courseId v) = Some (Student.courseId s).

(** The stored document with another reminder message. *)
Definition withReminder (s : Student.t) (message : string) : Student.t :=
  Student.mk (Student._id s) (Student.name s) (Student.email s) (Student.phone s)
    (Student.joinDate s) (Student.totalFee s) (Student.paidAmount s)
    (Some message) (Student.courseId s).

(** ** More vocabulary for the record service *)

(** Ids of the stored students are distinct, and below the counter of
    the generator. *)
Definition wfStudents (st : state) : bool :=
  forallb (fun s => (Student._id s <? nextId st)%N) (students st)
  && distinct (map Student._id (students st)).

(** Every stored student names a stored course. *)
Definition noOrphans (st : state) : bool :=
  forallb (fun s => existsb (hasId (Student.courseId s)) (courses st)) (students st).

(** The course a student write names, if it names one, is stored. *)
Definition namesStoredCourse (st : state) (rq : request) : bool :=
  match rq with
  | PostStudent b =>
      match bodyCourseId b with
      | Some oid => existsb (hasId oid) (courses st)
      | None => true
      end
  | PutStudent _ b =>
      match castCourseId b with
      | Some (Some oid) => existsb (hasId oid) (courses st)
      | _ => true
      end
  | _ => true
  end.

(** The status a route answers with when it succeeds, and when it
    catches an error. *)
Definition successStatus (rq : request) : Z :=
  match rq with
  | PostCourse _ | PostStudent _ => 201
  | _ => 200
  end.

Definition errorStatus (rq : request) : Z :=
  match rq with
  | GetCourses | DeleteCourse _ | DeleteStudent _ => 500
  | _ => 400
  end.

Definition isError (r : response) : bool :=
  match body r with
  | JError _ => true
  | _ => false
  end.

(** The students a listing shows, view after view. *)
Definition listedStudents (l : list CourseWithStudents.t) : list Student.t :=
  flat_map CourseWithStudents.students l.

(** * Properties of the dashboard *)

Section Folds.

Context {A : Type} (f : A -> Z).

Lemma fold_left_add_from (l : list A) (a : Z) :
  fold_left (fun sum x => sum + f x) l a = a + sumOver f l.
Proof.
  revert a; induction l as [| x l IH]; intros a; simpl.
  - lia.
  - rewrite IH. lia.
Qed.

Lemma sumOver_app (l1 l2 : list A) :
  sumOver f (l1 ++ l2) = sumOver f l1 + sumOver f l2.
Proof.
  induction l1 as [| x l1 IH]; simpl; [reflexivity | rewrite IH; lia].
Qed.

Lemma sumOver_ext (g : A -> Z) (l : list A) :
  (forall x, f x = g x) -> sumOver f l = sumOver g l.
Proof.
  intros E; induction l as [| x l IH]; simpl; [reflexivity | now rewrite E, IH].
Qed.

End Folds.

Lemma sumOver_flat_map {A B : Type} (g : A -> list B) (f : B -> Z) (l : list A) :
  sumOver f (flat_map g l) = sumOver (fun a => sumOver f (g a)) l.
Proof.
  induction l as [| a l IH]; simpl; [reflexivity |].
  now rewrite sumOver_app, IH.
Qed.

Lemma countIf_sumOver {A : Type} (p : A -> bool) (l : list A) :
  countIf p l = sumOver (fun a => if p a then 1 else 0) l.
Proof.
  unfold countIf; induction l as [| a l IH]; simpl; [reflexivity |].
  destruct (p a); simpl List.length; lia.
Qed.

(** [(n || 0)] is [n] whatever [n] is. *)
Lemma orNumber_zero (v : maybe Z) :
  orNumber v 0 = match v with Defined n => n | _ => 0 end.
Proof.
  destruct v as [| | n]; simpl; try reflexivity.
  destruct (Z.eqb_spec n 0); congruence.
Qed.

(** The per-student term of [totalPendingFees]. *)
Lemma pending_term (p t : Z) :
  (if p <? t then t - p else 0) = Z.max 0 (t - p).
Proof. destruct (Z.ltb_spec p t); lia. Qed.

(** The three folds, as sums over the courses. *)
Lemma totalStudents_sum (cs : list Dashboard.Course) :
  Dashboard.totalStudents cs = sumOver (fun c => Z.of_nat (List.length (enrolled c))) cs.
Proof.
  unfold Dashboard.totalStudents. rewrite fold_left_add_from. simpl.
  apply sumOver_ext; intros c. rewrite orNumber_zero. unfold enrolled.
  destruct (Dashboard.students c); reflexivity.
Qed.

Lemma totalPendingFees_sum (cs : list Dashboard.Course) :
  Dashboard.totalPendingFees cs =
  sumOver
    (fun c =>
       sumOver (fun s => Z.max 0 (Dashboard.totalFee s - Dashboard.paidAmount s))
         (enrolled c))
    cs.
Proof.
  unfold Dashboard.totalPendingFees. rewrite fold_left_add_from. simpl.
  apply sumOver_ext; intros c. rewrite orNumber_zero. unfold enrolled.
  destruct (Dashboard.students c) as [| | l]; simpl; try reflexivity.
  rewrite fold_left_add_from. simpl.
  apply sumOver_ext; intros s. apply pending_term.
Qed.

Lemma reminders_sum (cs : list Dashboard.Course) :
  Dashboard.reminders cs =
  sumOver
    (fun c =>
       countIf (fun s => Dashboard.paidAmount s <? Dashboard.totalFee s) (enrolled c))
    cs.
Proof.
  unfold Dashboard.reminders. rewrite fold_left_add_from. simpl.
  apply sumOver_ext; intros c. rewrite orNumber_zero. unfold enrolled.
  destruct (Dashboard.students c); reflexivity.
Qed.

Lemma sumOver_nonneg_in {A : Type} (f : A -> Z) (l : list A) :
  (forall a, In a l -> 0 <= f a) -> 0 <= sumOver f l.
Proof.
  intros H. induction l as [| a l IH]; simpl; [lia |].
  pose proof (H a (or_introl eq_refl)).
  assert (0 <= sumOver f l) by (apply IH; intros x Hx; apply H; now right).
  lia.
Qed.

(** ** Whole numbers among the binary64 numbers

    Sums, differences and comparisons of whole numbers are exact as long
    as they stay below 2^53. *)

Lemma digits2_pos_size (p : positive) : digits2_pos p = Pos.size p.
Proof. induction p; simpl; congruence. Qed.

Lemma digits2_shiftl (p : positive) (j : nat) :
  Zpos (digits2_pos (Pos.shiftl_nat p j)) = Zpos (digits2_pos p) + Z.of_nat j.
Proof.
  induction j as [| j IH].
  - simpl. lia.
  - change (Pos.shiftl_nat p (S j)) with (xO (Pos.shiftl_nat p j)).
    cbn [digits2_pos]. rewrite Pos2Z.inj_succ, IH. lia.
Qed.

Lemma iter_pos_nat {A : Type} (f : A -> A) (n : positive) (x : A) :
  iter_pos f n x = Nat.iter (Pos.to_nat n) f x.
Proof.
  revert x. induction n as [n IH | n IH |]; intros x; cbn [iter_pos].
  - rewrite !IH. rewrite Pos2Nat.inj_xI.
    replace (S (2 * Pos.to_nat n))%nat with (Pos.to_nat n + (Pos.to_nat n + 1))%nat by lia.
    rewrite !Nat.iter_add. simpl. reflexivity.
  - rewrite !IH. rewrite Pos2Nat.inj_xO.
    replace (2 * Pos.to_nat n)%nat with (Pos.to_nat n + Pos.to_nat n)%nat by lia.
    rewrite Nat.iter_add. reflexivity.
  - reflexivity.
Qed.

Lemma pos_iter_shiftl (p d : positive) :
  Pos.iter xO p d = Pos.shiftl_nat p (Pos.to_nat d).
Proof.
  rewrite Pos2Nat.inj_iter. unfold Pos.shiftl_nat.
  induction (Pos.to_nat d); simpl; congruence.
Qed.

Lemma shiftl_nat_add (p : positive) (a b : nat) :
  Pos.shiftl_nat (Pos.shiftl_nat p a) b = Pos.shiftl_nat p (a + b).
Proof.
  induction b as [| b IH].
  - now rewrite Nat.add_0_r.
  - rewrite Nat.add_succ_r.
    change (Pos.shiftl_nat (Pos.shiftl_nat p a) (S b))
      with (xO (Pos.shiftl_nat (Pos.shiftl_nat p a) b)).
    change (Pos.shiftl_nat p (S (a + b))) with (xO (Pos.shiftl_nat p (a + b))).
    now rewrite IH.
Qed.

Lemma shr_shiftl (p : positive) (n : nat) :
  Nat.iter n shr_1 (Build_shr_record (Zpos (Pos.shiftl_nat p n)) false false)
  = Build_shr_record (Zpos p) false false.
Proof.
  revert p. induction n as [| n IH]; intros p.
  - reflexivity.
  - rewrite Nat.iter_succ_r.
    change (Pos.shiftl_nat p (S n)) with (xO (Pos.shiftl_nat p n)).
    cbn [shr_1 orb]. apply IH.
Qed.

Lemma shiftl_nat_Z (p : positive) (j : nat) :
  Zpos (Pos.shiftl_nat p j) = Zpos p * 2 ^ Z.of_nat j.
Proof.
  induction j as [| j IH].
  - simpl. lia.
  - change (Pos.shiftl_nat p (S j)) with (xO (Pos.shiftl_nat p j)).
    rewrite Pos2Z.inj_xO, IH, Nat2Z.inj_succ, Z.pow_succ_r by lia. lia.
Qed.

Lemma digits_bound (p : positive) :
  Zpos p < 2 ^ 53 -> Zpos (digits2_pos p) <= 53.
Proof.
  intros H. rewrite digits2_pos_size.
  pose proof (Pos.size_le p) as L.
  destruct (Z.le_gt_cases (Zpos (Pos.size p)) 53) as [G | G]; [assumption |].
  exfalso.
  assert (2 ^ 54 <= 2 ^ Zpos (Pos.size p)) by (apply Z.pow_le_mono_r; lia).
  assert (E : Zpos (2 ^ Pos.size p) = 2 ^ Zpos (Pos.size p)) by (now rewrite Pos2Z.inj_pow).
  assert (Zpos (2 ^ Pos.size p) <= Zpos p~0) by (apply Pos2Z.pos_le_pos; exact L).
  rewrite Pos2Z.inj_xO in *. change (2 ^ 54) with (2 * 2 ^ 53) in *. lia.
Qed.

Lemma round_shifted (s : bool) (p : positive) (j : nat) :
  Zpos p < 2 ^ 53 ->
  binary_round Number.prec Number.emax s (Pos.shiftl_nat p j) (- Z.of_nat j)
  = S754_finite s
      (Pos.shiftl_nat p (Z.to_nat (53 - Zpos (digits2_pos p))))
      (Zpos (digits2_pos p) - 53).
Proof.
  intros B. pose proof (digits_bound p B) as D.
  set (d := Zpos (digits2_pos p)) in *.
  assert (d >= 1) by (unfold d; lia).
  unfold binary_round.
  rewrite digits2_shiftl. fold d.
  replace (d + Z.of_nat j + - Z.of_nat j) with d by lia.
  assert (FE : fexp Number.prec Number.emax d = d - 53).
  { unfold fexp, emin, Number.prec, Number.emax. lia. }
  rewrite FE. unfold shl_align.
  destruct (d - 53 - - Z.of_nat j) as [| n | n] eqn:N.
  - (* no shift at all *)
    unfold binary_round_aux, shr_fexp. cbn [Zdigits2].
    rewrite digits2_shiftl. fold d.
    replace (d + Z.of_nat j + - Z.of_nat j) with d by lia. rewrite FE.
    replace (d - 53 - - Z.of_nat j) with 0 by lia. cbn [shr shr_record_of_loc].
    cbn [shr_m loc_of_shr_record round_nearest_even Zdigits2].
    rewrite digits2_shiftl. fold d.
    replace (d + Z.of_nat j + - Z.of_nat j) with d by lia. rewrite FE.
    replace (d - 53 - - Z.of_nat j) with 0 by lia. cbn [shr shr_m].
    replace (- Z.of_nat j <=? Number.emax - Number.prec) with true
      by (symmetry; apply Z.leb_le; unfold Number.emax, Number.prec; lia).
    f_equal; [| lia]. f_equal. lia.
  - (* shift right by n <= j *)
    unfold binary_round_aux, shr_fexp. cbn [Zdigits2].
    rewrite digits2_shiftl. fold d.
    replace (d + Z.of_nat j + - Z.of_nat j) with d by lia. rewrite FE, N.
    cbn [shr shr_record_of_loc]. rewrite iter_pos_nat.
    assert (J : (j = Z.to_nat (53 - d) + Pos.to_nat n)%nat) by lia.
    assert (E : Nat.iter (Pos.to_nat n) shr_1
                  (Build_shr_record (Zpos (Pos.shiftl_nat p j)) false false)
                = Build_shr_record (Zpos (Pos.shiftl_nat p (Z.to_nat (53 - d))))
                    false false).
    { rewrite J at 1. rewrite <- shiftl_nat_add. apply shr_shiftl. }
    rewrite E.
    cbn [shr_m loc_of_shr_record round_nearest_even Zdigits2].
    rewrite digits2_shiftl. fold d.
    replace (d + Z.of_nat (Z.to_nat (53 - d)) + (- Z.of_nat j + Z.pos n)) with d by lia.
    rewrite FE.
    replace (d - 53 - (- Z.of_nat j + Z.pos n)) with 0 by lia. cbn [shr shr_m].
    replace (- Z.of_nat j + Z.pos n <=? Number.emax - Number.prec) with true
      by (symmetry; apply Z.leb_le; unfold Number.emax, Number.prec; lia).
    f_equal. lia.
  - (* shift left by n *)
    rewrite pos_iter_shiftl, shiftl_nat_add.
    unfold binary_round_aux, shr_fexp. cbn [Zdigits2].
    rewrite digits2_shiftl. fold d.
    replace (d + Z.of_nat (j + Pos.to_nat n) + (d - 53)) with (53 + (d - 53) + 0) by lia.
    replace (53 + (d - 53) + 0) with d by lia. rewrite FE.
    replace (d - 53 - (d - 53)) with 0 by lia. cbn [shr shr_record_of_loc].
    cbn [shr_m loc_of_shr_record round_nearest_even Zdigits2].
    rewrite digits2_shiftl. fold d.
    replace (d + Z.of_nat (j + Pos.to_nat n) + (d - 53)) with d by lia. rewrite FE.
    replace (d - 53 - (d - 53)) with 0 by lia. cbn [shr shr_m].
    replace (d - 53 <=? Number.emax - Number.prec) with true
      by (symmetry; apply Z.leb_le; unfold Number.emax, Number.prec; lia).
    f_equal. f_equal. lia.
Qed.

Lemma ofZ_pos (p : positive) :
  Zpos p < 2 ^ 53 -> Number.ofZ (Zpos p) = canon p.
Proof.
  intros B. unfold Number.ofZ, binary_normalize.
  exact (round_shifted false p 0 B).
Qed.

Lemma shl_align_fst (m : positive) (e ez : Z) :
  ez <= e ->
  fst (shl_align m e ez) = Pos.shiftl_nat m (Z.to_nat (e - ez)).
Proof.
  intros L. unfold shl_align.
  destruct (ez - e) as [| n | n] eqn:N; simpl fst.
  - replace (e - ez) with 0 by lia. reflexivity.
  - lia.
  - rewrite pos_iter_shiftl. f_equal. lia.
Qed.

Lemma shiftl_nat_plus (p q : positive) (j : nat) :
  Zpos (Pos.shiftl_nat p j) + Zpos (Pos.shiftl_nat q j)
  = Zpos (Pos.shiftl_nat (p + q) j).
Proof. rewrite !shiftl_nat_Z, Pos2Z.inj_add. lia. Qed.

Lemma shiftl_nat_minus (p q : positive) (j : nat) :
  (q < p)%positive ->
  Zpos (Pos.shiftl_nat p j) - Zpos (Pos.shiftl_nat q j)
  = Zpos (Pos.shiftl_nat (p - q) j).
Proof. intros L. rewrite !shiftl_nat_Z, Pos2Z.inj_sub by assumption. lia. Qed.

(** The two mantissas of a sum or difference of whole numbers, aligned. *)
Lemma aligned (p q : positive) :
  Zpos p < 2 ^ 53 -> Zpos q < 2 ^ 53 ->
  let ez := Z.min (Zpos (digits2_pos p) - 53) (Zpos (digits2_pos q) - 53) in
  ez = - Z.of_nat (Z.to_nat (- ez))
  /\ fst (shl_align (Pos.shiftl_nat p (Z.to_nat (53 - Zpos (digits2_pos p))))
            (Zpos (digits2_pos p) - 53) ez)
     = Pos.shiftl_nat p (Z.to_nat (- ez))
  /\ fst (shl_align (Pos.shiftl_nat q (Z.to_nat (53 - Zpos (digits2_pos q))))
            (Zpos (digits2_pos q) - 53) ez)
     = Pos.shiftl_nat q (Z.to_nat (- ez)).
Proof.
  intros Bp Bq ez.
  pose proof (digits_bound p Bp). pose proof (digits_bound q Bq).
  split; [lia |]. split.
  - rewrite shl_align_fst by lia. rewrite shiftl_nat_add. f_equal. lia.
  - rewrite shl_align_fst by lia. rewrite shiftl_nat_add. f_equal. lia.
Qed.

Lemma add_exact (a b : Z) :
  0 <= a -> 0 <= b -> a + b < 2 ^ 53 ->
  Number.add (Number.ofZ a) (Number.ofZ b) = Number.ofZ (a + b).
Proof.
  intros A B S.
  destruct a as [| p |]; [| | lia]; destruct b as [| q |]; try lia.
  - reflexivity.
  - rewrite Z.add_0_l. rewrite ofZ_pos by lia. reflexivity.
  - rewrite Z.add_0_r. rewrite ofZ_pos by lia. reflexivity.
  - rewrite (ofZ_pos p), (ofZ_pos q) by lia.
    unfold Number.add, canon, SFadd.
    destruct (aligned p q ltac:(lia) ltac:(lia)) as (E & Hp & Hq).
    cbv zeta in E, Hp, Hq. rewrite Hp, Hq. cbn [cond_Zopp].
    rewrite shiftl_nat_plus. rewrite E at 2.
    change (Zpos p + Zpos q) with (Zpos (p + q)).
    unfold binary_normalize. rewrite round_shifted by (rewrite Pos2Z.inj_add; lia).
    rewrite ofZ_pos by (rewrite Pos2Z.inj_add; lia). reflexivity.
Qed.

Lemma sub_exact (a b : Z) :
  0 <= b -> b <= a -> a < 2 ^ 53 ->
  Number.sub (Number.ofZ a) (Number.ofZ b) = Number.ofZ (a - b).
Proof.
  intros B L A.
  destruct a as [| p |]; [| | lia]; destruct b as [| q |]; try lia.
  - reflexivity.
  - rewrite Z.sub_0_r. rewrite ofZ_pos by lia. reflexivity.
  - rewrite (ofZ_pos p), (ofZ_pos q) by lia.
    unfold Number.sub, canon, SFsub.
    destruct (aligned p q ltac:(lia) ltac:(lia)) as (E & Hp & Hq).
    cbv zeta in E, Hp, Hq. rewrite Hp, Hq. cbn [cond_Zopp].
    destruct (Pos.eq_dec p q) as [-> | NE].
    + rewrite !Z.sub_diag. reflexivity.
    + assert (Q : (q < p)%positive) by lia.
      rewrite shiftl_nat_minus by assumption. rewrite E at 2.
      unfold binary_normalize.
      rewrite round_shifted by (rewrite Pos2Z.inj_sub by assumption; lia).
      replace (Zpos p - Zpos q) with (Zpos (p - q))
        by (rewrite Pos2Z.inj_sub by assumption; reflexivity).
      rewrite ofZ_pos by (rewrite Pos2Z.inj_sub by assumption; lia). reflexivity.
Qed.

Lemma size_bounds (p : positive) :
  2 ^ (Zpos (digits2_pos p) - 1) <= Zpos p < 2 ^ Zpos (digits2_pos p).
Proof.
  rewrite digits2_pos_size.
  assert (L : 2 ^ Zpos (Pos.size p) <= 2 * Zpos p).
  { pose proof (Pos.size_le p) as L. apply Pos2Z.pos_le_pos in L.
    rewrite Pos2Z.inj_pow in L. exact L. }
  assert (G : Zpos p < 2 ^ Zpos (Pos.size p)).
  { pose proof (Pos.size_gt p) as G. apply Pos2Z.pos_lt_pos in G.
    rewrite Pos2Z.inj_pow in G. exact G. }
  split; [| assumption].
  assert (E : 2 ^ Zpos (Pos.size p) = 2 * 2 ^ (Zpos (Pos.size p) - 1)).
  { rewrite <- Z.pow_succ_r by lia. f_equal. lia. }
  lia.
Qed.

Lemma compare_exact (a b : Z) :
  0 <= a < 2 ^ 53 -> 0 <= b < 2 ^ 53 ->
  SFcompare (Number.ofZ a) (Number.ofZ b) = Some (a ?= b).
Proof.
  intros A B.
  destruct a as [| p |]; [| | lia]; destruct b as [| q |]; try lia.
  - reflexivity.
  - rewrite ofZ_pos by lia. reflexivity.
  - rewrite ofZ_pos by lia. reflexivity.
  - rewrite (ofZ_pos p), (ofZ_pos q) by lia. unfold canon, SFcompare.
    pose proof (size_bounds p) as Sp. pose proof (size_bounds q) as Sq.
    pose proof (digits_bound p ltac:(lia)). pose proof (digits_bound q ltac:(lia)).
    set (dp := Zpos (digits2_pos p)) in *. set (dq := Zpos (digits2_pos q)) in *.
    f_equal.
    destruct (Z.compare_spec (dp - 53) (dq - 53)) as [E | E | E].
    + replace dq with dp by lia.
      rewrite Pos.compare_cont_spec.
      set (k := Z.to_nat (53 - dp)).
      change ((Pos.shiftl_nat p k ?= Pos.shiftl_nat q k)%positive)
        with (Zpos (Pos.shiftl_nat p k) ?= Zpos (Pos.shiftl_nat q k)).
      rewrite !shiftl_nat_Z.
      assert (P : 0 < 2 ^ Z.of_nat k) by (apply Z.pow_pos_nonneg; lia).
      destruct (Z.compare_spec (Zpos p) (Zpos q));
        destruct (Z.compare_spec (Zpos p * 2 ^ Z.of_nat k) (Zpos q * 2 ^ Z.of_nat k));
        try reflexivity; nia.
    + symmetry. apply Z.compare_lt_iff.
      assert (2 ^ dp <= 2 ^ (dq - 1)) by (apply Z.pow_le_mono_r; lia). lia.
    + symmetry. apply Z.compare_gt_iff.
      assert (2 ^ dq <= 2 ^ (dp - 1)) by (apply Z.pow_le_mono_r; lia). lia.
Qed.

Lemma lt_exact (a b : Z) :
  0 <= a < 2 ^ 53 -> 0 <= b < 2 ^ 53 ->
  Number.lt (Number.ofZ a) (Number.ofZ b) = (a <? b).
Proof.
  intros A B. unfold Number.lt. rewrite compare_exact by assumption.
  unfold Z.ltb. destruct (a ?= b); reflexivity.
Qed.


Lemma toZ_ofZ (n : Z) : 0 <= n < 2 ^ 53 -> Number.toZ (Number.ofZ n) = Some n.
Proof.
  intros B. destruct n as [| p |]; [reflexivity | | lia].
  rewrite ofZ_pos by lia. unfold canon, Number.toZ.
  pose proof (digits_bound p ltac:(lia)) as D.
  set (d := Zpos (digits2_pos p)) in *.
  rewrite shiftl_nat_Z. cbn [cond_Zopp].
  destruct (d - 53) as [| k | k] eqn:E; try lia.
  - replace (53 - d) with 0 by lia. simpl Z.of_nat. f_equal. lia.
  - replace (Z.of_nat (Z.to_nat (53 - d))) with (Zpos k) by lia.
    assert (P : 0 < 2 ^ Zpos k) by (apply Z.pow_pos_nonneg; lia).
    rewrite Z.mod_mul by lia. rewrite Z.eqb_refl.
    rewrite Z.div_mul by lia. reflexivity.
Qed.

Lemma orElse_ofZ (n : Z) :
  0 <= n < 2 ^ 53 ->
  Number.orElse (Defined (Number.ofZ n)) Number.zero = Number.ofZ n.
Proof.
  intros B. destruct n as [| p |]; [reflexivity | | lia].
  rewrite ofZ_pos by lia. reflexivity.
Qed.

Lemma owes_fetched (s : Dashboard.Student) :
  wholeAmounts s ->
  Analytics.owes (Analytics.fetched s)
  = (Dashboard.paidAmount s <? Dashboard.totalFee s).
Proof. intros [P F]. unfold Analytics.owes. simpl. now apply lt_exact. Qed.

Lemma pending_fetched (s : Dashboard.Student) :
  wholeAmounts s ->
  Analytics.pending (Analytics.fetched s) = Number.ofZ (balance s).
Proof.
  intros W. unfold Analytics.pending, balance. rewrite owes_fetched by assumption.
  destruct W as [P F]. simpl.
  destruct (Z.ltb_spec (Dashboard.paidAmount s) (Dashboard.totalFee s)) as [L | L].
  - rewrite sub_exact by lia. f_equal. lia.
  - replace (Z.max 0 (Dashboard.totalFee s - Dashboard.paidAmount s)) with 0 by lia.
    reflexivity.
Qed.

(** A left fold of [+] over whole terms is their sum, as long as the sum
    stays below 2^53. *)
Lemma fold_add_exact {A B : Type} (f : A -> B) (g : B -> Number.t) (z : A -> Z)
    (l : list A) (a : Z) :
  (forall x, In x l -> 0 <= z x /\ g (f x) = Number.ofZ (z x)) ->
  0 <= a ->
  a + sumOver z l < 2 ^ 53 ->
  fold_left (fun acc y => Number.add acc (g y)) (map f l) (Number.ofZ a)
  = Number.ofZ (a + sumOver z l).
Proof.
  revert a. induction l as [| x l IH]; intros a H Ha S; simpl.
  - f_equal. lia.
  - simpl in S. destruct (H x (or_introl eq_refl)) as [Zx Gx].
    assert (N : 0 <= sumOver z l).
    { apply sumOver_nonneg_in. intros y Hy. apply H. now right. }
    rewrite Gx, add_exact by lia.
    rewrite IH; [f_equal; lia | | lia | lia].
    intros y Hy. apply H. now right.
Qed.

Lemma balance_nonneg (s : Dashboard.Student) : 0 <= balance s.
Proof. unfold balance. lia. Qed.

Lemma studentsTotal_fetched (l : list Dashboard.Student) :
  (forall s, In s l -> wholeAmounts s) ->
  sumOver balance l < 2 ^ 53 ->
  Number.orElse
    (Defined
       (fold_left (fun sSum s => Number.add sSum (Analytics.pending s))
          (map Analytics.fetched l) Number.zero))
    Number.zero
  = Number.ofZ (sumOver balance l).
Proof.
  intros W S.
  change Number.zero with (Number.ofZ 0) at 1.
  rewrite (fold_add_exact Analytics.fetched Analytics.pending balance l 0).
  - simpl. apply orElse_ofZ. split; [| assumption].
    apply sumOver_nonneg_in. intros. apply balance_nonneg.
  - intros s Hs. split; [apply balance_nonneg | now apply pending_fetched, W].
  - lia.
  - lia.
Qed.

Lemma courseTotal_fetched (c : Dashboard.Course) :
  (forall s, In s (enrolled c) -> wholeAmounts s) ->
  sumOver balance (enrolled c) < 2 ^ 53 ->
  Number.orElse
    (optChain (Analytics.students (Analytics.fetchedCourse c))
       (fun l =>
          fold_left (fun sSum s => Number.add sSum (Analytics.pending s))
            l Number.zero))
    Number.zero
  = Number.ofZ (sumOver balance (enrolled c)).
Proof.
  unfold enrolled, Analytics.fetchedCourse. simpl.
  destruct (Dashboard.students c) as [| | l]; simpl; try reflexivity.
  apply studentsTotal_fetched.
Qed.

Lemma totalPendingFees_fetched (cs : list Dashboard.Course) :
  (forall s, In s (allStudents cs) -> wholeAmounts s) ->
  sumOver balance (allStudents cs) < 2 ^ 53 ->
  Analytics.totalPendingFees (map Analytics.fetchedCourse cs)
  = Number.ofZ (sumOver balance (allStudents cs)).
Proof.
  intros W S. unfold Analytics.totalPendingFees.
  change Number.zero with (Number.ofZ 0) at 3.
  unfold allStudents in *. rewrite sumOver_flat_map in *.
  assert (N : forall c, 0 <= sumOver balance (enrolled c)).
  { intros c. apply sumOver_nonneg_in. intros. apply balance_nonneg. }
  rewrite (fold_add_exact Analytics.fetchedCourse
             (fun c =>
                Number.orElse
                  (optChain (Analytics.students c)
                     (fun l =>
                        fold_left (fun sSum s => Number.add sSum (Analytics.pending s))
                          l Number.zero))
                  Number.zero)
             (fun c => sumOver balance (enrolled c)) cs 0).
  - reflexivity.
  - intros c Hc. split; [apply N |].
    apply courseTotal_fetched.
    + intros s Hs. apply W. apply in_flat_map. eauto.
    + apply in_split in Hc. destruct Hc as (l1 & l2 & ->).
      rewrite sumOver_app in S. simpl in S.
      assert (0 <= sumOver (fun c => sumOver balance (enrolled c)) l1)
        by (apply sumOver_nonneg_in; intros; apply N).
      assert (0 <= sumOver (fun c => sumOver balance (enrolled c)) l2)
        by (apply sumOver_nonneg_in; intros; apply N).
      lia.
  - lia.
  - lia.
Qed.






(** What a comparison with a missing amount gives. *)
Lemma missing_amount (s : Analytics.Student) :
  Analytics.paidAmount s = Undefined \/ Analytics.totalFee s = Undefined ->
  Analytics.isPaid s = false /\ Analytics.owes s = false.
Proof.
  unfold Analytics.isPaid, Analytics.owes, Number.ge, Number.lt.
  intros [-> | ->]; simpl.
  - split; reflexivity.
  - destruct (Number.toNumber (Analytics.paidAmount s)); split; reflexivity.
Qed.

(** C2, counterexample.  Three students owe 9007199254740992, 1 and 1:
    each balance is computed exactly, and their sum is
    9007199254740994, but the total the component computes is the number
    9007199254740992. *)
Lemma totalPendingFees_rounds_large_sums :
  let big := Analytics.mkStudent (Defined (Number.ofZ 9007199254740992))
               (Defined Number.zero) in
  let one := Analytics.mkStudent (Defined (Number.ofZ 1)) (Defined Number.zero) in
  let cs := [Analytics.mkCourse (Defined [big; one; one])] in
  Number.toZ (Analytics.pending big) = Some 9007199254740992
  /\ Number.toZ (Analytics.pending one) = Some 1
  /\ Number.toZ (Analytics.totalPendingFees cs) = Some 9007199254740992
  /\ 9007199254740992 + 1 + 1 <> 9007199254740992.
Proof.
  repeat split. discriminate.
Qed.

(** C2, amended.  For every list of courses whose students have whole
    amounts from 0 up to 2^53 (excluded) and whose balances sum to less
    than 2^53, [totalPendingFees] is the sum over all students of
    [max 0 (totalFee - paidAmount)]; the contribution of each student is
    that maximum, never negative, and is 0 for a student with
    [paidAmount >= totalFee].  A student lacking an amount contributes
    0. *)
Theorem totalPendingFees_is_sum_of_floored_balances :
  forall cs : list Dashboard.Course,
    (forall s, In s (allStudents cs) -> wholeAmounts s) ->
    sumOver balance (allStudents cs) < 2 ^ 53 ->
    Analytics.totalPendingFees (map Analytics.fetchedCourse cs)
    = Number.ofZ
        (sumOver (fun s => Z.max 0 (Dashboard.totalFee s - Dashboard.paidAmount s))
           (allStudents cs))
    /\ Number.toZ (Analytics.totalPendingFees (map Analytics.fetchedCourse cs))
       = Some (sumOver
                 (fun s => Z.max 0 (Dashboard.totalFee s - Dashboard.paidAmount s))
                 (allStudents cs))
    /\ Dashboard.totalPendingFees cs
       = sumOver (fun s => Z.max 0 (Dashboard.totalFee s - Dashboard.paidAmount s))
           (allStudents cs)
    /\ (forall s,
          In s (allStudents cs) ->
          Number.toZ (Analytics.pending (Analytics.fetched s))
          = Some (Z.max 0 (Dashboard.totalFee s - Dashboard.paidAmount s))
          /\ Number.lt (Analytics.pending (Analytics.fetched s)) Number.zero = false
          /\ (Dashboard.paidAmount s >= Dashboard.totalFee s ->
              Analytics.pending (Analytics.fetched s) = Number.zero))
    /\ (forall s : Analytics.Student,
          Analytics.paidAmount s = Undefined \/ Analytics.totalFee s = Undefined ->
          Analytics.pending s = Number.zero).
Proof.
  intros cs W S.
  assert (N : 0 <= sumOver balance (allStudents cs)).
  { apply sumOver_nonneg_in. intros. apply balance_nonneg. }
  pose proof (totalPendingFees_fetched cs W S) as T. fold balance.
  split; [exact T |]. split; [rewrite T; apply toZ_ofZ; lia |].
  split; [| split].
  - rewrite totalPendingFees_sum. unfold allStudents.
    now rewrite sumOver_flat_map.
  - intros s Hs. pose proof (W s Hs) as Ws.
    rewrite (pending_fetched s Ws).
    assert (B : 0 <= balance s < 2 ^ 53).
    { destruct Ws. unfold balance. lia. }
    split; [apply toZ_ofZ; exact B |]. split.
    + change Number.zero with (Number.ofZ 0). rewrite lt_exact by lia.
      apply Z.ltb_ge. lia.
    + intros G. unfold balance.
      replace (Z.max 0 (Dashboard.totalFee s - Dashboard.paidAmount s)) with 0 by lia.
      reflexivity.
  - intros s M. unfold Analytics.pending.
    now rewrite (proj2 (missing_amount s M)).
Qed.

Lemma totalPendingFees_is_sum_witness :
  let alice := Dashboard.mkStudent "a" "Alice" "a@x" "+911" "" 18000 18000 Undefined "c" in
  let bob := Dashboard.mkStudent "b" "Bob" "b@x" "+912" "" 18000 5000 Undefined "c" in
  let cs := [Dashboard.mkCourse "c" "Math 101" (Defined [alice; bob]);
             Dashboard.mkCourse "d" "Art" Null] in
  Number.toZ (Analytics.totalPendingFees (map Analytics.fetchedCourse cs))
  = Some 13000.
Proof.
  intros alice bob cs.
  assert (W : forall s, In s (allStudents cs) -> wholeAmounts s).
  { intros s [<- | [<- | []]]; unfold wholeAmounts; simpl; lia. }
  assert (S : sumOver balance (allStudents cs) < 2 ^ 53) by reflexivity.
  exact (proj1 (proj2 (totalPendingFees_is_sum_of_floored_balances cs W S))).
Defined.




(** The scenario of the fee table: Alice has paid in full, Bob has paid
    5000 of 18000. *)
Example dashboard_alice_bob :
  let alice := Dashboard.mkStudent "a" "Alice" "a@x" "+911" "" 18000 18000 Undefined "c" in
  let bob := Dashboard.mkStudent "b" "Bob" "b@x" "+912" "" 18000 5000 Undefined "c" in
  let cs := [Dashboard.mkCourse "c" "Math 101" (Defined [alice; bob])] in
  Dashboard.totalStudents cs = 2
  /\ Dashboard.totalCourses cs = 1
  /\ Dashboard.totalPendingFees cs = 13000
  /\ Dashboard.reminders cs = 1
  /\ Dashboard.isPaid alice = true
  /\ Dashboard.isPaid bob = false.
Proof. repeat split. Qed.

(** [s.startsWith("+")] holds exactly when the first character of [s] is
    a plus sign. *)
Lemma startsWith_plus (s : string) :
  startsWith s "+" = true <-> exists rest, s = String "+" rest.
Proof.
  destruct s as [| c s]; cbn [startsWith].
  - split; [discriminate | intros [rest E]; discriminate].
  - destruct (Ascii.eqb_spec "+" c) as [<- | N].
    + destruct s; split; eauto.
    + split; [discriminate | intros [rest E]; congruence].
Qed.

(** C9. The aggregates are defined on every course list, and a course
    whose [students] field is absent or [null] adds nothing to
    [totalStudents], [totalPendingFees] and [reminders] wherever it stands
    in the list; it still counts as one course. *)
Theorem aggregates_skip_missing_students :
  forall (before after : list Dashboard.Course) (c : Dashboard.Course),
    Dashboard.students c = Undefined \/ Dashboard.students c = Null ->
    Dashboard.totalStudents (before ++ c :: after)
      = Dashboard.totalStudents (before ++ after)
    /\ Dashboard.totalPendingFees (before ++ c :: after)
      = Dashboard.totalPendingFees (before ++ after)
    /\ Dashboard.reminders (before ++ c :: after)
      = Dashboard.reminders (before ++ after)
    /\ Dashboard.totalCourses (before ++ c :: after)
      = Dashboard.totalCourses (before ++ after) + 1
    /\ Dashboard.totalStudents [c] = 0
    /\ Dashboard.totalPendingFees [c] = 0
    /\ Dashboard.reminders [c] = 0.
Proof.
  intros before after c H.
  assert (E : enrolled c = []).
  { unfold enrolled. destruct H as [-> | ->]; reflexivity. }
  rewrite !totalStudents_sum, !totalPendingFees_sum, !reminders_sum.
  rewrite !sumOver_app. simpl. rewrite E. simpl.
  unfold Dashboard.totalCourses. rewrite !length_app. simpl List.length.
  repeat split; lia.
Qed.

Lemma aggregates_skip_missing_students_witness :
  let s := Dashboard.mkStudent "b" "Bob" "b@x" "+912" "" 18000 5000 Undefined "c" in
  let cs := [Dashboard.mkCourse "n" "New" Null; courseOf [s];
             Dashboard.mkCourse "u" "Unfetched" Undefined] in
  Dashboard.totalStudents cs = 1
  /\ Dashboard.totalPendingFees cs = 13000
  /\ Dashboard.reminders cs = 1
  /\ Dashboard.totalCourses cs = 3.
Proof.
  intros s cs.
  destruct (aggregates_skip_missing_students
              [] [courseOf [s]; Dashboard.mkCourse "u" "Unfetched" Undefined]
              (Dashboard.mkCourse "n" "New" Null))
    as (H1 & H2 & H3 & H4 & _).
  { right. reflexivity. }
  subst cs. simpl app in *. rewrite H1, H2, H3, H4.
  repeat split.
Defined.

(** * Properties of the record service *)

(** ** What each route computes *)

Ltac run_monad :=
  unfold tryCatch, bind, ret, throw, gets, modify, await,
    setCourses, setStudents, newObjectId; simpl.

Lemma get_students_eq (e : env) (st : state) (l : list Course.t) :
  mapM (fun course =>
          students <- Student_find e (Course._id course) ;;
          ret (CourseWithStudents.mk course students)) l st
  = (if existsb (fun c => fails e (StudentFind (Course._id c))) l
     then inl MongoError
     else inr (map (fun c =>
                      CourseWithStudents.mk c
                        (filter (ofCourse (Course._id c)) (students st))) l),
     st).
Proof.
  induction l as [| c l IH]; simpl.
  - reflexivity.
  - unfold Student_find, await, bind, ret, gets, throw in *.
    destruct (fails e (StudentFind (Course._id c))); simpl.
    + reflexivity.
    + rewrite IH. destruct (existsb _ l); reflexivity.
Qed.

Lemma get_courses_eq (e : env) (st : state) :
  get_courses e st =
  (if fails e CourseFind || existsb (fun c => fails e (StudentFind (Course._id c))) (courses st)
   then mkResponse 500 (JError MongoError)
   else mkResponse 200
          (JCourses
             (map (fun c =>
                     CourseWithStudents.mk c
                       (filter (ofCourse (Course._id c)) (students st)))
                (courses st))),
   st).
Proof.
  unfold get_courses, tryCatch, Course_find, await.
  destruct (fails e CourseFind); simpl.
  - reflexivity.
  - unfold bind at 1, gets at 1. unfold bind at 1. rewrite get_students_eq.
    destruct (existsb _ (courses st)); reflexivity.
Qed.

Lemma post_course_eq (e : env) (b : CourseBody.t) (st : state) :
  post_course e b st =
  let st1 := afterNew (CourseBody._id b) st in
  match validateCourse e (idOfNew (CourseBody._id b) st, b) with
  | None => (mkResponse 400 (JError ValidationError), st1)
  | Some c =>
      if fails e CourseSave || existsb (hasId (Course._id c)) (courses st)
      then (mkResponse 400 (JError MongoError), st1)
      else (mkResponse 201 (JCourseWithStudents (CourseWithStudents.mk c [])),
            mkState (courses st ++ [c]) (students st)
              (N.max (nextId st1) (Course._id c + 1)))
  end.
Proof.
  unfold post_course, new_Course, Course_save, afterNew, idOfNew, stored.
  destruct (CourseBody._id b) as [i |].
  - cbv beta iota zeta. unfold tryCatch, bind at 1, ret at 1.
    destruct (validateCourse e (castObjectId i, b)); [| reflexivity].
    run_monad.
    destruct (fails e CourseSave); simpl; [reflexivity |].
    destruct (existsb _ (courses st)); reflexivity.
  - cbv beta iota zeta.
    unfold tryCatch, bind at 1, bind at 1, newObjectId, ret at 1.
    unfold ObjectId in *.
    replace (nextId {| courses := courses st; students := students st;
                       nextId := nextId st + 1 |}) with (nextId st + 1)%N
      by reflexivity.
    destruct (validateCourse e (Some (nextId st), b)); [| reflexivity].
    run_monad.
    destruct (fails e CourseSave); simpl; [reflexivity |].
    destruct (existsb _ (courses st)); reflexivity.
Qed.

Lemma put_course_eq (e : env) (id : string) (b : CourseBody.t) (st : state) :
  put_course e id b st =
  match castObjectId id, castCourseSet e b with
  | Some oid, Some u =>
      if fails e CourseFindByIdAndUpdate
      then (mkResponse 400 (JError MongoError), st)
      else if existsb (hasId oid) (courses st)
      then
        if changesId (CourseSet._id u) oid
        then (mkResponse 400 (JError MongoError), st)
        else
          let r := updateFirst (hasId oid) (applyCourseSet u) (courses st) in
          (mkResponse 200 (JCourse (snd r)),
           mkState (fst r) (students st) (nextId st))
      else (mkResponse 200 (JCourse None), st)
  | _, _ => (mkResponse 400 (JError CastError), st)
  end.
Proof.
  unfold put_course, Course_findByIdAndUpdate. run_monad.
  destruct (castObjectId id); simpl; [| reflexivity].
  destruct (castCourseSet e b); simpl; [| reflexivity].
  destruct (fails e CourseFindByIdAndUpdate); simpl; [reflexivity |].
  destruct (existsb _ (courses st)); simpl; [| reflexivity].
  destruct (changesId _ _); simpl; [reflexivity |].
  destruct (updateFirst _ _ _); reflexivity.
Qed.

Lemma delete_course_eq (e : env) (id : string) (st : state) :
  delete_course e id st =
  match castObjectId id with
  | None => (mkResponse 500 (JError CastError), st)
  | Some oid =>
      if fails e StudentDeleteMany
      then (mkResponse 500 (JError MongoError),
            mkState (courses st)
              (removeUpTo (removedBeforeFailure e) (ofCourse oid) (students st))
              (nextId st))
      else
        let ss := filter (fun s => negb (ofCourse oid s)) (students st) in
        if fails e CourseFindByIdAndDelete
        then (mkResponse 500 (JError MongoError),
              mkState (courses st) ss (nextId st))
        else (mkResponse 200 (JMessage "Course and related students deleted"),
              mkState (fst (removeFirst (hasId oid) (courses st))) ss (nextId st))
  end.
Proof.
  unfold delete_course, Student_deleteMany, Course_findByIdAndDelete. run_monad.
  destruct (castObjectId id); simpl; [| reflexivity].
  destruct (fails e StudentDeleteMany); simpl; [reflexivity |].
  destruct (fails e CourseFindByIdAndDelete); simpl; [reflexivity |].
  destruct (removeFirst _ _); reflexivity.
Qed.

Lemma post_student_eq (e : env) (b : StudentBody.t) (st : state) :
  post_student e b st =
  let st1 := afterNew (StudentBody._id b) st in
  match validateStudent e (idOfNew (StudentBody._id b) st, b) with
  | None => (mkResponse 400 (JError ValidationError), st1)
  | Some s =>
      if fails e StudentSave || existsb (hasStudentId (Student._id s)) (students st)
      then (mkResponse 400 (JError MongoError), st1)
      else (mkResponse 201 (JStudent (Some s)),
            mkState (courses st) (students st ++ [s])
              (N.max (nextId st1) (Student._id s + 1)))
  end.
Proof.
  unfold post_student, new_Student, Student_save, afterNew, idOfNew, stored.
  destruct (StudentBody._id b) as [i |].
  - cbv beta iota zeta. unfold tryCatch, bind at 1, ret at 1.
    destruct (validateStudent e (castObjectId i, b)); [| reflexivity].
    run_monad.
    destruct (fails e StudentSave); simpl; [reflexivity |].
    destruct (existsb _ (students st)); reflexivity.
  - cbv beta iota zeta.
    unfold tryCatch, bind at 1, bind at 1, newObjectId, ret at 1.
    unfold ObjectId in *.
    replace (nextId {| courses := courses st; students := students st;
                       nextId := nextId st + 1 |}) with (nextId st + 1)%N
      by reflexivity.
    destruct (validateStudent e (Some (nextId st), b)); [| reflexivity].
    run_monad.
    destruct (fails e StudentSave); simpl; [reflexivity |].
    destruct (existsb _ (students st)); reflexivity.
Qed.

Lemma put_student_eq (e : env) (id : string) (b : StudentBody.t) (st : state) :
  put_student e id b st =
  match castObjectId id, castStudentSet e b with
  | Some oid, Some u =>
      if fails e StudentFindByIdAndUpdate
      then (mkResponse 400 (JError MongoError), st)
      else if existsb (hasStudentId oid) (students st)
      then
        if changesId (StudentSet._id u) oid
        then (mkResponse 400 (JError MongoError), st)
        else
          let r := updateFirst (hasStudentId oid) (applyStudentSet u) (students st) in
          (mkResponse 200 (JStudent (snd r)),
           mkState (courses st) (fst r) (nextId st))
      else (mkResponse 200 (JStudent None), st)
  | _, _ => (mkResponse 400 (JError CastError), st)
  end.
Proof.
  unfold put_student, Student_findByIdAndUpdate. run_monad.
  destruct (castObjectId id); simpl; [| reflexivity].
  destruct (castStudentSet e b); simpl; [| reflexivity].
  destruct (fails e StudentFindByIdAndUpdate); simpl; [reflexivity |].
  destruct (existsb _ (students st)); simpl; [| reflexivity].
  destruct (changesId _ _); simpl; [reflexivity |].
  destruct (updateFirst _ _ _); reflexivity.
Qed.

Lemma delete_student_eq (e : env) (id : string) (st : state) :
  delete_student e id st =
  match castObjectId id with
  | None => (mkResponse 500 (JError CastError), st)
  | Some oid =>
      if fails e StudentFindByIdAndDelete
      then (mkResponse 500 (JError MongoError), st)
      else (mkResponse 200 (JMessage "Student deleted"),
            mkState (courses st)
              (fst (removeFirst (hasStudentId oid) (students st)))
              (nextId st))
  end.
Proof.
  unfold delete_student, Student_findByIdAndDelete. run_monad.
  destruct (castObjectId id); simpl; [| reflexivity].
  destruct (fails e StudentFindByIdAndDelete); simpl; [reflexivity |].
  destruct (removeFirst _ _); reflexivity.
Qed.

(** *** The outcomes of a write

    A create either is refused with status 400 and stores nothing, or
    appends the validated document, whose id no stored document had.
    An update either leaves the state as it is, or replaces the one
    document of the id. *)

Lemma post_course_cases (e : env) (b : CourseBody.t) (st : state) :
  (nextId st <= nextId (snd (post_course e b st)))%N
  /\ ((status (fst (post_course e b st)) = 400
       /\ isError (fst (post_course e b st)) = true
       /\ courses (snd (post_course e b st)) = courses st
       /\ students (snd (post_course e b st)) = students st)
      \/ (exists c,
            validateCourse e (idOfNew (CourseBody._id b) st, b) = Some c
            /\ existsb (hasId (Course._id c)) (courses st) = false
            /\ fails e CourseSave = false
            /\ fst (post_course e b st)
               = mkResponse 201 (JCourseWithStudents (CourseWithStudents.mk c []))
            /\ courses (snd (post_course e b st)) = courses st ++ [c]
            /\ students (snd (post_course e b st)) = students st
            /\ (Course._id c < nextId (snd (post_course e b st)))%N)).
Proof.
  rewrite post_course_eq. cbv zeta.
  assert (G : (nextId st <= nextId (afterNew (CourseBody._id b) st))%N)
    by (destruct (CourseBody._id b); simpl; lia).
  assert (K1 : courses (afterNew (CourseBody._id b) st) = courses st)
    by (destruct (CourseBody._id b); reflexivity).
  assert (K2 : students (afterNew (CourseBody._id b) st) = students st)
    by (destruct (CourseBody._id b); reflexivity).
  destruct (validateCourse e _) as [c |] eqn:V; [| simpl; split; [assumption | left; auto]].
  destruct (fails e CourseSave); simpl; [split; [assumption | left; auto] |].
  destruct (existsb _ (courses st)) eqn:X; simpl; [split; [assumption | left; auto] |].
  split; [lia |]. right. exists c. repeat split; try assumption. lia.
Qed.

Lemma post_student_cases (e : env) (b : StudentBody.t) (st : state) :
  (nextId st <= nextId (snd (post_student e b st)))%N
  /\ ((status (fst (post_student e b st)) = 400
       /\ isError (fst (post_student e b st)) = true
       /\ courses (snd (post_student e b st)) = courses st
       /\ students (snd (post_student e b st)) = students st)
      \/ (exists s,
            validateStudent e (idOfNew (StudentBody._id b) st, b) = Some s
            /\ existsb (hasStudentId (Student._id s)) (students st) = false
            /\ fails e StudentSave = false
            /\ fst (post_student e b st) = mkResponse 201 (JStudent (Some s))
            /\ courses (snd (post_student e b st)) = courses st
            /\ students (snd (post_student e b st)) = students st ++ [s]
            /\ (Student._id s < nextId (snd (post_student e b st)))%N)).
Proof.
  rewrite post_student_eq. cbv zeta.
  assert (G : (nextId st <= nextId (afterNew (StudentBody._id b) st))%N)
    by (destruct (StudentBody._id b); simpl; lia).
  assert (K1 : courses (afterNew (StudentBody._id b) st) = courses st)
    by (destruct (StudentBody._id b); reflexivity).
  assert (K2 : students (afterNew (StudentBody._id b) st) = students st)
    by (destruct (StudentBody._id b); reflexivity).
  destruct (validateStudent e _) as [s |] eqn:V; [| simpl; split; [assumption | left; auto]].
  destruct (fails e StudentSave); simpl; [split; [assumption | left; auto] |].
  destruct (existsb _ (students st)) eqn:X; simpl; [split; [assumption | left; auto] |].
  split; [lia |]. right. exists s. repeat split; try assumption. lia.
Qed.

Lemma put_course_cases (e : env) (id : string) (b : CourseBody.t) (st : state) :
  snd (put_course e id b st) = st
  \/ (exists oid u,
        castObjectId id = Some oid
        /\ castCourseSet e b = Some u
        /\ fails e CourseFindByIdAndUpdate = false
        /\ existsb (hasId oid) (courses st) = true
        /\ changesId (CourseSet._id u) oid = false
        /\ put_course e id b st
           = (mkResponse 200
                (JCourse (snd (updateFirst (hasId oid) (applyCourseSet u) (courses st)))),
              mkState (fst (updateFirst (hasId oid) (applyCourseSet u) (courses st)))
                (students st) (nextId st))).
Proof.
  rewrite put_course_eq.
  destruct (castObjectId id) as [oid |]; [| now left].
  destruct (castCourseSet e b) as [u |]; [| now left].
  destruct (fails e CourseFindByIdAndUpdate) eqn:F; [now left |].
  destruct (existsb _ (courses st)) eqn:X; [| now left].
  destruct (changesId _ oid) eqn:I; [now left |].
  right. exists oid, u. repeat split; assumption.
Qed.

Lemma put_student_cases (e : env) (id : string) (b : StudentBody.t) (st : state) :
  snd (put_student e id b st) = st
  \/ (exists oid u,
        castObjectId id = Some oid
        /\ castStudentSet e b = Some u
        /\ fails e StudentFindByIdAndUpdate = false
        /\ existsb (hasStudentId oid) (students st) = true
        /\ changesId (StudentSet._id u) oid = false
        /\ put_student e id b st
           = (mkResponse 200
                (JStudent (snd (updateFirst (hasStudentId oid) (applyStudentSet u)
                                  (students st)))),
              mkState (courses st)
                (fst (updateFirst (hasStudentId oid) (applyStudentSet u) (students st)))
                (nextId st))).
Proof.
  rewrite put_student_eq.
  destruct (castObjectId id) as [oid |]; [| now left].
  destruct (castStudentSet e b) as [u |]; [| now left].
  destruct (fails e StudentFindByIdAndUpdate) eqn:F; [now left |].
  destruct (existsb _ (students st)) eqn:X; [| now left].
  destruct (changesId _ oid) eqn:I; [now left |].
  right. exists oid, u. repeat split; assumption.
Qed.

(** ** Queries that match nothing *)

Lemma updateFirst_none {A : Type} (p : A -> bool) (f : A -> A) (l : list A) :
  (forall a, In a l -> p a = false) -> updateFirst p f l = (l, None).
Proof.
  induction l as [| a l IH]; intros H; simpl; [reflexivity |].
  rewrite (H a (or_introl eq_refl)).
  rewrite IH; [reflexivity | intros x Hx; apply H; now right].
Qed.

Lemma removeFirst_none {A : Type} (p : A -> bool) (l : list A) :
  (forall a, In a l -> p a = false) -> removeFirst p l = (l, None).
Proof.
  induction l as [| a l IH]; intros H; simpl; [reflexivity |].
  rewrite (H a (or_introl eq_refl)).
  rewrite IH; [reflexivity | intros x Hx; apply H; now right].
Qed.

Lemma unknownCourse_hasId (oid : ObjectId) (st : state) :
  unknownCourse oid st -> forall c, In c (courses st) -> hasId oid c = false.
Proof. intros U c Hc. apply N.eqb_neq. now apply U. Qed.

Lemma unknownStudent_hasStudentId (oid : ObjectId) (st : state) :
  unknownStudent oid st -> forall s, In s (students st) -> hasStudentId oid s = false.
Proof. intros U s Hs. apply N.eqb_neq. now apply U. Qed.

Lemma existsb_none {A : Type} (p : A -> bool) (l : list A) :
  (forall a, In a l -> p a = false) -> existsb p l = false.
Proof.
  induction l as [| a l IH]; intros H; simpl; [reflexivity |].
  rewrite (H a (or_introl eq_refl)). apply IH. intros x Hx. apply H. now right.
Qed.

Lemma unknownCourse_existsb (oid : ObjectId) (st : state) :
  unknownCourse oid st -> existsb (hasId oid) (courses st) = false.
Proof. intros U. apply existsb_none. now apply unknownCourse_hasId. Qed.

Lemma unknownStudent_existsb (oid : ObjectId) (st : state) :
  unknownStudent oid st -> existsb (hasStudentId oid) (students st) = false.
Proof. intros U. apply existsb_none. now apply unknownStudent_hasStudentId. Qed.

(** C8. Delete Student on a well-formed id that matches no stored
    Student, the database answering, raises no error: the response is
    the 200 confirmation and the state (every Course, every Student) is
    unchanged. *)
Theorem delete_unknown_student_is_noop :
  forall (e : env) (id : string) (oid : ObjectId) (st : state),
    castObjectId id = Some oid ->
    unknownStudent oid st ->
    fails e StudentFindByIdAndDelete = false ->
    delete_student e id st = (mkResponse 200 (JMessage "Student deleted"), st).
Proof.
  intros e id oid st C U F.
  rewrite delete_student_eq, C, F.
  rewrite removeFirst_none by now apply unknownStudent_hasStudentId.
  destruct st; reflexivity.
Qed.

Lemma delete_unknown_student_witness :
  let alice := Student.mk 1 "Alice" "a@x" None None (Some 18000) (Some 18000) None 0 in
  let st := mkState [Course.mk 0 "Math 101" None None None None "English"] [alice] 2 in
  delete_student noFaults "000000000000000000000007" st
  = (mkResponse 200 (JMessage "Student deleted"), st).
Proof.
  intros alice st.
  apply (delete_unknown_student_is_noop noFaults "000000000000000000000007" 7%N st).
  - reflexivity.
  - intros s [<- | []]. simpl. discriminate.
  - reflexivity.
Defined.

(** C4. Whenever the deletion of the dependent Students rejects (the id
    does not cast, or the database fails, possibly after some removals),
    Delete Course answers 500 with that error and the [courses]
    collection is what it was: the Course is still stored. *)
Theorem delete_course_keeps_course_when_students_fail :
  forall (e : env) (id : string) (st : state) (err : error),
    fst (Student_deleteMany e id st) = inl err ->
    fst (delete_course e id st) = mkResponse 500 (JError err)
    /\ courses (snd (delete_course e id st)) = courses st.
Proof.
  intros e id st err H.
  rewrite delete_course_eq.
  unfold Student_deleteMany in H. revert H. run_monad.
  destruct (castObjectId id) as [oid |]; simpl.
  - destruct (fails e StudentDeleteMany); simpl.
    + intros [= <-]. split; reflexivity.
    + discriminate.
  - intros [= <-]. split; reflexivity.
Qed.

Lemma delete_course_keeps_course_witness :
  let math := Course.mk 0 "Math 101" None None None None "English" in
  let alice := Student.mk 1 "Alice" "a@x" None None (Some 18000) (Some 18000) None 0 in
  let bob := Student.mk 2 "Bob" "b@x" None None (Some 18000) (Some 5000) None 0 in
  let st := mkState [math] [alice; bob] 3 in
  let e := failing StudentDeleteMany 1 in
  fst (delete_course e "000000000000000000000000" st) = mkResponse 500 (JError MongoError)
  /\ courses (snd (delete_course e "000000000000000000000000" st)) = [math].
Proof.
  intros math alice bob st e.
  apply (delete_course_keeps_course_when_students_fail
           e "000000000000000000000000" st MongoError).
  reflexivity.
Defined.

(** C5, counterexample.  On the empty store, updating the Course (or the
    Student) of a well-formed id answers 200 with a [null] body. *)
Lemma update_unknown_id_answers_200 :
  let id := "000000000000000000000001" in
  let cb := CourseBody.mk None (Some "Algebra") None None None None None in
  let sb := StudentBody.mk None (Some "Bob") None None None None None None None in
  castObjectId id = Some 1%N
  /\ unknownCourse 1 initial
  /\ unknownStudent 1 initial
  /\ put_course noFaults id cb initial = (mkResponse 200 (JCourse None), initial)
  /\ put_student noFaults id sb initial = (mkResponse 200 (JStudent None), initial).
Proof.
  repeat split; intros x [].
Qed.

(** C5, amended.  An Update Course or Update Student request whose id is
    well-formed but matches no stored record never changes the store.
    When the body casts against the schema (its dates, its [_id], a
    Student's courseId) and the database answers, it is answered with
    status 200 and a [null] body; it is answered with status 400 exactly
    when the body does not cast or the database operation fails.  A
    request whose id does not cast is answered with status 400. *)
Theorem update_unknown_id_answers_null :
  forall (e : env) (id : string) (st : state)
         (cb : CourseBody.t) (sb : StudentBody.t),
    (forall oid,
        castObjectId id = Some oid ->
        unknownCourse oid st ->
        snd (put_course e id cb st) = st
        /\ (castCourseSet e cb <> None ->
            fails e CourseFindByIdAndUpdate = false ->
            fst (put_course e id cb st) = mkResponse 200 (JCourse None))
        /\ (status (fst (put_course e id cb st)) = 400 <->
            castCourseSet e cb = None \/ fails e CourseFindByIdAndUpdate = true))
    /\ (forall oid,
        castObjectId id = Some oid ->
        unknownStudent oid st ->
        snd (put_student e id sb st) = st
        /\ (castStudentSet e sb <> None ->
            fails e StudentFindByIdAndUpdate = false ->
            fst (put_student e id sb st) = mkResponse 200 (JStudent None))
        /\ (status (fst (put_student e id sb st)) = 400 <->
            castStudentSet e sb = None \/ fails e StudentFindByIdAndUpdate = true))
    /\ (castObjectId id = None ->
        put_course e id cb st = (mkResponse 400 (JError CastError), st)
        /\ put_student e id sb st = (mkResponse 400 (JError CastError), st)).
Proof.
  intros e id st cb sb. split; [| split].
  - intros oid C U. rewrite put_course_eq, C, (unknownCourse_existsb _ _ U).
    destruct (castCourseSet e cb) as [u |],
             (fails e CourseFindByIdAndUpdate); simpl;
      (split; [reflexivity | split]); try tauto; try congruence;
      split; try discriminate; intros [H | H]; discriminate.
  - intros oid C U. rewrite put_student_eq, C, (unknownStudent_existsb _ _ U).
    destruct (castStudentSet e sb) as [u |],
             (fails e StudentFindByIdAndUpdate); simpl;
      (split; [reflexivity | split]); try tauto; try congruence;
      split; try discriminate; intros [H | H]; discriminate.
  - intros C. rewrite put_course_eq, put_student_eq, C. split; reflexivity.
Qed.

Lemma update_unknown_id_witness :
  let id := "0000000000000000000000ff" in
  let math := Course.mk 0 "Math 101" None None None None "English" in
  let alice := Student.mk 1 "Alice" "a@x" None None (Some 18000) (Some 18000) None 0 in
  let st := mkState [math] [alice] 2 in
  let cb := CourseBody.mk None (Some "Algebra") None None (Some "2024-03-01") None None in
  let sb := StudentBody.mk None None None None None None (Some 18000) None None in
  put_course noFaults id cb st = (mkResponse 200 (JCourse None), st)
  /\ put_student noFaults id sb st = (mkResponse 200 (JStudent None), st).
Proof.
  intros id math alice st cb sb.
  destruct (update_unknown_id_answers_null noFaults id st cb sb) as (HC & HS & _).
  assert (UC : unknownCourse 255 st) by (intros c [<- | []]; simpl; discriminate).
  assert (US : unknownStudent 255 st) by (intros s [<- | []]; simpl; discriminate).
  destruct (HC 255%N eq_refl UC) as (C1 & C2 & _).
  destruct (HS 255%N eq_refl US) as (S1 & S2 & _).
  split.
  - rewrite (surjective_pairing (put_course noFaults id cb st)), C1.
    rewrite C2; [reflexivity | simpl; discriminate | reflexivity].
  - rewrite (surjective_pairing (put_student noFaults id sb st)), S1.
    rewrite S2; [reflexivity | simpl; discriminate | reflexivity].
Defined.

(** ** Creating a student *)

Lemma validateStudent_eq (e : env) (i : option ObjectId) (b : StudentBody.t) :
  validateStudent e (i, b) =
  match i,
        requiredString (StudentBody.name b),
        requiredString (StudentBody.email b),
        castDate e (StudentBody.joinDate b),
        bodyCourseId b with
  | Some id, Some n, Some m, Some jd, Some oid =>
      Some (Student.mk id n m
              (StudentBody.phone b) jd
              (StudentBody.totalFee b) (StudentBody.paidAmount b)
              (StudentBody.reminderMessage b) oid)
  | _, _, _, _, _ => None
  end.
Proof.
  unfold validateStudent, bodyCourseId. simpl.
  destruct i,
           (requiredString (StudentBody.name b)),
           (requiredString (StudentBody.email b)),
           (castDate e (StudentBody.joinDate b)),
           (StudentBody.courseId b) as [cid |]; try reflexivity.
Qed.

(** C3, counterexample.  No Course is stored, yet the Student naming
    course [a] is created: status 201, and the Student is in the store. *)
Lemma create_student_for_unknown_course_persists :
  let b := StudentBody.mk None (Some "Bob") (Some "bob@example.com")
             (Some "+919876543210") None (Some 18000) (Some 5000) (Some "")
             (Some "00000000000000000000000a") in
  let bob := Student.mk 0 "Bob" "bob@example.com"
               (Some "+919876543210") None (Some 18000) (Some 5000) (Some "") 10 in
  bodyCourseId b = Some 10%N
  /\ unknownCourse 10 initial
  /\ post_student noFaults b initial
     = (mkResponse 201 (JStudent (Some bob)), mkState [] [bob] 1).
Proof.
  repeat split. intros c [].
Qed.

(** C3, amended.  Create Student fails with a ValidationError (status
    400) and stores nothing when name or email is missing or empty,
    courseId is missing or not a well-formed id, joinDate is not a date,
    or the [_id] sent is not a well-formed id.  The courseId is not
    looked up among the stored Courses: with name and email present, a
    well-formed courseId, a joinDate that casts, an [_id] (the one sent,
    or else the generated one) that no stored Student has, and the
    database answering, the Student is stored and returned with status
    201, whatever Courses exist.  A request answered with status 400
    stores nothing. *)
Theorem create_student_checks_presence_only :
  forall (e : env) (b : StudentBody.t) (st : state),
    (requiredString (StudentBody.name b) = None
     \/ requiredString (StudentBody.email b) = None
     \/ bodyCourseId b = None
     \/ castDate e (StudentBody.joinDate b) = None
     \/ idOfNew (StudentBody._id b) st = None ->
     fst (post_student e b st) = mkResponse 400 (JError ValidationError)
     /\ students (snd (post_student e b st)) = students st
     /\ courses (snd (post_student e b st)) = courses st)
    /\
    (forall n m oid jd id,
        requiredString (StudentBody.name b) = Some n ->
        requiredString (StudentBody.email b) = Some m ->
        bodyCourseId b = Some oid ->
        castDate e (StudentBody.joinDate b) = Some jd ->
        idOfNew (StudentBody._id b) st = Some id ->
        unknownStudent id st ->
        fails e StudentSave = false ->
        let s := Student.mk id n m
                   (StudentBody.phone b) jd
                   (StudentBody.totalFee b) (StudentBody.paidAmount b)
                   (StudentBody.reminderMessage b) oid in
        fst (post_student e b st) = mkResponse 201 (JStudent (Some s))
        /\ students (snd (post_student e b st)) = students st ++ [s]
        /\ courses (snd (post_student e b st)) = courses st)
    /\
    (status (fst (post_student e b st)) = 400 ->
     students (snd (post_student e b st)) = students st
     /\ courses (snd (post_student e b st)) = courses st).
Proof.
  intros e b st. split; [| split].
  - intros H. rewrite post_student_eq, validateStudent_eq. cbv zeta.
    destruct (idOfNew (StudentBody._id b) st) as [id |];
      [| destruct (StudentBody._id b); repeat split].
    destruct (requiredString (StudentBody.name b)) as [n |];
      [| destruct (StudentBody._id b); repeat split].
    destruct (requiredString (StudentBody.email b)) as [m |];
      [| destruct (StudentBody._id b); repeat split].
    destruct (castDate e (StudentBody.joinDate b)) as [jd |];
      [| destruct (StudentBody._id b); repeat split].
    destruct (bodyCourseId b) as [oid |];
      [| destruct (StudentBody._id b); repeat split].
    destruct H as [H | [H | [H | [H | H]]]]; discriminate.
  - intros n m oid jd id Hn Hm Ho Hd Hi U F s.
    rewrite post_student_eq, Hi, validateStudent_eq, Hn, Hm, Ho, Hd, F.
    cbv zeta. simpl Student._id.
    rewrite (unknownStudent_existsb _ _ U). repeat split.
  - intros H.
    destruct (post_student_cases e b st)
      as (_ & [(_ & _ & A & B) | (s & _ & _ & _ & R & _)]).
    + now split.
    + rewrite R in H. discriminate.
Qed.

Lemma create_student_checks_presence_witness :
  let math := Course.mk 0 "Math 101" None None None None "English" in
  let st := mkState [math] [] 1 in
  let noCourse := StudentBody.mk None (Some "Bob") (Some "bob@example.com")
                    None None (Some 18000) (Some 5000) None (Some "math-101") in
  let orphan := StudentBody.mk None (Some "Bob") (Some "bob@example.com")
                  None (Some "2024-01-01") (Some 18000) (Some 5000) None
                  (Some "0000000000000000000000FF") in
  (fst (post_student noFaults noCourse st) = mkResponse 400 (JError ValidationError)
   /\ students (snd (post_student noFaults noCourse st)) = [])
  /\ students (snd (post_student noFaults orphan st))
     = [Student.mk 1 "Bob" "bob@example.com" None (Some 1704067200000)
          (Some 18000) (Some 5000) None 255]
  /\ (status (fst (post_student noFaults noCourse st)) = 400 ->
      students (snd (post_student noFaults noCourse st)) = []).
Proof.
  intros math st noCourse orphan. split; [| split].
  - pose proof (proj1 (create_student_checks_presence_only noFaults noCourse st)) as H.
    assert (G : bodyCourseId noCourse = None) by reflexivity.
    destruct (H (or_intror (or_intror (or_introl G)))) as (H1 & H2 & _).
    split; assumption.
  - assert (U : unknownStudent 1 st) by (intros s []).
    pose proof (proj1 (proj2 (create_student_checks_presence_only noFaults orphan st))
                  "Bob" "bob@example.com" 255%N (Some 1704067200000) 1%N
                  eq_refl eq_refl eq_refl eq_refl eq_refl U eq_refl) as H.
    exact (proj1 (proj2 H)).
  - intros H.
    exact (proj1 (proj2 (proj2
             (create_student_checks_presence_only noFaults noCourse st)) H)).
Defined.

(** ** Well-formed states *)

Lemma existsb_eqb_In (n : N) (l : list N) :
  existsb (N.eqb n) l = true <-> In n l.
Proof.
  rewrite existsb_exists. split.
  - intros (x & Hx & E). apply N.eqb_eq in E. now subst.
  - intros H. exists n. split; [assumption | apply N.eqb_refl].
Qed.

Lemma distinct_NoDup (l : list N) : distinct l = true <-> NoDup l.
Proof.
  induction l as [| n l IH]; simpl.
  - split; [constructor | reflexivity].
  - rewrite andb_true_iff, negb_true_iff, IH. split.
    + intros [H1 H2]. constructor; [| assumption].
      rewrite <- existsb_eqb_In. congruence.
    + intros H. inversion H as [| ? ? H1 H2]; subst. split; [| assumption].
      apply not_true_is_false. now rewrite existsb_eqb_In.
Qed.

Lemma wf_iff (st : state) :
  wf st = true <->
  (forall c, In c (courses st) -> (Course._id c < nextId st)%N)
  /\ NoDup (map Course._id (courses st)).
Proof.
  unfold wf. rewrite andb_true_iff, forallb_forall, distinct_NoDup.
  split; intros [H1 H2]; (split; [| assumption]); intros c Hc.
  - apply N.ltb_lt. now apply H1.
  - apply N.ltb_lt. now apply H1.
Qed.

Lemma updateFirst_map {A B : Type} (g : A -> B) (p : A -> bool) (f : A -> A)
    (l : list A) :
  (forall a, g (f a) = g a) -> map g (fst (updateFirst p f l)) = map g l.
Proof.
  intros H. induction l as [| a l IH]; simpl; [reflexivity |].
  destruct (p a); simpl.
  - now rewrite H.
  - destruct (updateFirst p f l); simpl in *. now rewrite IH.
Qed.

Lemma updateFirst_In {A : Type} (p : A -> bool) (f : A -> A) (l : list A) (x : A) :
  In x (fst (updateFirst p f l)) -> In x l \/ exists a, In a l /\ x = f a.
Proof.
  induction l as [| a l IH]; simpl; [tauto |].
  destruct (p a); simpl.
  - intros [<- | H]; [right; exists a; auto | left; auto].
  - destruct (updateFirst p f l); simpl in *.
    intros [<- | H]; [left; auto |].
    destruct (IH H) as [? | (a' & ? & ?)]; [left; auto | right; exists a'; auto].
Qed.

Lemma removeFirst_In {A : Type} (p : A -> bool) (l : list A) (x : A) :
  In x (fst (removeFirst p l)) -> In x l.
Proof.
  induction l as [| a l IH]; simpl; [tauto |].
  destruct (p a); simpl.
  - auto.
  - destruct (removeFirst p l); simpl in *. intros [<- | H]; auto.
Qed.

(** Where ids are distinct, removing the document of an id removes every
    document of that id. *)
Lemma removeFirst_unique (oid : ObjectId) (l : list Course.t) :
  NoDup (map Course._id l) ->
  fst (removeFirst (hasId oid) l) = filter (fun c => negb (hasId oid c)) l.
Proof.
  induction l as [| a l IH]; simpl; intros H; [reflexivity |].
  inversion H as [| ? ? H1 H2]; subst.
  destruct (hasId oid a) eqn:E; simpl.
  - symmetry. apply forallb_filter_id, forallb_forall. intros c Hc.
    apply negb_true_iff, N.eqb_neq. intros E'.
    apply N.eqb_eq in E. apply H1. rewrite E, <- E'. now apply in_map.
  - specialize (IH H2). destruct (removeFirst (hasId oid) l); simpl in *.
    now rewrite IH.
Qed.

Lemma NoDup_map_filter {A B : Type} (g : A -> B) (p : A -> bool) (l : list A) :
  NoDup (map g l) -> NoDup (map g (filter p l)).
Proof.
  induction l as [| a l IH]; simpl; intros H; [constructor |].
  inversion H as [| ? ? H1 H2]; subst.
  destruct (p a); simpl; [constructor |]; auto.
  intros Hin. apply H1. apply in_map_iff in Hin. destruct Hin as (x & E & Hx).
  apply filter_In in Hx. rewrite <- E. apply in_map. tauto.
Qed.

Lemma validateCourse_id (e : env) (i : option ObjectId) (b : CourseBody.t)
    (c : Course.t) :
  validateCourse e (i, b) = Some c -> i = Some (Course._id c).
Proof.
  unfold validateCourse. simpl.
  destruct i; [| discriminate].
  destruct (requiredString (CourseBody.title b)); [| discriminate].
  destruct (castDate e (CourseBody.startDate b)); [| discriminate].
  destruct (castDate e (CourseBody.endDate b)); [| discriminate].
  intros [= <-]. reflexivity.
Qed.

Lemma existsb_hasId_In (oid : ObjectId) (cs : list Course.t) :
  existsb (hasId oid) cs = false -> ~ In oid (map Course._id cs).
Proof.
  intros X Hin. apply in_map_iff in Hin. destruct Hin as (c & E & Hc).
  assert (T : existsb (hasId oid) cs = true).
  { apply existsb_exists. exists c. split; [assumption |]. now apply N.eqb_eq. }
  congruence.
Qed.

Lemma existsb_hasStudentId_In (oid : ObjectId) (ss : list Student.t) :
  existsb (hasStudentId oid) ss = false -> ~ In oid (map Student._id ss).
Proof.
  intros X Hin. apply in_map_iff in Hin. destruct Hin as (c & E & Hc).
  assert (T : existsb (hasStudentId oid) ss = true).
  { apply existsb_exists. exists c. split; [assumption |]. now apply N.eqb_eq. }
  congruence.
Qed.

Lemma NoDup_snoc {A : Type} (l : list A) (a : A) :
  NoDup l -> ~ In a l -> NoDup (l ++ [a]).
Proof.
  intros D N. apply NoDup_app; [assumption | repeat constructor; auto |].
  intros x Hx [<- | []]. now apply N.
Qed.

(** Every route keeps the state well-formed, whatever the database
    does. *)
Lemma handle_keeps_wf (e : env) (rq : request) (st : state) :
  wf st = true -> wf (snd (handle e rq st)) = true.
Proof.
  rewrite !wf_iff. intros [L D]. destruct rq as [| b | id b | id | b | id b | id]; simpl.
  - rewrite get_courses_eq. simpl. auto.
  - destruct (post_course_cases e b st)
      as (G & [(_ & _ & -> & _) | (c & _ & X & _ & _ & -> & _ & I)]).
    + split; [intros c' Hc'; apply L in Hc'; lia | assumption].
    + split.
      * intros c' Hc'. apply in_app_or in Hc'.
        destruct Hc' as [Hc' | [<- | []]]; [apply L in Hc'; lia | assumption].
      * rewrite map_app. apply NoDup_snoc; [assumption |].
        now apply existsb_hasId_In.
  - destruct (put_course_cases e id b st) as [-> | (oid & u & _ & _ & _ & _ & _ & ->)];
      [auto |]. simpl. split.
    + intros c' Hc'. apply updateFirst_In in Hc'.
      destruct Hc' as [Hc' | (c & Hc & ->)]; [auto | simpl; auto].
    + rewrite updateFirst_map by reflexivity. assumption.
  - rewrite delete_course_eq. destruct (castObjectId id) as [oid |]; [| auto].
    destruct (fails e StudentDeleteMany); simpl; [auto |].
    destruct (fails e CourseFindByIdAndDelete); simpl; [auto |].
    rewrite removeFirst_unique by assumption. split.
    + intros c Hc. apply filter_In in Hc. apply L. tauto.
    + now apply NoDup_map_filter.
  - destruct (post_student_cases e b st)
      as (G & [(_ & _ & -> & _) | (s & _ & _ & _ & _ & -> & _ & _)]);
      (split; [intros c' Hc'; apply L in Hc'; lia | assumption]).
  - destruct (put_student_cases e id b st) as [-> | (oid & u & _ & _ & _ & _ & _ & ->)];
      simpl; auto.
  - rewrite delete_student_eq. destruct (castObjectId id); simpl; auto.
    destruct (fails e StudentFindByIdAndDelete); simpl; auto.
Qed.

Lemma run_keeps_wf (trace : list (env * request)) (st : state) :
  wf st = true -> wf (run trace st) = true.
Proof.
  revert st. induction trace as [| [e rq] trace IH]; intros st H; simpl.
  - assumption.
  - apply IH. now apply handle_keeps_wf.
Qed.

(** Every state the server reaches from the empty store is
    well-formed. *)
Lemma reachable_wf (trace : list (env * request)) :
  wf (run trace initial) = true.
Proof. apply run_keeps_wf. reflexivity. Qed.

(** ** Deleting a course *)

(** No route brings back a retired course id, unless it is a create
    that carries the id: generated ids are fresh, updates keep ids,
    deletions only remove. *)
Lemma handle_keeps_retired (e : env) (rq : request) (oid : ObjectId) (st : state) :
  recreates oid rq = false ->
  retired oid st -> retired oid (snd (handle e rq st)).
Proof.
  unfold retired, unknownCourse. intros R [U I].
  destruct rq as [| b | id b | id | b | id b | id]; simpl.
  - rewrite get_courses_eq. simpl. auto.
  - destruct (post_course_cases e b st)
      as (G & [(_ & _ & -> & _) | (c & V & _ & _ & _ & -> & _ & _)]).
    + split; [assumption | lia].
    + split; [| lia]. intros c' Hc'. apply in_app_or in Hc'.
      destruct Hc' as [Hc' | [<- | []]]; [auto |].
      apply validateCourse_id in V. unfold idOfNew in V. simpl in R.
      destruct (CourseBody._id b) as [i |].
      * rewrite V in R. now apply N.eqb_neq in R.
      * injection V as V. lia.
  - destruct (put_course_cases e id b st) as [-> | (oid' & u & _ & _ & _ & _ & _ & ->)];
      [auto |]. simpl.
    split; [| assumption]. intros c' Hc'. apply updateFirst_In in Hc'.
    destruct Hc' as [Hc' | (c & Hc & ->)]; [auto | simpl; auto].
  - rewrite delete_course_eq. destruct (castObjectId id) as [oid' |]; [| auto].
    destruct (fails e StudentDeleteMany); simpl; [auto |].
    destruct (fails e CourseFindByIdAndDelete); simpl; [auto |].
    split; [| assumption]. intros c Hc. apply removeFirst_In in Hc. auto.
  - destruct (post_student_cases e b st)
      as (G & [(_ & _ & -> & _) | (s & _ & _ & _ & _ & -> & _ & _)]);
      (split; [assumption | lia]).
  - destruct (put_student_cases e id b st) as [-> | (oid' & u & _ & _ & _ & _ & _ & ->)];
      simpl; auto.
  - rewrite delete_student_eq. destruct (castObjectId id); simpl; auto.
    destruct (fails e StudentFindByIdAndDelete); simpl; auto.
Qed.

Lemma run_keeps_retired (trace : list (env * request)) (oid : ObjectId) (st : state) :
  forallb (fun p => negb (recreates oid (snd p))) trace = true ->
  retired oid st -> retired oid (run trace st).
Proof.
  revert st. induction trace as [| [e rq] trace IH]; intros st T H; simpl.
  - assumption.
  - simpl in T. apply andb_true_iff in T. destruct T as [T1 T2].
    apply IH; [assumption |]. apply handle_keeps_retired; [| assumption].
    now apply negb_true_iff.
Qed.

(** A listed student is joined to a stored course through its
    [courseId]. *)
Lemma listed_student_has_live_course (e : env) (st : state)
    (l : list CourseWithStudents.t) :
  body (fst (get_courses e st)) = JCourses l ->
  forall v s,
    In v l -> In s (CourseWithStudents.students v) ->
    exists c, In c (courses st) /\ Student.courseId s = Course._id c.
Proof.
  rewrite get_courses_eq. simpl.
  destruct (fails e CourseFind || existsb _ (courses st)); simpl; [discriminate |].
  intros [= <-] v s Hv Hs. apply in_map_iff in Hv.
  destruct Hv as (c & <- & Hc). simpl in Hs. apply filter_In in Hs.
  exists c. split; [assumption |]. now apply N.eqb_eq.
Qed.

(** With the database answering, the listing is answered with the
    courses and their students. *)
Lemma listing_answers (st : state) :
  get_courses noFaults st =
  (mkResponse 200
     (JCourses
        (map (fun c =>
                CourseWithStudents.mk c
                  (filter (ofCourse (Course._id c)) (students st)))
           (courses st))),
   st).
Proof.
  rewrite get_courses_eq. simpl.
  replace (existsb (fun _ => false) (courses st)) with false; [reflexivity |].
  induction (courses st); simpl; auto.
Qed.

(** C1, counterexample.  Math 101 is deleted with its student; then a
    Student naming the deleted id is created, and a Course is created
    with the deleted id as its [_id]: the listing returns the new
    Course with a Student whose [courseId] is the deleted id. *)
Lemma deleted_course_id_can_be_recreated :
  let math := Course.mk 0 "Math 101" None None None None "English" in
  let alice := Student.mk 1 "Alice" "a@x" None None (Some 18000) (Some 18000) None 0 in
  let st := mkState [math] [alice] 2 in
  let st' := snd (delete_course noFaults "000000000000000000000000" st) in
  let late := StudentBody.mk None (Some "Dan") (Some "d@x") None None None None None
                (Some "000000000000000000000000") in
  let again := CourseBody.mk (Some "000000000000000000000000") (Some "Math 102")
                 None None None None None in
  let dan := Student.mk 2 "Dan" "d@x" None None None None None 0 in
  let math2 := Course.mk 0 "Math 102" None None None None "English" in
  wf st = true
  /\ st' = mkState [] [] 2
  /\ fst (get_courses noFaults
            (run [(noFaults, PostStudent late); (noFaults, PostCourse again)] st'))
     = mkResponse 200 (JCourses [CourseWithStudents.mk math2 [dan]])
  /\ Student.courseId dan = 0%N.
Proof.
  repeat split.
Qed.

(** C1, amended.  In a well-formed state, Delete Course on a well-formed
    id, the database answering, is confirmed with status 200; it removes
    exactly the Students whose [courseId] is that id and the Course of
    that id, and leaves every other Course and Student as it was, in
    place.  If a Course had the id, then in every state reached
    afterwards, under any database behaviour, by requests none of which
    creates a Course with the deleted id as its [_id], no listing of the
    courses returns a Student whose [courseId] is the deleted id (and
    with the database answering the listing does return the courses). *)
Theorem delete_course_cascades :
  forall (e : env) (id : string) (oid : ObjectId) (st : state),
    wf st = true ->
    castObjectId id = Some oid ->
    fails e StudentDeleteMany = false ->
    fails e CourseFindByIdAndDelete = false ->
    let st' := snd (delete_course e id st) in
    status (fst (delete_course e id st)) = 200
    /\ students st' = filter (fun s => negb (ofCourse oid s)) (students st)
    /\ courses st' = filter (fun c => negb (hasId oid c)) (courses st)
    /\ ((exists c, In c (courses st) /\ Course._id c = oid) ->
        forall (trace : list (env * request)) (e' : env)
               (l : list CourseWithStudents.t),
          forallb (fun p => negb (recreates oid (snd p))) trace = true ->
          body (fst (get_courses e' (run trace st'))) = JCourses l ->
          forall v s,
            In v l -> In s (CourseWithStudents.students v) ->
            Student.courseId s <> oid)
    /\ (forall trace : list (env * request),
          exists l,
            body (fst (get_courses noFaults (run trace st'))) = JCourses l).
Proof.
  intros e id oid st W C F1 F2 st'.
  apply wf_iff in W. destruct W as [L D].
  assert (E : delete_course e id st =
              (mkResponse 200 (JMessage "Course and related students deleted"),
               mkState (filter (fun c => negb (hasId oid c)) (courses st))
                 (filter (fun s => negb (ofCourse oid s)) (students st))
                 (nextId st))).
  { rewrite delete_course_eq, C, F1. simpl. rewrite F2.
    now rewrite removeFirst_unique. }
  subst st'. rewrite E. simpl.
  split; [reflexivity |]. split; [reflexivity |]. split; [reflexivity |].
  split; [| intros trace; rewrite listing_answers; simpl; eauto].
  intros (c0 & Hc0 & E0) trace e' l T B v s Hv Hs.
  set (st' := mkState _ _ _) in B.
  assert (R : retired oid st').
  { split.
    - intros c Hc. simpl in Hc. apply filter_In in Hc. destruct Hc as [_ Hc].
      apply negb_true_iff in Hc. now apply N.eqb_neq in Hc.
    - simpl. rewrite <- E0. now apply L. }
  apply (run_keeps_retired trace) in R; [| assumption]. destruct R as [U _].
  destruct (listed_student_has_live_course _ _ _ B v s Hv Hs) as (c & Hc & ->).
  now apply U.
Qed.

Lemma delete_course_cascades_witness :
  let math := Course.mk 0 "Math 101" None None None None "English" in
  let art := Course.mk 1 "Art" None None None None "English" in
  let alice := Student.mk 2 "Alice" "a@x" None None (Some 18000) (Some 18000) None 0 in
  let bob := Student.mk 3 "Bob" "b@x" None None (Some 18000) (Some 5000) None 0 in
  let carl := Student.mk 4 "Carl" "c@x" None None (Some 18000) (Some 0) None 1 in
  let st := mkState [math; art] [alice; carl; bob] 5 in
  let st' := snd (delete_course noFaults "000000000000000000000000" st) in
  let late := StudentBody.mk None (Some "Dan") (Some "d@x") None None None None None
                (Some "000000000000000000000000") in
  let other := CourseBody.mk (Some "0000000000000000000000aa") (Some "Music")
                 None None None None None in
  students st' = [carl]
  /\ courses st' = [art]
  /\ forall l v s,
      body (fst (get_courses noFaults
                   (run [(noFaults, PostStudent late); (noFaults, PostCourse other)]
                      st')))
       = JCourses l ->
      In v l -> In s (CourseWithStudents.students v) -> Student.courseId s <> 0%N.
Proof.
  intros math art alice bob carl st st' late other.
  destruct (delete_course_cascades noFaults "000000000000000000000000" 0%N st
              eq_refl eq_refl eq_refl eq_refl) as (_ & HS & HC & HL & _).
  split; [exact HS |]. split; [exact HC |].
  intros l v s B. apply (HL (ex_intro _ math (conj (or_introl eq_refl) eq_refl))
                            [(noFaults, PostStudent late); (noFaults, PostCourse other)]
                            noFaults l eq_refl B).
Defined.

(** ** Saving a student through the form *)

(** What the two student writes can leave in the collection: the
    students already there, and the document built from the body. *)
Lemma post_student_stores (e : env) (b : StudentBody.t) (st : state) (s : Student.t) :
  In s (students (snd (post_student e b st))) ->
  In s (students st) \/ exists i, validateStudent e (i, b) = Some s.
Proof.
  destruct (post_student_cases e b st)
    as (_ & [(_ & _ & _ & ->) | (s' & V & _ & _ & _ & _ & -> & _)]); [auto |].
  intros H. apply in_app_or in H. destruct H as [H | [<- | []]]; eauto.
Qed.

Lemma put_student_stores (e : env) (id : string) (b : StudentBody.t) (st : state)
    (s : Student.t) :
  In s (students (snd (put_student e id b st))) ->
  In s (students st)
  \/ exists u a, castStudentSet e b = Some u /\ s = applyStudentSet u a.
Proof.
  destruct (put_student_cases e id b st) as [-> | (oid & u & _ & C & _ & _ & _ & ->)];
    [auto |]. simpl.
  intros H. apply updateFirst_In in H.
  destruct H as [H | (a & _ & ->)]; [auto | right; eauto].
Qed.

Lemma validateStudent_fields (e : env) (i : option ObjectId) (b : StudentBody.t)
    (s : Student.t) :
  validateStudent e (i, b) = Some s ->
  Student.phone s = StudentBody.phone b
  /\ Student.totalFee s = StudentBody.totalFee b
  /\ Student.paidAmount s = StudentBody.paidAmount b.
Proof.
  rewrite validateStudent_eq.
  destruct i; [| discriminate].
  destruct (requiredString (StudentBody.name b)); [| discriminate].
  destruct (requiredString (StudentBody.email b)); [| discriminate].
  destruct (castDate e (StudentBody.joinDate b)); [| discriminate].
  destruct (bodyCourseId b); [| discriminate].
  intros [= <-]. repeat split.
Qed.

Lemma castStudentSet_fields (e : env) (b : StudentBody.t) (u : StudentSet.t) :
  castStudentSet e b = Some u ->
  StudentSet.name u = StudentBody.name b
  /\ StudentSet.email u = StudentBody.email b
  /\ StudentSet.phone u = StudentBody.phone b
  /\ StudentSet.totalFee u = StudentBody.totalFee b
  /\ StudentSet.paidAmount u = StudentBody.paidAmount b
  /\ StudentSet.reminderMessage u = StudentBody.reminderMessage b
  /\ castCourseId b = Some (StudentSet.courseId u)
  /\ castDateSet e (StudentBody.joinDate b) = Some (StudentSet.joinDate u)
  /\ castBodyId (StudentBody._id b) = Some (StudentSet._id u).
Proof.
  unfold castStudentSet.
  destruct (castBodyId (StudentBody._id b)); [| discriminate].
  destruct (castDateSet e (StudentBody.joinDate b)); [| discriminate].
  destruct (castCourseId b); [| discriminate].
  intros [= <-]. repeat split.
Qed.

Lemma parseIntOr_eq (v : maybe string) (d : Z) :
  (parseInt (toString v) = None \/ parseInt (toString v) = Some 0 ->
   parseIntOr v d = d)
  /\ (forall n, parseInt (toString v) = Some n -> n <> 0 -> parseIntOr v d = n).
Proof.
  unfold parseIntOr. split.
  - intros [-> | ->]; reflexivity.
  - intros n -> H. destruct (Z.eqb_spec n 0); congruence.
Qed.

Lemma parseIntOr_nonzero (v : maybe string) (d : Z) :
  d <> 0 -> parseIntOr v d <> 0.
Proof.
  intros H. unfold parseIntOr.
  destruct (parseInt (toString v)) as [n |]; [| assumption].
  destruct (Z.eqb_spec n 0); assumption.
Qed.

(** C10. In the data that [handleSaveStudent] sends, a totalFee input
    that parses to 0 or does not parse becomes 18000, and a paidAmount
    input that parses to 0 or does not parse becomes 0; any other parsed
    number is sent as it is.  The totalFee sent is never 0, and every
    Student that Create Student or Update Student stores or changes from
    this data carries that totalFee: none is stored with totalFee 0. *)
Theorem saved_student_fee_defaults :
  forall (form : Dashboard.Form.t) (editingStudent : option Dashboard.Student)
         (selectedCourse : Dashboard.Course),
    let data := Dashboard.handleSaveStudent_data form editingStudent selectedCourse in
    let fee := parseInt (Dashboard.Form.totalFee form) in
    let paid := parseInt (toString (Dashboard.Form.paidAmount form)) in
    (fee = None \/ fee = Some 0 -> StudentBody.totalFee data = Some 18000)
    /\ (paid = None \/ paid = Some 0 -> StudentBody.paidAmount data = Some 0)
    /\ (forall n, fee = Some n -> n <> 0 -> StudentBody.totalFee data = Some n)
    /\ (forall n, paid = Some n -> n <> 0 -> StudentBody.paidAmount data = Some n)
    /\ (exists n, StudentBody.totalFee data = Some n /\ n <> 0)
    /\ (forall e st s,
           In s (students (snd (post_student e data st))) ->
           In s (students st) \/ Student.totalFee s = StudentBody.totalFee data)
    /\ (forall e id st s,
           In s (students (snd (put_student e id data st))) ->
           In s (students st) \/ Student.totalFee s = StudentBody.totalFee data).
Proof.
  intros form editingStudent selectedCourse data fee paid. subst data fee paid.
  cbn [Dashboard.handleSaveStudent_data StudentBody.totalFee StudentBody.paidAmount].
  split; [| split; [| split; [| split; [| split; [| split]]]]].
  - intros H. f_equal. apply (proj1 (parseIntOr_eq (Defined _) 18000)). exact H.
  - intros H. f_equal. apply (proj1 (parseIntOr_eq _ 0)). exact H.
  - intros n H N. f_equal.
    apply (proj2 (parseIntOr_eq (Defined _) 18000) n); assumption.
  - intros n H N. f_equal. apply (proj2 (parseIntOr_eq _ 0) n); assumption.
  - eexists. split; [reflexivity |]. now apply parseIntOr_nonzero.
  - intros e st s H. apply post_student_stores in H.
    destruct H as [H | (i & V)]; [auto | right].
    now apply validateStudent_fields in V.
  - intros e id st s H. apply put_student_stores in H.
    destruct H as [H | (u & a & C & ->)]; [auto | right].
    apply castStudentSet_fields in C. destruct C as (_ & _ & _ & C & _).
    simpl. rewrite C. reflexivity.
Qed.

Lemma saved_student_fee_defaults_witness :
  let empty := Dashboard.Form.mk "Bob" "bob@example.com" "9876543210" "2024-01-01"
                 "0" Undefined in
  let data := Dashboard.handleSaveStudent_data empty None
                (Dashboard.mkCourse "000000000000000000000000" "Math 101" (Defined [])) in
  StudentBody.totalFee data = Some 18000
  /\ StudentBody.paidAmount data = Some 0.
Proof.
  intros empty data.
  destruct (saved_student_fee_defaults empty None
              (Dashboard.mkCourse "000000000000000000000000" "Math 101" (Defined [])))
    as (HF & HP & _).
  split.
  - apply HF. right. reflexivity.
  - apply HP. left. reflexivity.
Defined.

(** C7. The phone that [handleSaveStudent] transmits is the form's phone
    prefixed with "+91" when it does not begin with '+', and the form's
    phone unchanged when it does; every Student that Create Student or
    Update Student stores or changes from this data carries that phone. *)
Theorem phone_gets_country_code_unless_prefixed :
  forall (form : Dashboard.Form.t) (editingStudent : option Dashboard.Student)
         (selectedCourse : Dashboard.Course),
    let data := Dashboard.handleSaveStudent_data form editingStudent selectedCourse in
    let phone := Dashboard.Form.phone form in
    ((forall rest, phone <> String "+" rest) ->
     StudentBody.phone data = Some ("+91" ++ phone)%string)
    /\ ((exists rest, phone = String "+" rest) ->
        StudentBody.phone data = Some phone)
    /\ (forall e st s,
           In s (students (snd (post_student e data st))) ->
           In s (students st) \/ Student.phone s = StudentBody.phone data)
    /\ (forall e id st s,
           In s (students (snd (put_student e id data st))) ->
           In s (students st) \/ Student.phone s = StudentBody.phone data).
Proof.
  intros form editingStudent selectedCourse data phone.
  split; [| split; [| split]].
  - subst data phone. simpl. intros H.
    destruct (startsWith (Dashboard.Form.phone form) "+") eqn:E; [| reflexivity].
    apply startsWith_plus in E. destruct E as [rest E]. now apply H in E.
  - subst data phone. simpl. intros H. apply startsWith_plus in H.
    now rewrite H.
  - intros e st s H. apply post_student_stores in H.
    destruct H as [H | (i & V)]; [auto | right].
    now apply validateStudent_fields in V.
  - intros e id st s H. apply put_student_stores in H.
    destruct H as [H | (u & a & C & ->)]; [auto | right].
    apply castStudentSet_fields in C. destruct C as (_ & _ & C & _).
    simpl Student.phone. rewrite C. reflexivity.
Qed.

Lemma phone_gets_country_code_witness :
  let bob := Dashboard.Form.mk "Bob" "bob@example.com" "9876543210" "2024-01-01"
               "18000" (Defined "5000") in
  let eve := Dashboard.Form.mk "Eve" "eve@example.com" "+19876543210" "2024-01-01"
               "18000" (Defined "0") in
  StudentBody.phone (Dashboard.handleSaveStudent_data bob None (courseOf []))
    = Some "+919876543210"
  /\ StudentBody.phone (Dashboard.handleSaveStudent_data eve None (courseOf []))
    = Some "+19876543210".
Proof.
  intros bob eve. split.
  - apply (proj1 (phone_gets_country_code_unless_prefixed bob None (courseOf []))).
    simpl. discriminate.
  - apply (proj1 (proj2 (phone_gets_country_code_unless_prefixed eve None (courseOf [])))).
    simpl. eauto.
Defined.

(** * Further properties of the record service *)

(** ** The listing *)

Lemma filter_none {A : Type} (l : list A) : filter (fun _ => false) l = [].
Proof. induction l; simpl; auto. Qed.

(** Two tests that never hold together split a list into two parts. *)
Lemma filter_either {A : Type} (p q : A -> bool) (l : list A) :
  (forall a, p a = true -> q a = false) ->
  Permutation (filter p l ++ filter q l) (filter (fun a => p a || q a) l).
Proof.
  intros D. induction l as [| a l IH]; simpl; [constructor |].
  destruct (p a) eqn:P; simpl.
  - rewrite (D a P). now constructor.
  - destruct (q a); simpl; [| assumption].
    apply Permutation_sym, Permutation_cons_app. now apply Permutation_sym.
Qed.

(** Joining on distinct course ids places every student of a stored
    course once. *)
Lemma join_places_once (cs : list Course.t) (ss : list Student.t) :
  NoDup (map Course._id cs) ->
  Permutation
    (flat_map (fun c => filter (ofCourse (Course._id c)) ss) cs)
    (filter (fun s => existsb (hasId (Student.courseId s)) cs) ss).
Proof.
  induction cs as [| c cs IH]; intros D; simpl.
  - now rewrite filter_none.
  - inversion D as [| ? ? D1 D2]; subst.
    eapply Permutation_trans.
    + apply Permutation_app_head. now apply IH.
    + eapply Permutation_trans.
      * apply filter_either. intros s Hs.
        apply not_true_is_false. intros Hex.
        apply existsb_exists in Hex. destruct Hex as (c' & Hc' & E).
        apply N.eqb_eq in Hs, E. apply D1.
        rewrite <- Hs, <- E. now apply in_map.
      * erewrite filter_ext; [reflexivity |].
        intros s. simpl. unfold ofCourse, hasId. now rewrite N.eqb_sym.
Qed.

Lemma noOrphans_iff (st : state) :
  noOrphans st = true <->
  forall s, In s (students st) ->
            exists c, In c (courses st) /\ Course._id c = Student.courseId s.
Proof.
  unfold noOrphans. rewrite forallb_forall. split; intros H s Hs.
  - apply H, existsb_exists in Hs. destruct Hs as (c & Hc & E).
    exists c. split; [assumption | now apply N.eqb_eq].
  - apply existsb_exists. destruct (H s Hs) as (c & Hc & E).
    exists c. split; [assumption | now apply N.eqb_eq].
Qed.

(** X1. The listing never writes to the store.  When it answers with
    courses, they are the stored courses in stored order, each with
    exactly the stored students whose [courseId] is its id, in stored
    order; with the database answering it does answer with courses. *)
Theorem listing_joins_students_to_courses :
  forall (e : env) (st : state),
    snd (get_courses e st) = st
    /\ (forall l,
           body (fst (get_courses e st)) = JCourses l ->
           map CourseWithStudents.course l = courses st
           /\ Forall
                (fun v =>
                   CourseWithStudents.students v
                   = filter (ofCourse (Course._id (CourseWithStudents.course v)))
                       (students st))
                l)
    /\ exists l, fst (get_courses noFaults st) = mkResponse 200 (JCourses l).
Proof.
  intros e st. split; [| split].
  - rewrite get_courses_eq. reflexivity.
  - intros l. rewrite get_courses_eq. simpl.
    destruct (fails e CourseFind || existsb _ (courses st)); simpl; [discriminate |].
    intros [= <-]. split.
    + rewrite map_map. simpl. apply map_id.
    + apply Forall_forall. intros v Hv. apply in_map_iff in Hv.
      destruct Hv as (c & <- & _). reflexivity.
  - rewrite listing_answers. simpl. eexists. reflexivity.
Qed.

(** X2. Where course ids are distinct, the students a listing shows are,
    up to order, the stored students that name a stored course: each of
    them is shown once, and a student naming no stored course is never
    shown.  With no such student, the listing shows every stored student
    once. *)
Theorem listing_shows_placed_students_once :
  forall (e : env) (st : state) (l : list CourseWithStudents.t),
    wf st = true ->
    body (fst (get_courses e st)) = JCourses l ->
    Permutation (listedStudents l)
      (filter (fun s => existsb (hasId (Student.courseId s)) (courses st))
         (students st))
    /\ (noOrphans st = true -> Permutation (listedStudents l) (students st)).
Proof.
  intros e st l W. apply wf_iff in W. destruct W as [_ D].
  rewrite get_courses_eq. simpl.
  destruct (fails e CourseFind || existsb _ (courses st)); simpl; [discriminate |].
  intros [= <-].
  assert (P : Permutation
                (listedStudents
                   (map (fun c => CourseWithStudents.mk c
                                    (filter (ofCourse (Course._id c)) (students st)))
                      (courses st)))
                (filter (fun s => existsb (hasId (Student.courseId s)) (courses st))
                   (students st))).
  { unfold listedStudents. rewrite flat_map_concat_map, map_map. simpl.
    rewrite <- flat_map_concat_map. now apply join_places_once. }
  split; [exact P |].
  intros O. eapply Permutation_trans; [exact P |].
  rewrite forallb_filter_id; [reflexivity | exact O].
Qed.

Lemma listing_shows_placed_students_witness :
  let math := Course.mk 0 "Math 101" None None None None "English" in
  let art := Course.mk 1 "Art" None None None None "English" in
  let alice := Student.mk 2 "Alice" "a@x" None None (Some 18000) (Some 18000) None 1 in
  let bob := Student.mk 3 "Bob" "b@x" None None (Some 18000) (Some 5000) None 0 in
  let lost := Student.mk 4 "Lost" "l@x" None None None None None 9 in
  let st := mkState [math; art] [alice; bob; lost] 5 in
  Permutation
    [bob; alice]
    (filter (fun s => existsb (hasId (Student.courseId s)) (courses st)) (students st)).
Proof.
  intros math art alice bob lost st.
  exact (proj1 (listing_shows_placed_students_once noFaults st
                  [CourseWithStudents.mk math [bob]; CourseWithStudents.mk art [alice]]
                  eq_refl eq_refl)).
Defined.

(** ** Creating and updating *)

Lemma wf_fresh (st : state) :
  wf st = true -> unknownCourse (nextId st) st.
Proof.
  intros W c Hc. apply wf_iff in W. destruct W as [L _]. apply L in Hc. lia.
Qed.

(** X3. Create Course never touches the Students.  It stores nothing and
    answers 400 with a ValidationError when the title is missing or
    empty, a date sent is not a date, or the [_id] sent is not a
    well-formed id.  With a title, dates that cast, an [_id] (the one
    sent, or else the generated one) that no stored course has, and the
    database answering, it answers 201 with the new course and an empty
    student list, and appends that course to the collection: it carries
    the body's fields, the dates as cast, and "English" when no language
    is given.  In a well-formed state the generated id is one no stored
    course has. *)
Theorem create_course_requires_title :
  forall (e : env) (b : CourseBody.t) (st : state),
    students (snd (post_course e b st)) = students st
    /\ (requiredString (CourseBody.title b) = None
        \/ castDate e (CourseBody.startDate b) = None
        \/ castDate e (CourseBody.endDate b) = None
        \/ idOfNew (CourseBody._id b) st = None ->
        fst (post_course e b st) = mkResponse 400 (JError ValidationError)
        /\ courses (snd (post_course e b st)) = courses st)
    /\ (forall t sd ed id,
           requiredString (CourseBody.title b) = Some t ->
           castDate e (CourseBody.startDate b) = Some sd ->
           castDate e (CourseBody.endDate b) = Some ed ->
           idOfNew (CourseBody._id b) st = Some id ->
           unknownCourse id st ->
           fails e CourseSave = false ->
           let c := Course.mk id t
                      (CourseBody.description b) (CourseBody.whatYouLearn b)
                      sd ed
                      (orElse (CourseBody.language b) "English") in
           fst (post_course e b st)
           = mkResponse 201 (JCourseWithStudents (CourseWithStudents.mk c []))
           /\ courses (snd (post_course e b st)) = courses st ++ [c])
    /\ (wf st = true -> CourseBody._id b = None ->
        exists id, idOfNew (CourseBody._id b) st = Some id /\ unknownCourse id st).
Proof.
  intros e b st. split; [| split; [| split]].
  - destruct (post_course_cases e b st)
      as (_ & [(_ & _ & _ & ->) | (c & _ & _ & _ & _ & _ & -> & _)]); reflexivity.
  - intros H. rewrite post_course_eq. unfold validateCourse. cbv zeta. simpl fst. simpl snd.
    destruct (idOfNew (CourseBody._id b) st) as [id |];
      [| destruct (CourseBody._id b); split; reflexivity].
    destruct (requiredString (CourseBody.title b)) as [t |];
      [| destruct (CourseBody._id b); split; reflexivity].
    destruct (castDate e (CourseBody.startDate b)) as [sd |];
      [| destruct (CourseBody._id b); split; reflexivity].
    destruct (castDate e (CourseBody.endDate b)) as [ed |];
      [| destruct (CourseBody._id b); split; reflexivity].
    destruct H as [H | [H | [H | H]]]; discriminate.
  - intros t sd ed id Ht Hs He Hi U F c.
    rewrite post_course_eq, Hi. unfold validateCourse. cbv zeta. simpl fst. simpl snd.
    rewrite Ht, Hs, He, F. simpl Course._id.
    rewrite (unknownCourse_existsb _ _ U). split; reflexivity.
  - intros W ->. exists (nextId st). split; [reflexivity | now apply wf_fresh].
Qed.

Lemma create_course_requires_title_witness :
  let math := Course.mk 0 "Math 101" None None None None "English" in
  let st := mkState [math] [] 1 in
  let untitled := CourseBody.mk None (Some "") (Some "no title") None None None None in
  let art := CourseBody.mk None (Some "Art") None None (Some "2024-01-01") (Some "") None in
  (fst (post_course noFaults untitled st) = mkResponse 400 (JError ValidationError)
   /\ courses (snd (post_course noFaults untitled st)) = [math])
  /\ courses (snd (post_course noFaults art st))
     = [math; Course.mk 1 "Art" None None (Some 1704067200000) None "English"]
  /\ exists id, idOfNew (CourseBody._id art) st = Some id /\ unknownCourse id st.
Proof.
  intros math st untitled art.
  destruct (create_course_requires_title noFaults art st) as (_ & _ & H & G).
  split; [| split].
  - exact (proj1 (proj2 (create_course_requires_title noFaults untitled st))
             (or_introl eq_refl)).
  - assert (U : unknownCourse 1 st) by (intros c [<- | []]; simpl; discriminate).
    exact (proj2 (H "Art" (Some 1704067200000) None 1%N
                    eq_refl eq_refl eq_refl eq_refl U eq_refl)).
  - exact (G eq_refl eq_refl).
Defined.

(** Where keys are distinct, updating the document of a key is updating
    every document of that key. *)
Lemma updateFirst_unique {A : Type} (g : A -> N) (k : N) (f : A -> A)
    (l : list A) (c : A) :
  NoDup (map g l) -> In c l -> g c = k ->
  updateFirst (fun a => (g a =? k)%N) f l
  = (map (fun a => if (g a =? k)%N then f a else a) l, Some (f c)).
Proof.
  induction l as [| a l IH]; simpl; intros D Hc E; [contradiction |].
  inversion D as [| ? ? D1 D2]; subst.
  destruct (N.eqb_spec (g a) (g c)) as [Ea | Na].
  - assert (a = c) as ->.
    { destruct Hc as [Hc | Hc]; [assumption |].
      exfalso. apply D1. rewrite Ea. now apply in_map. }
    f_equal. f_equal. rewrite <- (map_id l) at 1.
    apply map_ext_in. intros x Hx.
    destruct (N.eqb_spec (g x) (g c)) as [Ex | _]; [| reflexivity].
    exfalso. apply D1. rewrite <- Ex. now apply in_map.
  - destruct Hc as [-> | Hc]; [congruence |].
    now rewrite (IH D2 Hc eq_refl).
Qed.

Lemma removeFirst_unique_key {A : Type} (g : A -> N) (k : N) (l : list A) :
  NoDup (map g l) ->
  fst (removeFirst (fun a => (g a =? k)%N) l)
  = filter (fun a => negb (g a =? k)%N) l.
Proof.
  induction l as [| a l IH]; simpl; intros D; [reflexivity |].
  inversion D as [| ? ? D1 D2]; subst.
  destruct (N.eqb_spec (g a) k) as [E | E]; simpl.
  - symmetry. apply forallb_filter_id, forallb_forall. intros x Hx.
    apply negb_true_iff, N.eqb_neq. intros E'.
    apply D1. rewrite E, <- E'. now apply in_map.
  - specialize (IH D2). destruct (removeFirst _ l); simpl in *. now rewrite IH.
Qed.

Lemma wfStudents_iff (st : state) :
  wfStudents st = true <->
  (forall s, In s (students st) -> (Student._id s < nextId st)%N)
  /\ NoDup (map Student._id (students st)).
Proof.
  unfold wfStudents. rewrite andb_true_iff, forallb_forall, distinct_NoDup.
  split; intros [H1 H2]; (split; [| assumption]); intros s Hs;
    apply N.ltb_lt; now apply H1.
Qed.

Lemma In_existsb_hasId (oid : ObjectId) (cs : list Course.t) (c : Course.t) :
  In c cs -> Course._id c = oid -> existsb (hasId oid) cs = true.
Proof.
  intros Hc E. apply existsb_exists. exists c. split; [assumption |].
  now apply N.eqb_eq.
Qed.

Lemma In_existsb_hasStudentId (oid : ObjectId) (ss : list Student.t) (s : Student.t) :
  In s ss -> Student._id s = oid -> existsb (hasStudentId oid) ss = true.
Proof.
  intros Hs E. apply existsb_exists. exists s. split; [assumption |].
  now apply N.eqb_eq.
Qed.

(** X4. In a well-formed state, Update Course on the id of a stored
    course, with a body that casts against the schema (its dates, and an
    [_id] that is the course's own if one is sent) and the database
    answering, answers 200 with that course updated by the cast body,
    and replaces it in place: every other course, the ids and order of
    the courses, and all students are as they were. *)
Theorem update_course_changes_one_course :
  forall (e : env) (id : string) (oid : ObjectId) (b : CourseBody.t)
         (u : CourseSet.t) (st : state) (c : Course.t),
    wf st = true ->
    castObjectId id = Some oid ->
    castCourseSet e b = Some u ->
    changesId (CourseSet._id u) oid = false ->
    In c (courses st) -> Course._id c = oid ->
    fails e CourseFindByIdAndUpdate = false ->
    let st' := snd (put_course e id b st) in
    fst (put_course e id b st) = mkResponse 200 (JCourse (Some (applyCourseSet u c)))
    /\ courses st'
       = map (fun x => if hasId oid x then applyCourseSet u x else x) (courses st)
    /\ map Course._id (courses st') = map Course._id (courses st)
    /\ students st' = students st
    /\ nextId st' = nextId st.
Proof.
  intros e id oid b u st c W C Cu I Hc E F st'. subst st'.
  apply wf_iff in W. destruct W as [_ D].
  rewrite put_course_eq, C, Cu, F, (In_existsb_hasId oid _ c Hc E), I. unfold hasId.
  rewrite (updateFirst_unique Course._id oid (applyCourseSet u) (courses st) c D Hc E).
  simpl. repeat split.
  rewrite map_map. apply map_ext. intros x.
  destruct (Course._id x =? oid)%N; reflexivity.
Qed.

Lemma update_course_changes_one_course_witness :
  let math := Course.mk 0 "Math 101" (Some "numbers") None (Some 0) (Some 86400000)
                "Hindi" in
  let art := Course.mk 1 "Art" None None None None "English" in
  let bob := Student.mk 2 "Bob" "b@x" None None (Some 18000) (Some 5000) None 0 in
  let st := mkState [math; art] [bob] 3 in
  let b := CourseBody.mk None (Some "Algebra") None None (Some "2024-01-01") (Some "")
             None in
  snd (put_course noFaults "000000000000000000000000" b st)
  = mkState [Course.mk 0 "Algebra" (Some "numbers") None (Some 1704067200000) None
               "Hindi"; art] [bob] 3.
Proof.
  intros math art bob st b.
  destruct (update_course_changes_one_course noFaults "000000000000000000000000"
              0%N b
              (CourseSet.mk None (Some "Algebra") None None
                 (Some (Some 1704067200000)) (Some None) None)
              st math eq_refl eq_refl eq_refl eq_refl (or_introl eq_refl)
              eq_refl eq_refl)
    as (_ & HC & _ & HS & HN).
  destruct (snd (put_course noFaults "000000000000000000000000" b st)) as [cs ss n].
  simpl in HC, HS, HN. rewrite HC, HS, HN. reflexivity.
Defined.

(** X5. Where student ids are distinct, Update Student on the id of a
    stored student, with a body that casts against the schema (its
    joinDate, its courseId, and an [_id] that is the student's own if
    one is sent) and the database answering, answers 200 with that
    student updated by the cast body and replaces it in place: its id,
    the other students, their order and all courses are as they
    were. *)
Theorem update_student_changes_one_student :
  forall (e : env) (id : string) (oid : ObjectId) (b : StudentBody.t)
         (u : StudentSet.t) (st : state) (s : Student.t),
    wfStudents st = true ->
    castObjectId id = Some oid ->
    castStudentSet e b = Some u ->
    changesId (StudentSet._id u) oid = false ->
    In s (students st) -> Student._id s = oid ->
    fails e StudentFindByIdAndUpdate = false ->
    let st' := snd (put_student e id b st) in
    fst (put_student e id b st)
    = mkResponse 200 (JStudent (Some (applyStudentSet u s)))
    /\ students st'
       = map (fun x => if hasStudentId oid x then applyStudentSet u x else x)
           (students st)
    /\ map Student._id (students st') = map Student._id (students st)
    /\ courses st' = courses st
    /\ nextId st' = nextId st.
Proof.
  intros e id oid b u st s W C Cu I Hs E F st'. subst st'.
  apply wfStudents_iff in W. destruct W as [_ D].
  rewrite put_student_eq, C, Cu, F, (In_existsb_hasStudentId oid _ s Hs E), I.
  unfold hasStudentId.
  rewrite (updateFirst_unique Student._id oid (applyStudentSet u) (students st) s D Hs E).
  simpl. repeat split.
  rewrite map_map. apply map_ext. intros x.
  destruct (Student._id x =? oid)%N; reflexivity.
Qed.

Lemma update_student_changes_one_student_witness :
  let math := Course.mk 0 "Math 101" None None None None "English" in
  let alice := Student.mk 1 "Alice" "a@x" None None (Some 18000) (Some 18000) None 0 in
  let bob := Student.mk 2 "Bob" "b@x" None None (Some 18000) (Some 5000) None 0 in
  let st := mkState [math] [alice; bob] 3 in
  let b := StudentBody.mk (Some "000000000000000000000002") None None None
             (Some "2024-03-01") None (Some 18000) (Some "Thanks") None in
  students (snd (put_student noFaults "000000000000000000000002" b st))
  = [alice; Student.mk 2 "Bob" "b@x" None (Some 1709251200000) (Some 18000)
              (Some 18000) (Some "Thanks") 0].
Proof.
  intros math alice bob st b.
  exact (proj1 (proj2 (update_student_changes_one_student noFaults
                         "000000000000000000000002" 2%N b
                         (StudentSet.mk (Some 2%N) None None None
                            (Some (Some 1709251200000)) None (Some 18000)
                            (Some "Thanks") None)
                         st bob
                         eq_refl eq_refl eq_refl eq_refl
                         (or_intror (or_introl eq_refl))
                         eq_refl eq_refl))).
Defined.

(** X6. Where student ids are distinct, Delete Student on a well-formed
    id, the database answering, answers 200 and leaves exactly the
    students of another id, in place, and all courses; deleting the same
    id again answers 200 and changes nothing. *)
Theorem delete_student_removes_one_student :
  forall (e e' : env) (id : string) (oid : ObjectId) (st : state),
    wfStudents st = true ->
    castObjectId id = Some oid ->
    fails e StudentFindByIdAndDelete = false ->
    fails e' StudentFindByIdAndDelete = false ->
    let st' := snd (delete_student e id st) in
    fst (delete_student e id st) = mkResponse 200 (JMessage "Student deleted")
    /\ students st' = filter (fun s => negb (hasStudentId oid s)) (students st)
    /\ courses st' = courses st
    /\ delete_student e' id st' = (mkResponse 200 (JMessage "Student deleted"), st').
Proof.
  intros e e' id oid st W C F F' st'. subst st'.
  apply wfStudents_iff in W. destruct W as [_ D].
  assert (E : delete_student e id st
              = (mkResponse 200 (JMessage "Student deleted"),
                 mkState (courses st)
                   (filter (fun s => negb (hasStudentId oid s)) (students st))
                   (nextId st))).
  { rewrite delete_student_eq, C, F. unfold hasStudentId.
    now rewrite (removeFirst_unique_key Student._id oid (students st) D). }
  rewrite E. simpl. repeat split.
  rewrite delete_student_eq, C, F'. simpl.
  rewrite removeFirst_none; [reflexivity |].
  intros s Hs. apply filter_In in Hs. destruct Hs as [_ Hs].
  now apply negb_true_iff in Hs.
Qed.

Lemma delete_student_removes_one_student_witness :
  let math := Course.mk 0 "Math 101" None None None None "English" in
  let alice := Student.mk 1 "Alice" "a@x" None None (Some 18000) (Some 18000) None 0 in
  let bob := Student.mk 2 "Bob" "b@x" None None (Some 18000) (Some 5000) None 0 in
  let st := mkState [math] [alice; bob] 3 in
  students (snd (delete_student noFaults "000000000000000000000001" st)) = [bob]
  /\ courses (snd (delete_student noFaults "000000000000000000000001" st)) = [math].
Proof.
  intros math alice bob st.
  destruct (delete_student_removes_one_student noFaults noFaults
              "000000000000000000000001" 1%N st eq_refl eq_refl eq_refl eq_refl)
    as (_ & HS & HC & _).
  split; [exact HS | exact HC].
Defined.

(** ** Removals *)

Lemma removeUpTo_In {A : Type} (k : nat) (p : A -> bool) (l : list A) (x : A) :
  In x (removeUpTo k p l) -> In x l.
Proof.
  revert k. induction l as [| a l IH]; intros k; destruct k; simpl; auto.
  destruct (p a); simpl.
  - intros H. right. now apply (IH k).
  - intros [<- | H]; [now left | right; now apply (IH (S k))].
Qed.

Lemma removeFirst_keeps {A : Type} (p : A -> bool) (l : list A) (x : A) :
  In x l -> p x = false -> In x (fst (removeFirst p l)).
Proof.
  induction l as [| a l IH]; simpl; [tauto |].
  intros [<- | H] P.
  - rewrite P. destruct (removeFirst p l); simpl. now left.
  - destruct (p a); simpl; [assumption |].
    specialize (IH H P). destruct (removeFirst p l); simpl in *. now right.
Qed.

Lemma removeFirst_NoDup_map {A B : Type} (g : A -> B) (p : A -> bool) (l : list A) :
  NoDup (map g l) -> NoDup (map g (fst (removeFirst p l))).
Proof.
  induction l as [| a l IH]; simpl; intros D; [constructor |].
  inversion D as [| ? ? D1 D2]; subst.
  destruct (p a); simpl; [assumption |].
  specialize (IH D2).
  pose proof (removeFirst_In p l) as S.
  destruct (removeFirst p l) as [r o]; simpl in *.
  constructor; [| assumption].
  intros Hin. apply D1. apply in_map_iff in Hin. destruct Hin as (x & E & Hx).
  rewrite <- E. apply in_map. now apply S.
Qed.

Lemma removeUpTo_NoDup_map {A B : Type} (g : A -> B) (k : nat) (p : A -> bool)
    (l : list A) :
  NoDup (map g l) -> NoDup (map g (removeUpTo k p l)).
Proof.
  revert k. induction l as [| a l IH]; intros k D; destruct k; simpl; auto.
  inversion D as [| ? ? D1 D2]; subst.
  destruct (p a); simpl; [now apply IH |].
  constructor; [| now apply IH].
  intros Hin. apply D1. apply in_map_iff in Hin. destruct Hin as (x & E & Hx).
  rewrite <- E. apply in_map. now apply removeUpTo_In in Hx.
Qed.

(** Removing elements that pass a test does not change the elements
    that fail it. *)
Lemma filter_removeUpTo {A : Type} (k : nat) (p : A -> bool) (l : list A) :
  filter (fun a => negb (p a)) (removeUpTo k p l) = filter (fun a => negb (p a)) l.
Proof.
  revert k. induction l as [| a l IH]; intros k; destruct k; simpl; auto.
  destruct (p a) eqn:P; simpl; [apply IH |].
  rewrite P. simpl. now rewrite IH.
Qed.

Lemma filter_removeFirst {A : Type} (p : A -> bool) (l : list A) :
  filter (fun a => negb (p a)) (fst (removeFirst p l)) = filter (fun a => negb (p a)) l.
Proof.
  induction l as [| a l IH]; simpl; [reflexivity |].
  destruct (p a) eqn:P; simpl; [reflexivity |].
  destruct (removeFirst p l); simpl in *. rewrite P. simpl. now rewrite IH.
Qed.

Lemma filter_twice {A : Type} (q : A -> bool) (l : list A) :
  filter q (filter q l) = filter q l.
Proof.
  apply forallb_filter_id, forallb_forall. intros x Hx.
  apply filter_In in Hx. tauto.
Qed.

Lemma validateStudent_id (e : env) (i : option ObjectId) (b : StudentBody.t)
    (s : Student.t) :
  validateStudent e (i, b) = Some s ->
  i = Some (Student._id s) /\ bodyCourseId b = Some (Student.courseId s).
Proof.
  rewrite validateStudent_eq.
  destruct i; [| discriminate].
  destruct (requiredString (StudentBody.name b)); [| discriminate].
  destruct (requiredString (StudentBody.email b)); [| discriminate].
  destruct (castDate e (StudentBody.joinDate b)); [| discriminate].
  destruct (bodyCourseId b); [| discriminate].
  intros [= <-]. split; reflexivity.
Qed.

Lemma handle_keeps_wfStudents (e : env) (rq : request) (st : state) :
  wfStudents st = true -> wfStudents (snd (handle e rq st)) = true.
Proof.
  rewrite !wfStudents_iff. intros [L D].
  destruct rq as [| b | id b | id | b | id b | id]; simpl.
  - rewrite get_courses_eq. simpl. auto.
  - destruct (post_course_cases e b st)
      as (G & [(_ & _ & _ & ->) | (c & _ & _ & _ & _ & _ & -> & _)]);
      (split; [intros s Hs; apply L in Hs; lia | assumption]).
  - destruct (put_course_cases e id b st) as [-> | (oid & u & _ & _ & _ & _ & _ & ->)];
      simpl; auto.
  - rewrite delete_course_eq. destruct (castObjectId id) as [oid |]; [| auto].
    destruct (fails e StudentDeleteMany); simpl.
    + split; [| now apply removeUpTo_NoDup_map].
      intros s Hs. apply removeUpTo_In in Hs. auto.
    + assert (G : (forall s, In s (filter (fun s => negb (ofCourse oid s)) (students st)) ->
                             (Student._id s < nextId st)%N)
                  /\ NoDup (map Student._id
                              (filter (fun s => negb (ofCourse oid s)) (students st)))).
      { split; [| now apply NoDup_map_filter].
        intros s Hs. apply filter_In in Hs. apply L. tauto. }
      destruct (fails e CourseFindByIdAndDelete); simpl; exact G.
  - destruct (post_student_cases e b st)
      as (G & [(_ & _ & _ & ->) | (s & _ & X & _ & _ & _ & -> & I)]).
    + split; [intros s' Hs'; apply L in Hs'; lia | assumption].
    + split.
      * intros s' Hs'. apply in_app_or in Hs'.
        destruct Hs' as [Hs' | [<- | []]]; [apply L in Hs'; lia | assumption].
      * rewrite map_app. apply NoDup_snoc; [assumption |].
        now apply existsb_hasStudentId_In.
  - destruct (put_student_cases e id b st) as [-> | (oid & u & _ & _ & _ & _ & _ & ->)];
      [auto |]. simpl. split.
    + intros s' Hs'. apply updateFirst_In in Hs'.
      destruct Hs' as [Hs' | (s & Hs & ->)]; [auto | simpl; auto].
    + rewrite updateFirst_map by reflexivity. assumption.
  - rewrite delete_student_eq. destruct (castObjectId id) as [oid |]; simpl; auto.
    destruct (fails e StudentFindByIdAndDelete); simpl; auto.
    split; [| now apply removeFirst_NoDup_map].
    intros s Hs. apply removeFirst_In in Hs. auto.
Qed.

(** The database keeps the ids of a collection distinct whatever ids the
    requests carry: an insertion under a stored id is refused, and no
    update changes an id. *)
Lemma handle_keeps_distinct (e : env) (rq : request) (st : state) :
  NoDup (map Course._id (courses st)) ->
  NoDup (map Student._id (students st)) ->
  NoDup (map Course._id (courses (snd (handle e rq st))))
  /\ NoDup (map Student._id (students (snd (handle e rq st)))).
Proof.
  intros C S. destruct rq as [| b | id b | id | b | id b | id]; simpl.
  - rewrite get_courses_eq. simpl. auto.
  - destruct (post_course_cases e b st)
      as (_ & [(_ & _ & -> & ->) | (c & _ & X & _ & _ & -> & -> & _)]); [auto |].
    split; [| assumption]. rewrite map_app. apply NoDup_snoc; [assumption |].
    now apply existsb_hasId_In.
  - destruct (put_course_cases e id b st) as [-> | (oid & u & _ & _ & _ & _ & _ & ->)];
      [auto |]. simpl. split; [| assumption].
    rewrite updateFirst_map by reflexivity. assumption.
  - rewrite delete_course_eq. destruct (castObjectId id) as [oid |]; [| auto].
    destruct (fails e StudentDeleteMany); simpl.
    + split; [assumption | now apply removeUpTo_NoDup_map].
    + destruct (fails e CourseFindByIdAndDelete); simpl.
      * split; [assumption | now apply NoDup_map_filter].
      * split; [now apply removeFirst_NoDup_map | now apply NoDup_map_filter].
  - destruct (post_student_cases e b st)
      as (_ & [(_ & _ & -> & ->) | (s & _ & X & _ & _ & -> & -> & _)]); [auto |].
    split; [assumption |]. rewrite map_app. apply NoDup_snoc; [assumption |].
    now apply existsb_hasStudentId_In.
  - destruct (put_student_cases e id b st) as [-> | (oid & u & _ & _ & _ & _ & _ & ->)];
      [auto |]. simpl. split; [assumption |].
    rewrite updateFirst_map by reflexivity. assumption.
  - rewrite delete_student_eq. destruct (castObjectId id) as [oid |]; simpl; auto.
    destruct (fails e StudentFindByIdAndDelete); simpl; auto.
    split; [assumption | now apply removeFirst_NoDup_map].
Qed.

(** X7. Along every run of the server, under any database behaviour and
    whatever ids the requests carry, the ids of the stored courses stay
    distinct and the ids of the stored students stay distinct. *)
Theorem ids_stay_distinct :
  forall (trace : list (env * request)) (st : state),
    NoDup (map Course._id (courses st)) ->
    NoDup (map Student._id (students st)) ->
    NoDup (map Course._id (courses (run trace st)))
    /\ NoDup (map Student._id (students (run trace st))).
Proof.
  induction trace as [| [e rq] trace IH]; intros st C S; simpl.
  - split; assumption.
  - destruct (handle_keeps_distinct e rq st C S) as [C' S']. now apply IH.
Qed.

Lemma ids_stay_distinct_witness :
  let course := CourseBody.mk None (Some "Math 101") None None None None None in
  let same := CourseBody.mk (Some "000000000000000000000000") (Some "Math 102")
                None None None None None in
  let student := StudentBody.mk None (Some "Bob") (Some "b@x") None None None None None
                   (Some "000000000000000000000000") in
  let twin := StudentBody.mk (Some "000000000000000000000001") (Some "Bob")
                (Some "b@x") None None None None None
                (Some "000000000000000000000000") in
  let trace := [(noFaults, PostCourse course); (noFaults, PostCourse same);
                (noFaults, PostStudent student);
                (failing StudentSave 0, PostStudent student);
                (noFaults, PostStudent twin);
                (noFaults, PutStudent "000000000000000000000001" twin);
                (failing StudentDeleteMany 1, DeleteCourse "000000000000000000000000")] in
  NoDup (map Course._id (courses (run trace initial)))
  /\ NoDup (map Student._id (students (run trace initial))).
Proof.
  intros course same student twin trace.
  apply (ids_stay_distinct trace initial); simpl; constructor.
Defined.

(** ** Deleting a course, whatever the database does *)

(** X8. Whatever the database does and whatever the id, Delete Course
    stores nothing new, issues no id, and removes neither a student of
    another course nor a course of another id: the students of other
    [courseId]s and the courses of other ids are as they were, in place.
    An id that does not cast changes nothing at all. *)
Theorem delete_course_spares_the_rest :
  forall (e : env) (id : string) (st : state),
    let st' := snd (delete_course e id st) in
    (forall s, In s (students st') -> In s (students st))
    /\ (forall c, In c (courses st') -> In c (courses st))
    /\ nextId st' = nextId st
    /\ (forall oid,
           castObjectId id = Some oid ->
           filter (fun s => negb (ofCourse oid s)) (students st')
           = filter (fun s => negb (ofCourse oid s)) (students st)
           /\ filter (fun c => negb (hasId oid c)) (courses st')
              = filter (fun c => negb (hasId oid c)) (courses st))
    /\ (castObjectId id = None -> st' = st).
Proof.
  intros e id st st'. subst st'. rewrite delete_course_eq.
  destruct (castObjectId id) as [oid |]; simpl;
    [| repeat split; auto; discriminate].
  destruct (fails e StudentDeleteMany); simpl.
  - split; [| split; [| split; [| split]]].
    + intros s Hs. now apply removeUpTo_In in Hs.
    + auto.
    + reflexivity.
    + intros oid' [= <-]. split; [apply filter_removeUpTo | reflexivity].
    + discriminate.
  - destruct (fails e CourseFindByIdAndDelete); simpl.
    + split; [| split; [| split; [| split]]].
      * intros s Hs. apply filter_In in Hs. tauto.
      * auto.
      * reflexivity.
      * intros oid' [= <-]. split; [apply filter_twice | reflexivity].
      * discriminate.
    + split; [| split; [| split; [| split]]].
      * intros s Hs. apply filter_In in Hs. tauto.
      * intros c Hc. now apply removeFirst_In in Hc.
      * reflexivity.
      * intros oid' [= <-]. split; [apply filter_twice | apply filter_removeFirst].
      * discriminate.
Qed.

(** X9. Delete Course can be retried.  In a well-formed state, after an
    attempt under any database behaviour (it may have failed before,
    during or after the removal of the students, or have succeeded), a
    further attempt during which the database answers is confirmed with
    200 when the id casts, and leaves the state that a first successful
    attempt would have left. *)
Theorem delete_course_retry_converges :
  forall (e e2 : env) (id : string) (st : state),
    wf st = true ->
    fails e2 StudentDeleteMany = false ->
    fails e2 CourseFindByIdAndDelete = false ->
    snd (delete_course e2 id (snd (delete_course e id st)))
    = snd (delete_course e2 id st)
    /\ (forall oid,
           castObjectId id = Some oid ->
           status (fst (delete_course e2 id (snd (delete_course e id st)))) = 200).
Proof.
  intros e e2 id st W F1 F2.
  apply wf_iff in W. destruct W as [_ D].
  rewrite (delete_course_eq e2 id st).
  rewrite (delete_course_eq e2 id (snd (delete_course e id st))).
  rewrite (delete_course_eq e id st).
  destruct (castObjectId id) as [oid |]; simpl;
    [| split; [reflexivity | discriminate]].
  rewrite F1, F2.
  destruct (fails e StudentDeleteMany); simpl.
  - split; [| reflexivity]. f_equal. apply filter_removeUpTo.
  - destruct (fails e CourseFindByIdAndDelete); simpl.
    + split; [| reflexivity]. f_equal. apply filter_twice.
    + split; [| reflexivity]. f_equal; [| apply filter_twice].
      rewrite (removeFirst_unique oid (courses st) D).
      rewrite removeFirst_none; [reflexivity |].
      intros c Hc. apply filter_In in Hc. destruct Hc as [_ Hc].
      now apply negb_true_iff in Hc.
Qed.

Lemma delete_course_retry_converges_witness :
  let math := Course.mk 0 "Math 101" None None None None "English" in
  let alice := Student.mk 1 "Alice" "a@x" None None (Some 18000) (Some 18000) None 0 in
  let bob := Student.mk 2 "Bob" "b@x" None None (Some 18000) (Some 5000) None 0 in
  let st := mkState [math] [alice; bob] 3 in
  let id := "000000000000000000000000" in
  students (snd (delete_course (failing StudentDeleteMany 1) id st)) = [bob]
  /\ snd (delete_course noFaults id (snd (delete_course (failing StudentDeleteMany 1) id st)))
     = mkState [] [] 3.
Proof.
  intros math alice bob st id. split; [reflexivity |].
  exact (proj1 (delete_course_retry_converges (failing StudentDeleteMany 1) noFaults
                  id st eq_refl eq_refl eq_refl)).
Defined.

(** ** References from students to courses *)

Lemma existsb_hasId (oid : ObjectId) (cs : list Course.t) :
  existsb (hasId oid) cs = true <-> exists c, In c cs /\ Course._id c = oid.
Proof.
  rewrite existsb_exists. unfold hasId.
  split; intros (c & Hc & E); exists c; (split; [assumption |]);
    now apply N.eqb_eq.
Qed.

(** X10. If every stored student names a stored course, this is still so
    after any request, under any database behaviour, provided a request
    that creates or updates a student names a stored course when it names
    one.  In particular no listing, course write, student deletion or
    course deletion, failed or not, leaves a student without its
    course. *)
Theorem student_references_are_kept :
  forall (e : env) (rq : request) (st : state),
    noOrphans st = true ->
    namesStoredCourse st rq = true ->
    noOrphans (snd (handle e rq st)) = true.
Proof.
  intros e rq st O. rewrite noOrphans_iff in O. rewrite noOrphans_iff.
  destruct rq as [| b | id b | id | b | id b | id]; simpl; intros N.
  - rewrite get_courses_eq. simpl. assumption.
  - destruct (post_course_cases e b st)
      as (_ & [(_ & _ & -> & ->) | (c & _ & _ & _ & _ & -> & -> & _)]);
      [assumption |].
    intros s Hs. destruct (O s Hs) as (c' & Hc & E).
    exists c'. split; [apply in_or_app; now left | assumption].
  - destruct (put_course_cases e id b st) as [-> | (oid & u & _ & _ & _ & _ & _ & ->)];
      [assumption |]. simpl.
    intros s Hs. destruct (O s Hs) as (c & Hc & E).
    assert (I : In (Student.courseId s)
                  (map Course._id
                     (fst (updateFirst (hasId oid) (applyCourseSet u) (courses st))))).
    { rewrite updateFirst_map by reflexivity. rewrite <- E. now apply in_map. }
    apply in_map_iff in I. destruct I as (c' & E' & Hc'). eauto.
  - rewrite delete_course_eq. destruct (castObjectId id) as [oid |]; [| assumption].
    destruct (fails e StudentDeleteMany); simpl.
    + intros s Hs. apply removeUpTo_In in Hs. auto.
    + destruct (fails e CourseFindByIdAndDelete); simpl.
      * intros s Hs. apply filter_In in Hs. apply O. tauto.
      * intros s Hs. apply filter_In in Hs. destruct Hs as [Hs P].
        destruct (O s Hs) as (c & Hc & E). exists c. split; [| assumption].
        apply removeFirst_keeps; [assumption |].
        unfold hasId. rewrite E. apply negb_true_iff in P. exact P.
  - destruct (post_student_cases e b st)
      as (_ & [(_ & _ & -> & ->) | (s & V & _ & _ & _ & -> & -> & _)]);
      [assumption |].
    intros s' Hs'. apply in_app_or in Hs'. destruct Hs' as [Hs' | [<- | []]]; [auto |].
    apply validateStudent_id in V. destruct V as [_ V]. rewrite V in N.
    now apply existsb_hasId.
  - destruct (put_student_cases e id b st) as [-> | (oid & u & _ & C & _ & _ & _ & ->)];
      [assumption |]. simpl.
    apply castStudentSet_fields in C.
    destruct C as (_ & _ & _ & _ & _ & _ & C & _). rewrite C in N.
    intros s' Hs'. apply updateFirst_In in Hs'.
    destruct Hs' as [Hs' | (s & Hs & ->)]; [auto |]. simpl.
    destruct (StudentSet.courseId u) as [oid' |]; simpl; [now apply existsb_hasId | auto].
  - rewrite delete_student_eq. destruct (castObjectId id) as [oid |]; [| assumption].
    destruct (fails e StudentFindByIdAndDelete); simpl; [assumption |].
    intros s Hs. apply removeFirst_In in Hs. auto.
Qed.

Lemma student_references_are_kept_witness :
  let math := Course.mk 0 "Math 101" None None None None "English" in
  let art := Course.mk 1 "Art" None None None None "English" in
  let alice := Student.mk 2 "Alice" "a@x" None None (Some 18000) (Some 18000) None 0 in
  let carl := Student.mk 3 "Carl" "c@x" None None (Some 18000) (Some 0) None 1 in
  let st := mkState [math; art] [alice; carl] 4 in
  noOrphans (snd (delete_course (failing CourseFindByIdAndDelete 0)
                    "000000000000000000000000" st)) = true
  /\ noOrphans (snd (post_student noFaults
                       (StudentBody.mk None (Some "Dan") (Some "d@x") None None None None
                          None (Some "000000000000000000000001")) st)) = true.
Proof.
  intros math art alice carl st. split.
  - exact (student_references_are_kept (failing CourseFindByIdAndDelete 0)
             (DeleteCourse "000000000000000000000000") st eq_refl eq_refl).
  - exact (student_references_are_kept noFaults
             (PostStudent (StudentBody.mk None (Some "Dan") (Some "d@x") None None None None
                             None (Some "000000000000000000000001")))
             st eq_refl eq_refl).
Defined.

(** ** Responses *)

(** X11. Every route answers either with its success status and a body
    that is not an error (200, or 201 for the two creations), or with its
    error status and an error body (500 for the listing and the two
    deletions, 400 for the creations and updates). *)
Theorem responses_have_the_status_of_their_route :
  forall (e : env) (rq : request) (st : state),
    let r := fst (handle e rq st) in
    (isError r = false /\ status r = successStatus rq)
    \/ (isError r = true /\ status r = errorStatus rq).
Proof.
  intros e rq st.
  destruct rq as [| b | id b | id | b | id b | id]; simpl.
  - rewrite get_courses_eq.
    destruct (fails e CourseFind || existsb _ (courses st)); simpl; auto.
  - destruct (post_course_cases e b st)
      as (_ & [(S & E & _) | (c & _ & _ & _ & -> & _)]); [right | left]; auto.
  - rewrite put_course_eq.
    destruct (castObjectId id), (castCourseSet e b); simpl; auto.
    destruct (fails e CourseFindByIdAndUpdate); simpl; auto.
    destruct (existsb _ (courses st)); simpl; auto.
    destruct (changesId _ _); simpl; auto.
  - rewrite delete_course_eq. destruct (castObjectId id); simpl; auto.
    destruct (fails e StudentDeleteMany); simpl; auto.
    destruct (fails e CourseFindByIdAndDelete); simpl; auto.
  - destruct (post_student_cases e b st)
      as (_ & [(S & E & _) | (s & _ & _ & _ & -> & _)]); [right | left]; auto.
  - rewrite put_student_eq.
    destruct (castObjectId id), (castStudentSet e b); simpl; auto.
    destruct (fails e StudentFindByIdAndUpdate); simpl; auto.
    destruct (existsb _ (students st)); simpl; auto.
    destruct (changesId _ _); simpl; auto.
  - rewrite delete_student_eq. destruct (castObjectId id); simpl; auto.
    destruct (fails e StudentFindByIdAndDelete); simpl; auto.
Qed.

(** X12. A request answered with an error has written nothing to the
    two collections, unless it is a Delete Course: that one may have
    removed students before it failed. *)
Theorem failed_requests_write_nothing :
  forall (e : env) (rq : request) (st : state),
    (forall id, rq <> DeleteCourse id) ->
    isError (fst (handle e rq st)) = true ->
    courses (snd (handle e rq st)) = courses st
    /\ students (snd (handle e rq st)) = students st.
Proof.
  intros e rq st ND.
  destruct rq as [| b | id b | id | b | id b | id]; simpl.
  - rewrite get_courses_eq. simpl. auto.
  - destruct (post_course_cases e b st)
      as (_ & [(_ & _ & -> & ->) | (c & _ & _ & _ & -> & _)]);
      [auto | discriminate].
  - rewrite put_course_eq.
    destruct (castObjectId id), (castCourseSet e b); simpl; auto.
    destruct (fails e CourseFindByIdAndUpdate); simpl; auto.
    destruct (existsb _ (courses st)); simpl; auto.
    destruct (changesId _ _); simpl; auto; discriminate.
  - now destruct (ND id).
  - destruct (post_student_cases e b st)
      as (_ & [(_ & _ & -> & ->) | (s & _ & _ & _ & -> & _)]);
      [auto | discriminate].
  - rewrite put_student_eq.
    destruct (castObjectId id), (castStudentSet e b); simpl; auto.
    destruct (fails e StudentFindByIdAndUpdate); simpl; auto.
    destruct (existsb _ (students st)); simpl; auto.
    destruct (changesId _ _); simpl; auto; discriminate.
  - rewrite delete_student_eq. destruct (castObjectId id); simpl; auto.
    destruct (fails e StudentFindByIdAndDelete); simpl; auto; discriminate.
Qed.

Lemma failed_requests_write_nothing_witness :
  let math := Course.mk 0 "Math 101" None None None None "English" in
  let bob := Student.mk 1 "Bob" "b@x" None None (Some 18000) (Some 5000) None 0 in
  let st := mkState [math] [bob] 2 in
  let rq := PutStudent "not-an-id" (StudentBody.mk None (Some "Robert") None None None None
                                      None None None) in
  courses (snd (handle noFaults rq st)) = [math]
  /\ students (snd (handle noFaults rq st)) = [bob].
Proof.
  intros math bob st rq.
  apply (failed_requests_write_nothing noFaults rq st).
  - intros id. discriminate.
  - reflexivity.
Defined.

(** * Further properties of the dashboard *)

(** ** The selection after a fetch *)

Lemma fetch_selection_is_fetched (ref selected : option Dashboard.Course)
    (data : list Dashboard.Course) :
  data <> [] ->
  exists c, fetchCourses_selection ref selected data = Some c /\ In c data.
Proof.
  intros NE. unfold fetchCourses_selection.
  destruct ref as [cur |].
  - destruct (find _ data) as [u |] eqn:F.
    + apply find_some in F. exists u. tauto.
    + destruct data as [| c data]; [congruence |]. exists c. simpl. auto.
  - destruct data as [| c data]; [congruence |]. exists c. simpl. auto.
Qed.

(** X13. After a fetch that returns at least one course, the selection
    is one of the fetched courses.  If a fetched course has the id of the
    course the ref holds, the selection is the first fetched course of
    that id (the refreshed record); if none has, or the ref is empty, it
    is the first fetched course. *)
Theorem fetch_selects_a_fetched_course :
  forall (ref selected : option Dashboard.Course) (data : list Dashboard.Course),
    (data <> [] ->
     exists c, fetchCourses_selection ref selected data = Some c /\ In c data)
    /\ (forall cur u,
           ref = Some cur -> In u data -> Dashboard.c_id u = Dashboard.c_id cur ->
           exists c before after,
             fetchCourses_selection ref selected data = Some c
             /\ Dashboard.c_id c = Dashboard.c_id cur
             /\ data = before ++ c :: after
             /\ forall x, In x before -> Dashboard.c_id x <> Dashboard.c_id cur)
    /\ ((forall cur, ref = Some cur ->
                     forall u, In u data -> Dashboard.c_id u <> Dashboard.c_id cur) ->
        data <> [] ->
        fetchCourses_selection ref selected data = firstCourse data).
Proof.
  intros ref selected data. split; [| split].
  - apply fetch_selection_is_fetched.
  - intros cur u -> Hu E. unfold fetchCourses_selection.
    induction data as [| a data IH]; [contradiction |]. simpl.
    destruct (String.eqb_spec (Dashboard.c_id a) (Dashboard.c_id cur)) as [Ea | Na].
    + exists a, [], data. split; [reflexivity |]. split; [assumption |].
      split; [reflexivity |]. intros x [].
    + destruct Hu as [-> | Hu]; [congruence |].
      destruct (IH Hu) as (c & before & after & F & Ec & D & B).
      destruct (find _ data) as [c' |] eqn:Fd.
      * injection F as <-. exists c', (a :: before), after.
        split; [reflexivity |]. split; [assumption |]. split.
        -- simpl. now rewrite D.
        -- intros x [<- | Hx]; auto.
      * exfalso. apply (find_none _ _ Fd) in Hu.
        apply String.eqb_neq in Hu. congruence.
  - intros H NE. unfold fetchCourses_selection.
    destruct ref as [cur |]; [| destruct data; [congruence | reflexivity]].
    destruct (find _ data) as [u |] eqn:F.
    + apply find_some in F. destruct F as [Hu E].
      apply String.eqb_eq in E. now apply (H cur eq_refl) in Hu.
    + destruct data; reflexivity.
Qed.

Lemma fetch_selects_a_fetched_course_witness :
  let old := Dashboard.mkCourse "b" "Art" (Defined []) in
  let a := Dashboard.mkCourse "a" "Math 101" (Defined []) in
  let b := Dashboard.mkCourse "b" "Art and design" Undefined in
  fetchCourses_selection (Some old) (Some old) [a; b] = Some b.
Proof.
  intros old a b.
  destruct (proj1 (proj2 (fetch_selects_a_fetched_course (Some old) (Some old) [a; b]))
              old b eq_refl (or_intror (or_introl eq_refl)) eq_refl)
    as (c & before & after & F & E & D & B).
  rewrite F. f_equal.
  destruct before as [| x [| y before]].
  - injection D as <- _. exfalso. discriminate E.
  - injection D as <- <- _. reflexivity.
  - injection D as _ _ D. destruct before; discriminate D.
Defined.

(** X14. After the selected course is deleted, the fetch selects the
    first remaining course, or nothing when none remains, whether the
    ref still holds the deleted course or has already been emptied. *)
Theorem deleted_selection_falls_back_to_first :
  forall (deleted : Dashboard.Course) (data : list Dashboard.Course),
    (forall c, In c data -> Dashboard.c_id c <> Dashboard.c_id deleted) ->
    fetchCourses_selection (Some deleted) None data = firstCourse data
    /\ fetchCourses_selection None None data = firstCourse data.
Proof.
  intros deleted data H. unfold fetchCourses_selection, firstCourse. split.
  - destruct (find _ data) as [u |] eqn:F; [| reflexivity].
    apply find_some in F. destruct F as [Hu E].
    apply String.eqb_eq in E. now apply H in Hu.
  - destruct data; reflexivity.
Qed.

Lemma deleted_selection_falls_back_witness :
  let deleted := Dashboard.mkCourse "a" "Math 101" (Defined []) in
  let art := Dashboard.mkCourse "b" "Art" (Defined []) in
  fetchCourses_selection (Some deleted) None [art] = Some art
  /\ fetchCourses_selection None None [art] = Some art.
Proof.
  intros deleted art.
  apply (deleted_selection_falls_back_to_first deleted [art]).
  intros c [<- | []]. discriminate.
Defined.

(** X15. The component renders the blank fallback exactly when no
    course is selected while the course list in state is not empty:
    this is the state in which [handleDeleteCourse] leaves it, with the
    selection cleared over the list of the last fetch, until its own
    fetch resolves.  The render that follows a resolved fetch (the
    fetched list with the selection the fetch leaves) is never the blank
    fallback, whatever the ref held; with the ref in step with the
    selection it shows the "no courses" screen exactly when the fetched
    list is empty, and otherwise the dashboard of a course of the
    fetched list. *)
Theorem render_is_blank_only_before_refetch :
  forall (ref selected : option Dashboard.Course)
         (courses data : list Dashboard.Course),
    (render selected courses = BlankScreen <-> selected = None /\ courses <> [])
    /\ render (fetchCourses_selection ref selected data) data <> BlankScreen
    /\ (let selection := fetchCourses_selection selected selected data in
        (render selection data = NoCoursesScreen <-> data = [])
        /\ (forall c, render selection data = DashboardScreen c -> In c data)).
Proof.
  intros ref selected courses data. split; [| split].
  - unfold render. destruct selected as [c |]; [split; [discriminate | intros [E _]; discriminate] |].
    destruct courses as [| c courses]; simpl.
    + split; [discriminate | intros [_ N]; congruence].
    + split; [intros _; split; [reflexivity | discriminate] | reflexivity].
  - destruct data as [| a data].
    + unfold render. destruct (fetchCourses_selection ref selected []); discriminate.
    + destruct (fetch_selection_is_fetched ref selected (a :: data))
        as (c & F & _); [discriminate |].
      rewrite F. discriminate.
  - cbv zeta. destruct data as [| a data].
    + assert (E : fetchCourses_selection selected selected [] = None).
      { unfold fetchCourses_selection. destruct selected; reflexivity. }
      rewrite E. simpl. split; [tauto | discriminate].
    + destruct (fetch_selection_is_fetched selected selected (a :: data))
        as (c & F & Hc); [discriminate |].
      rewrite F. simpl. split; [split; discriminate |].
      intros c' [= <-]. exact Hc.
Qed.

(** ** The four numbers of the dashboard *)

Lemma countIf_app {A : Type} (p : A -> bool) (l1 l2 : list A) :
  countIf p (l1 ++ l2) = countIf p l1 + countIf p l2.
Proof. unfold countIf. rewrite filter_app, length_app. lia. Qed.

Lemma totalStudents_all (cs : list Dashboard.Course) :
  Dashboard.totalStudents cs = Z.of_nat (List.length (allStudents cs)).
Proof.
  rewrite totalStudents_sum. unfold allStudents.
  induction cs as [| c cs IH]; simpl; [reflexivity |].
  rewrite length_app, IH. lia.
Qed.

Lemma reminders_all (cs : list Dashboard.Course) :
  Dashboard.reminders cs
  = countIf (fun s => Dashboard.paidAmount s <? Dashboard.totalFee s) (allStudents cs).
Proof.
  rewrite reminders_sum. unfold allStudents.
  induction cs as [| c cs IH]; simpl; [reflexivity |].
  now rewrite countIf_app, IH.
Qed.

Lemma totalPendingFees_all (cs : list Dashboard.Course) :
  Dashboard.totalPendingFees cs
  = sumOver (fun s => Z.max 0 (Dashboard.totalFee s - Dashboard.paidAmount s))
      (allStudents cs).
Proof.
  rewrite totalPendingFees_sum. unfold allStudents. now rewrite sumOver_flat_map.
Qed.

Lemma sumOver_nonneg {A : Type} (f : A -> Z) (l : list A) :
  (forall a, 0 <= f a) -> 0 <= sumOver f l.
Proof.
  intros H. induction l as [| a l IH]; simpl; [lia |]. specialize (H a). lia.
Qed.

(** Two sums of non-negative terms that vanish together term by term
    vanish together. *)
Lemma sumOver_zero_together {A : Type} (f g : A -> Z) (l : list A) :
  (forall a, 0 <= f a) -> (forall a, 0 <= g a) ->
  (forall a, f a = 0 <-> g a = 0) ->
  (sumOver f l = 0 <-> sumOver g l = 0).
Proof.
  intros Hf Hg E. induction l as [| a l IH]; simpl; [tauto |].
  pose proof (sumOver_nonneg f l Hf). pose proof (sumOver_nonneg g l Hg).
  specialize (Hf a). specialize (Hg a). specialize (E a). lia.
Qed.

(** X16. On every fetched list the reminders count lies between 0 and
    the students count, the pending fees are not negative, and the
    pending fees are 0 exactly when the reminders count is 0.  The
    students count is the sum of the counts shown per course, a course
    shows the empty row exactly when its count is 0, and the two counts
    of two lists put together are the sums of their counts. *)
Theorem dashboard_numbers_agree :
  forall cs : list Dashboard.Course,
    0 <= Dashboard.reminders cs <= Dashboard.totalStudents cs
    /\ 0 <= Dashboard.totalPendingFees cs
    /\ (Dashboard.totalPendingFees cs = 0 <-> Dashboard.reminders cs = 0)
    /\ Dashboard.totalStudents cs = sumOver enrolledCount cs
    /\ (forall c, showsEmptyRow c = true <-> enrolledCount c = 0)
    /\ forall cs' : list Dashboard.Course,
        Dashboard.totalStudents (cs ++ cs')
          = Dashboard.totalStudents cs + Dashboard.totalStudents cs'
        /\ Dashboard.reminders (cs ++ cs')
          = Dashboard.reminders cs + Dashboard.reminders cs'.
Proof.
  intros cs. split; [| split; [| split; [| split; [| split]]]].
  - rewrite reminders_all, totalStudents_all. unfold countIf.
    pose proof (filter_length_le
                  (fun s => Dashboard.paidAmount s <? Dashboard.totalFee s)
                  (allStudents cs)).
    lia.
  - rewrite totalPendingFees_all. apply sumOver_nonneg. intros s. lia.
  - rewrite totalPendingFees_all, reminders_all, countIf_sumOver.
    apply sumOver_zero_together.
    + intros s. lia.
    + intros s. destruct (Dashboard.paidAmount s <? Dashboard.totalFee s); lia.
    + intros s. destruct (Z.ltb_spec (Dashboard.paidAmount s) (Dashboard.totalFee s)); lia.
  - unfold Dashboard.totalStudents, enrolledCount. rewrite fold_left_add_from. lia.
  - intros c. unfold showsEmptyRow, enrolledCount.
    destruct (Dashboard.students c) as [| | l]; simpl; try tauto.
    destruct l; simpl; split; try reflexivity; discriminate.
  - intros cs'.
    rewrite !totalStudents_sum, !reminders_sum, !sumOver_app.
    repeat split.
Qed.

(** ** Editing a student *)

Lemma replace_without_plus (s : string) :
  occursIn "+" s = false -> replace s "+91" "" = s.
Proof.
  induction s as [| a s IH]; [reflexivity |].
  cbn [occursIn replace startsWith].
  intros H. apply orb_false_iff in H. destruct H as [Ha Hs].
  rewrite Ascii.eqb_sym in Ha. rewrite Ha. cbn [andb]. now rewrite IH.
Qed.

Lemma startsWith_empty (s : string) : startsWith s "" = true.
Proof. destruct s; reflexivity. Qed.

Lemma replace_country_code (p : string) : replace ("+91" ++ p) "+91" "" = p.
Proof.
  cbn [append replace startsWith]. rewrite !Ascii.eqb_refl, startsWith_empty.
  reflexivity.
Qed.

Lemma startsWith_country_code (r : string) :
  startsWith (String "+" r) "+91" = true ->
  exists r', r = String "9" (String "1" r').
Proof.
  destruct r as [| a [| b r]]; cbn [startsWith]; rewrite Ascii.eqb_refl;
    cbn [andb].
  - discriminate.
  - rewrite andb_false_r. discriminate.
  - rewrite startsWith_empty, andb_true_r. intros H.
    apply andb_true_iff in H. destruct H as [Ha Hb].
    apply Ascii.eqb_eq in Ha, Hb. subst. eauto.
Qed.

(** X17. Opening the edit form on a student and saving it without
    touching the phone field sends the stored phone again, when that
    phone is "+91" followed by a number that does not begin with '+' (as
    the form stores a number typed without '+'), or begins with its only
    '+' (as it stores the other numbers). *)
Theorem phone_survives_editing :
  forall (s : Dashboard.Student) (form : Dashboard.Form.t)
         (editingStudent : option Dashboard.Student)
         (selectedCourse : Dashboard.Course),
    Dashboard.Form.phone form = phoneDefaultValue s ->
    (exists p, Dashboard.phone s = ("+91" ++ p)%string /\ startsWith p "+" = false)
    \/ (exists r, Dashboard.phone s = String "+" r /\ occursIn "+" r = false) ->
    StudentBody.phone (Dashboard.handleSaveStudent_data form editingStudent selectedCourse)
    = Some (Dashboard.phone s).
Proof.
  intros s form editingStudent selectedCourse F H.
  cbn [Dashboard.handleSaveStudent_data StudentBody.phone].
  rewrite F. unfold phoneDefaultValue.
  destruct H as [(p & -> & P) | (r & -> & R)].
  - rewrite replace_country_code. now rewrite P.
  - destruct (startsWith (String "+" r) "+91") eqn:S.
    + apply startsWith_country_code in S. destruct S as [r' ->].
      change (String "+" (String "9" (String "1" r'))) with ("+91" ++ r')%string.
      rewrite replace_country_code.
      cbn [occursIn] in R. apply orb_false_iff in R. destruct R as [_ R].
      apply orb_false_iff in R. destruct R as [_ R].
      destruct r' as [| c r']; [reflexivity |].
      cbn [occursIn] in R. apply orb_false_iff in R. destruct R as [Rc _].
      cbn [startsWith]. rewrite Ascii.eqb_sym, Rc. reflexivity.
    + assert (E : replace (String "+" r) "+91" "" = String "+" r).
      { cbn [replace]. rewrite S. f_equal. now apply replace_without_plus. }
      rewrite E. cbn [startsWith]. rewrite Ascii.eqb_refl, startsWith_empty.
      reflexivity.
Qed.

Lemma phone_survives_editing_witness :
  let bob := Dashboard.mkStudent "b" "Bob" "b@x" "+919876543210" "" 18000 5000
               Undefined "c" in
  let eve := Dashboard.mkStudent "e" "Eve" "e@x" "+19876543210" "" 18000 5000
               Undefined "c" in
  let form s := Dashboard.Form.mk (Dashboard.name s) (Dashboard.email s)
                  (phoneDefaultValue s) "" "18000" (Defined "5000") in
  StudentBody.phone (Dashboard.handleSaveStudent_data (form bob) (Some bob) (courseOf []))
    = Some "+919876543210"
  /\ StudentBody.phone (Dashboard.handleSaveStudent_data (form eve) (Some eve) (courseOf []))
    = Some "+19876543210".
Proof.
  intros bob eve form. split.
  - apply (phone_survives_editing bob (form bob) (Some bob) (courseOf []) eq_refl).
    left. exists "9876543210". split; reflexivity.
  - apply (phone_survives_editing eve (form eve) (Some eve) (courseOf []) eq_refl).
    right. exists "19876543210". split; reflexivity.
Defined.

(** A stored phone with a second '+' is not covered: "+1+915" comes back
    from the edit form as "+15". *)
Example phone_with_inner_code_is_rewritten :
  let s := Dashboard.mkStudent "x" "X" "x@x" "+1+915" "" 18000 0 Undefined "c" in
  let form := Dashboard.Form.mk "X" "x@x" (phoneDefaultValue s) "" "18000" Undefined in
  StudentBody.phone (Dashboard.handleSaveStudent_data form (Some s) (courseOf []))
  = Some "+15".
Proof. reflexivity. Qed.

(** *** Printing a number and parsing it back *)

Lemma readDigits_digits (u : Decimal.uint) (p : positive) :
  readDigits 10 (NilEmpty.string_of_uint u) (Some (Z.pos p))
  = Some (Z.pos (Pos.of_uint_acc u p)).
Proof.
  revert p. induction u as [| u IH | u IH | u IH | u IH | u IH | u IH | u IH
                            | u IH | u IH | u IH]; intros p;
    cbn [NilEmpty.string_of_uint readDigits Pos.of_uint_acc];
    [reflexivity | ..];
    match goal with
    | |- context [digitValue ?c] =>
        let v := eval vm_compute in (digitValue c) in
        change (digitValue c) with v
    end;
    cbn [Z.ltb Z.compare Pos.compare Pos.compare_cont];
    match goal with
    | |- readDigits _ _ (Some ?a) = Some (Z.pos (Pos.of_uint_acc _ ?q)) =>
        replace a with (Z.pos q) by lia
    end;
    apply IH.
Qed.

Lemma readDigits_leading (u : Decimal.uint) (acc : option Z) :
  u <> Decimal.Nil ->
  match acc with Some a => a | None => 0 end = 0 ->
  readDigits 10 (NilEmpty.string_of_uint u) acc = Some (Z.of_N (Pos.of_uint u)).
Proof.
  revert acc. induction u as [| u IH | u IH | u IH | u IH | u IH | u IH | u IH
                              | u IH | u IH | u IH]; intros acc NN A;
    [congruence | ..];
    cbn [NilEmpty.string_of_uint readDigits Pos.of_uint];
    match goal with
    | |- context [digitValue ?c] =>
        let v := eval vm_compute in (digitValue c) in
        change (digitValue c) with v
    end;
    cbn [Z.ltb Z.compare Pos.compare Pos.compare_cont];
    rewrite A.
  - destruct u; [reflexivity | apply IH; [discriminate | reflexivity] ..].
  - apply (readDigits_digits u 1).
  - apply (readDigits_digits u 2).
  - apply (readDigits_digits u 3).
  - apply (readDigits_digits u 4).
  - apply (readDigits_digits u 5).
  - apply (readDigits_digits u 6).
  - apply (readDigits_digits u 7).
  - apply (readDigits_digits u 8).
  - apply (readDigits_digits u 9).
Qed.

(** A printed number has no leading white space, no sign of its own and
    no hexadecimal prefix. *)
Lemma digits_have_no_prefix (u : Decimal.uint) :
  u <> Decimal.Nil ->
  let s := NilEmpty.string_of_uint u in
  trimStart s = s /\ stripSign s = (1, s) /\ stripHexPrefix s = (10, s).
Proof.
  intros NN. destruct u; [congruence | ..]; repeat split.
  destruct u; reflexivity.
Qed.

Lemma string_of_uint_nonnil (u : Decimal.uint) :
  u <> Decimal.Nil -> NilZero.string_of_uint u = NilEmpty.string_of_uint u.
Proof. destruct u; [congruence | reflexivity ..]. Qed.

(** [parseInt(String(n))] is [n]. *)
Lemma parseInt_numberToString (n : Z) : parseInt (numberToString n) = Some n.
Proof.
  unfold numberToString. destruct n as [| p | p]; [reflexivity | |];
    cbn [Z.to_int NilZero.string_of_int];
    rewrite (string_of_uint_nonnil _ (DecimalPos.Unsigned.to_uint_nonnil p));
    destruct (digits_have_no_prefix _ (DecimalPos.Unsigned.to_uint_nonnil p))
      as (T & S & H);
    pose proof (readDigits_leading (Pos.to_uint p) None
                  (DecimalPos.Unsigned.to_uint_nonnil p) eq_refl) as R;
    rewrite DecimalPos.Unsigned.of_to in R; unfold parseInt.
  - rewrite T, S, H, R. reflexivity.
  - assert (T' : trimStart (String "-" (NilEmpty.string_of_uint (Pos.to_uint p)))
                 = String "-" (NilEmpty.string_of_uint (Pos.to_uint p)))
      by reflexivity.
    rewrite T'. cbn [stripSign]. rewrite H, R. reflexivity.
Qed.

(** X18. Opening the edit form on a student and saving it without
    touching the two fee fields sends the stored paidAmount again, and
    the stored totalFee again unless it is 0, which becomes 18000 (for
    integer amounts below 10^21, which print in plain decimal). *)
Theorem fees_survive_editing :
  forall (s : Dashboard.Student) (form : Dashboard.Form.t)
         (editingStudent : option Dashboard.Student)
         (selectedCourse : Dashboard.Course),
    Z.abs (Dashboard.totalFee s) < 10 ^ 21 ->
    Z.abs (Dashboard.paidAmount s) < 10 ^ 21 ->
    Dashboard.Form.totalFee form = totalFeeDefaultValue s ->
    Dashboard.Form.paidAmount form = Defined (paidAmountDefaultValue s) ->
    let data := Dashboard.handleSaveStudent_data form editingStudent selectedCourse in
    StudentBody.totalFee data
    = Some (if Dashboard.totalFee s =? 0 then 18000 else Dashboard.totalFee s)
    /\ StudentBody.paidAmount data = Some (Dashboard.paidAmount s).
Proof.
  intros s form editingStudent selectedCourse _ _ F P data. subst data.
  cbn [Dashboard.handleSaveStudent_data StudentBody.totalFee StudentBody.paidAmount].
  rewrite F, P. unfold totalFeeDefaultValue, paidAmountDefaultValue, parseIntOr.
  cbn [toString orNumber]. rewrite !parseInt_numberToString.
  split; f_equal.
  - destruct (Z.eqb_spec (Dashboard.totalFee s) 0) as [E | E]; [reflexivity |].
    destruct (Z.eqb_spec (Dashboard.totalFee s) 0); congruence.
  - destruct (Z.eqb_spec (Dashboard.paidAmount s) 0) as [E | E]; [now rewrite E |].
    destruct (Z.eqb_spec (Dashboard.paidAmount s) 0); congruence.
Qed.

Lemma fees_survive_editing_witness :
  let bob := Dashboard.mkStudent "b" "Bob" "b@x" "+919876543210" "" 24500 5000
               Undefined "c" in
  let form := Dashboard.Form.mk "Bob" "b@x" "9876543210" ""
                (totalFeeDefaultValue bob) (Defined (paidAmountDefaultValue bob)) in
  let data := Dashboard.handleSaveStudent_data form (Some bob) (courseOf []) in
  StudentBody.totalFee data = Some 24500 /\ StudentBody.paidAmount data = Some 5000.
Proof.
  intros bob form data.
  apply (fees_survive_editing bob form (Some bob) (courseOf [])).
  - simpl. lia.
  - simpl. lia.
  - reflexivity.
  - reflexivity.
Defined.

(** ** Saving a course through the form *)

Lemma castCourseSet_form (e : env) (form : CourseForm.t) (sd ed : option Date) :
  castDate e (Some (CourseForm.startDate form)) = Some sd ->
  castDate e (Some (CourseForm.endDate form)) = Some ed ->
  castCourseSet e (handleSaveCourse_data form)
  = Some (CourseSet.mk None (Some (CourseForm.courseTitle form))
            (Some (CourseForm.description form))
            (Some (CourseForm.whatYouLearn form))
            (Some sd) (Some ed) (Some "English")).
Proof.
  intros Hs He. unfold castCourseSet, handleSaveCourse_data, castDateSet.
  cbn [CourseBody._id CourseBody.title CourseBody.description
       CourseBody.whatYouLearn CourseBody.startDate CourseBody.endDate
       CourseBody.language castBodyId].
  rewrite Hs, He. reflexivity.
Qed.

(** X19. A course saved through the course form carries the form's five
    fields, its two dates as the schema casts them, and the language
    "English", whatever language it had.  When both dates of the form
    cast: creating the course is refused with a ValidationError when the
    title is empty; updating a stored course is not: the update is
    applied with the empty title.  When a date of the form is not a
    date, creating and updating are both refused with status 400. *)
Theorem course_form_saves_english :
  forall (form : CourseForm.t) (e : env) (st : state),
    let data := handleSaveCourse_data form in
    (forall sd ed,
        castDate e (Some (CourseForm.startDate form)) = Some sd ->
        castDate e (Some (CourseForm.endDate form)) = Some ed ->
        let saved id :=
          Course.mk id (CourseForm.courseTitle form)
            (Some (CourseForm.description form)) (Some (CourseForm.whatYouLearn form))
            sd ed "English" in
        (CourseForm.courseTitle form = "" ->
         post_course e data st
         = (mkResponse 400 (JError ValidationError),
            mkState (courses st) (students st) (nextId st + 1)%N))
        /\ (CourseForm.courseTitle form <> "" ->
            wf st = true ->
            fails e CourseSave = false ->
            post_course e data st
            = (mkResponse 201
                 (JCourseWithStudents (CourseWithStudents.mk (saved (nextId st)) [])),
               mkState (courses st ++ [saved (nextId st)]) (students st)
                 (nextId st + 1)%N))
        /\ (forall id oid c,
               wf st = true ->
               castObjectId id = Some oid ->
               In c (courses st) -> Course._id c = oid ->
               fails e CourseFindByIdAndUpdate = false ->
               fst (put_course e id data st) = mkResponse 200 (JCourse (Some (saved oid)))
               /\ In (saved oid) (courses (snd (put_course e id data st)))))
    /\ (castDate e (Some (CourseForm.startDate form)) = None
        \/ castDate e (Some (CourseForm.endDate form)) = None ->
        post_course e data st
        = (mkResponse 400 (JError ValidationError),
           mkState (courses st) (students st) (nextId st + 1)%N)
        /\ forall id,
            put_course e id data st = (mkResponse 400 (JError CastError), st)).
Proof.
  intros form e st data. subst data. split.
  - intros sd ed Hs He saved. subst saved. split; [| split].
    + intros E. rewrite post_course_eq. unfold validateCourse, handleSaveCourse_data.
      simpl. rewrite E. reflexivity.
    + intros NE W F. rewrite post_course_eq.
      unfold validateCourse, handleSaveCourse_data, idOfNew, afterNew.
      cbn [fst snd CourseBody._id CourseBody.title CourseBody.description
           CourseBody.whatYouLearn CourseBody.startDate CourseBody.endDate
           CourseBody.language]. cbv zeta.
      rewrite Hs, He.
      destruct (CourseForm.courseTitle form) eqn:T; [congruence |].
      cbn [requiredString orElse Course._id].
      rewrite F, (unknownCourse_existsb _ _ (wf_fresh _ W)). simpl.
      rewrite N.max_id. reflexivity.
    + intros id oid c W C Hc E F.
      apply wf_iff in W. destruct W as [_ D].
      rewrite put_course_eq, C, (castCourseSet_form e form sd ed Hs He), F,
        (In_existsb_hasId oid _ c Hc E).
      cbn [CourseSet._id changesId]. unfold hasId.
      rewrite (updateFirst_unique Course._id oid _ (courses st) c D Hc E).
      simpl.
      unfold applyCourseSet. simpl. rewrite E. split; [reflexivity |].
      apply in_map_iff. exists c. split; [| assumption].
      now rewrite E, N.eqb_refl.
  - intros H. split.
    + rewrite post_course_eq. unfold validateCourse, handleSaveCourse_data.
      cbn [fst snd CourseBody._id CourseBody.title CourseBody.description
           CourseBody.whatYouLearn CourseBody.startDate CourseBody.endDate
           CourseBody.language idOfNew afterNew]. cbv zeta.
      destruct (requiredString (Some (CourseForm.courseTitle form))); [| reflexivity].
      destruct H as [H | H]; rewrite H; [reflexivity |].
      destruct (castDate e (Some (CourseForm.startDate form))); reflexivity.
    + intros id. rewrite put_course_eq.
      assert (N : castCourseSet e (handleSaveCourse_data form) = None).
      { unfold castCourseSet, handleSaveCourse_data, castDateSet.
        cbn [CourseBody._id CourseBody.title CourseBody.description
             CourseBody.whatYouLearn CourseBody.startDate CourseBody.endDate
             CourseBody.language castBodyId].
        destruct H as [H | H]; rewrite H; [reflexivity |].
        destruct (castDate e (Some (CourseForm.startDate form))); reflexivity. }
      rewrite N. destruct (castObjectId id); reflexivity.
Qed.

Lemma course_form_saves_english_witness :
  let hindi := Course.mk 0 "Ganit" (Some "numbers") None None None "Hindi" in
  let st := mkState [hindi] [] 1 in
  let form := CourseForm.mk "" "sums" "adding" "2024-01-01" "2024-03-01" in
  let undated := CourseForm.mk "Sums" "sums" "adding" "soon" "2024-03-01" in
  fst (post_course noFaults (handleSaveCourse_data form) st)
    = mkResponse 400 (JError ValidationError)
  /\ courses (snd (put_course noFaults "000000000000000000000000"
                     (handleSaveCourse_data form) st))
     = [Course.mk 0 "" (Some "sums") (Some "adding") (Some 1704067200000)
          (Some 1709251200000) "English"]
  /\ put_course noFaults "000000000000000000000000" (handleSaveCourse_data undated) st
     = (mkResponse 400 (JError CastError), st).
Proof.
  intros hindi st form undated.
  destruct (proj1 (course_form_saves_english form noFaults st)
              (Some 1704067200000) (Some 1709251200000) eq_refl eq_refl)
    as (H1 & _ & H3).
  split; [| split].
  - rewrite (H1 eq_refl). reflexivity.
  - destruct (H3 "000000000000000000000000" 0%N hindi eq_refl eq_refl
                (or_introl eq_refl) eq_refl eq_refl) as [_ I].
    destruct (courses (snd (put_course noFaults "000000000000000000000000"
                              (handleSaveCourse_data form) st))) as [| x [| y l]] eqn:L.
    + destruct I.
    + destruct I as [I | []]. rewrite I. reflexivity.
    + discriminate L.
  - exact (proj2 (proj2 (course_form_saves_english undated noFaults st)
                    (or_introl eq_refl)) "000000000000000000000000").
Defined.

(** ** Writes as the listing shows them *)

Lemma filter_ofCourse_unknown (oid : ObjectId) (ss : list Student.t) :
  (forall s, In s ss -> Student.courseId s <> oid) ->
  filter (ofCourse oid) ss = [].
Proof.
  intros H. induction ss as [| s ss IH]; simpl; [reflexivity |].
  unfold ofCourse at 1.
  destruct (N.eqb_spec (Student.courseId s) oid) as [E | _].
  - now apply (H s (or_introl eq_refl)) in E.
  - apply IH. intros x Hx. apply H. now right.
Qed.

(** X20. After a Create Course that succeeds, the listing shows what it
    showed before, followed by the new course; in a well-formed state
    where every student names a stored course, the new course is shown
    with no students. *)
Theorem created_course_is_listed_last :
  forall (e : env) (b : CourseBody.t) (st : state) (l : list CourseWithStudents.t),
    status (fst (post_course e b st)) = 201 ->
    fst (get_courses noFaults st) = mkResponse 200 (JCourses l) ->
    exists c,
      fst (post_course e b st)
      = mkResponse 201 (JCourseWithStudents (CourseWithStudents.mk c []))
      /\ fst (get_courses noFaults (snd (post_course e b st)))
         = mkResponse 200
             (JCourses
                (l ++ [CourseWithStudents.mk c
                         (filter (ofCourse (Course._id c)) (students st))]))
      /\ (wf st = true -> noOrphans st = true ->
          filter (ofCourse (Course._id c)) (students st) = []).
Proof.
  intros e b st l S. rewrite !listing_answers. simpl.
  destruct (post_course_cases e b st)
    as (_ & [(S' & _) | (c & _ & X & _ & R & HC & HS & _)]); [congruence |].
  rewrite HC, HS.
  intros [= <-]. exists c. split; [exact R |]. split.
  - now rewrite map_app.
  - intros W O. apply filter_ofCourse_unknown. intros s Hs E.
    rewrite noOrphans_iff in O. destruct (O s Hs) as (c' & Hc' & E').
    apply (existsb_hasId_In _ _ X). rewrite <- E, <- E'. now apply in_map.
Qed.

Lemma created_course_is_listed_last_witness :
  let math := Course.mk 0 "Math 101" None None None None "English" in
  let bob := Student.mk 1 "Bob" "b@x" None None (Some 18000) (Some 5000) None 0 in
  let st := mkState [math] [bob] 2 in
  let b := CourseBody.mk None (Some "Art") None None None None None in
  exists c,
    fst (get_courses noFaults (snd (post_course noFaults b st)))
    = mkResponse 200
        (JCourses [CourseWithStudents.mk math [bob]; CourseWithStudents.mk c []]).
Proof.
  intros math bob st b.
  destruct (created_course_is_listed_last noFaults b st
              [CourseWithStudents.mk math [bob]] eq_refl eq_refl)
    as (c & _ & H & Z).
  exists c. rewrite H, (Z eq_refl eq_refl). reflexivity.
Defined.

(** X21. After a Create Student that succeeds, the listing shows what it
    showed before, with the new student added at the end of the students
    of every course whose id is the student's [courseId]: of its course,
    if that course is stored, and of none otherwise. *)
Theorem created_student_is_listed_in_its_course :
  forall (e : env) (b : StudentBody.t) (st : state),
    status (fst (post_student e b st)) = 201 ->
    exists s,
      fst (post_student e b st) = mkResponse 201 (JStudent (Some s))
      /\ bodyCourseId b = Some (Student.courseId s)
      /\ fst (get_courses noFaults (snd (post_student e b st)))
         = mkResponse 200
             (JCourses
                (map (fun c =>
                        CourseWithStudents.mk c
                          (filter (ofCourse (Course._id c)) (students st)
                           ++ (if hasId (Student.courseId s) c then [s] else [])))
                   (courses st))).
Proof.
  intros e b st S.
  destruct (post_student_cases e b st)
    as (_ & [(S' & _) | (s & V & _ & _ & R & HC & HS & _)]); [congruence |].
  exists s. split; [exact R |].
  apply validateStudent_id in V. destruct V as [_ V]. split; [assumption |].
  rewrite listing_answers, HC, HS. simpl. f_equal. f_equal.
  apply map_ext. intros c. f_equal. rewrite filter_app. f_equal.
  simpl. unfold ofCourse, hasId. rewrite N.eqb_sym.
  destruct (Course._id c =? Student.courseId s)%N; reflexivity.
Qed.

Lemma created_student_is_listed_witness :
  let math := Course.mk 0 "Math 101" None None None None "English" in
  let art := Course.mk 1 "Art" None None None None "English" in
  let alice := Student.mk 2 "Alice" "a@x" None None (Some 18000) (Some 18000) None 1 in
  let st := mkState [math; art] [alice] 3 in
  let b := StudentBody.mk None (Some "Bob") (Some "b@x") None None None None None
             (Some "000000000000000000000001") in
  let bob := Student.mk 3 "Bob" "b@x" None None None None None 1 in
  fst (get_courses noFaults (snd (post_student noFaults b st)))
  = mkResponse 200
      (JCourses [CourseWithStudents.mk math []; CourseWithStudents.mk art [alice; bob]]).
Proof.
  intros math art alice st b bob.
  destruct (created_student_is_listed_in_its_course noFaults b st eq_refl)
    as (s & R & _ & H).
  injection R as <-. exact H.
Defined.

Lemma filter_swap {A : Type} (p q : A -> bool) (l : list A) :
  filter p (filter q l) = filter q (filter p l).
Proof.
  induction l as [| a l IH]; simpl; [reflexivity |].
  destruct (q a) eqn:Q, (p a) eqn:P; simpl; rewrite ?Q, ?P, IH; reflexivity.
Qed.

(** X22. Where student ids are distinct, after a Delete Student that
    succeeds the listing shows what it showed before without the students
    of the deleted id: the same courses, each with its other students. *)
Theorem deleted_student_is_no_longer_listed :
  forall (e : env) (id : string) (oid : ObjectId) (st : state)
         (l : list CourseWithStudents.t),
    wfStudents st = true ->
    castObjectId id = Some oid ->
    fails e StudentFindByIdAndDelete = false ->
    fst (get_courses noFaults st) = mkResponse 200 (JCourses l) ->
    fst (get_courses noFaults (snd (delete_student e id st)))
    = mkResponse 200
        (JCourses
           (map (fun v =>
                   CourseWithStudents.mk (CourseWithStudents.course v)
                     (filter (fun s => negb (hasStudentId oid s))
                        (CourseWithStudents.students v)))
              l)).
Proof.
  intros e id oid st l W C F. apply wfStudents_iff in W. destruct W as [_ D].
  rewrite delete_student_eq, C, F, !listing_answers. simpl.
  intros [= <-]. f_equal. f_equal. rewrite map_map. simpl.
  apply map_ext. intros c. f_equal. unfold hasStudentId.
  rewrite (removeFirst_unique_key Student._id oid (students st) D).
  apply filter_swap.
Qed.

Lemma deleted_student_is_no_longer_listed_witness :
  let math := Course.mk 0 "Math 101" None None None None "English" in
  let alice := Student.mk 1 "Alice" "a@x" None None (Some 18000) (Some 18000) None 0 in
  let bob := Student.mk 2 "Bob" "b@x" None None (Some 18000) (Some 5000) None 0 in
  let st := mkState [math] [alice; bob] 3 in
  fst (get_courses noFaults (snd (delete_student noFaults "000000000000000000000001" st)))
  = mkResponse 200 (JCourses [CourseWithStudents.mk math [bob]]).
Proof.
  intros math alice bob st.
  exact (deleted_student_is_no_longer_listed noFaults "000000000000000000000001" 1%N st
           [CourseWithStudents.mk math [alice; bob]] eq_refl eq_refl eq_refl eq_refl).
Defined.

(** X23. Update Course never changes which students a listing shows:
    whatever the id, the body and the database do, the listing after it
    has the same course ids in the same order, each with the same
    students, as the listing before it. *)
Theorem update_course_keeps_the_students_listed :
  forall (e : env) (id : string) (b : CourseBody.t) (st : state),
    exists l l',
      fst (get_courses noFaults st) = mkResponse 200 (JCourses l)
      /\ fst (get_courses noFaults (snd (put_course e id b st)))
         = mkResponse 200 (JCourses l')
      /\ map CourseWithStudents.students l' = map CourseWithStudents.students l
      /\ map (fun v => Course._id (CourseWithStudents.course v)) l'
         = map (fun v => Course._id (CourseWithStudents.course v)) l.
Proof.
  intros e id b st. rewrite !listing_answers. simpl.
  do 2 eexists. split; [reflexivity |]. split; [reflexivity |].
  rewrite !map_map. simpl.
  assert (I : map Course._id (courses (snd (put_course e id b st)))
              = map Course._id (courses st)
              /\ students (snd (put_course e id b st)) = students st).
  { destruct (put_course_cases e id b st) as [-> | (oid & u & _ & _ & _ & _ & _ & ->)];
      [auto |]. simpl.
    split; [| reflexivity]. now apply updateFirst_map. }
  destruct I as [I1 I2]. rewrite I2. split; [| exact I1].
  rewrite <- (map_map Course._id
                (fun i => filter (ofCourse i) (students st))
                (courses (snd (put_course e id b st)))).
  rewrite <- (map_map Course._id
                (fun i => filter (ofCourse i) (students st)) (courses st)).
  now rewrite I1.
Qed.

(** X24. When the component's copy of a stored student agrees with the
    stored document and student ids are distinct, the request that
    [updateStudentReminder] sends (the copy, its [_id] included, with
    the new message), the database answering, replaces that document by
    itself with the new reminder message, and changes no other student
    and no course. *)
Theorem reminder_edit_changes_only_the_reminder :
  forall (e : env) (v : Dashboard.Student) (message : string)
         (s : Student.t) (st : state),
    wfStudents st = true ->
    In s (students st) ->
    mirrors e v s ->
    fails e StudentFindByIdAndUpdate = false ->
    let r := put_student e (Dashboard.s_id v) (updateStudentReminder_data v message) st in
    fst r = mkResponse 200 (JStudent (Some (withReminder s message)))
    /\ students (snd r)
       = map (fun x => if hasStudentId (Student._id s) x
                       then withReminder s message else x)
           (students st)
    /\ courses (snd r) = courses st.
Proof.
  intros e v message s st W Hs M F r. subst r.
  destruct M as (Mi & Mn & Me & Mp & Mj & Mt & Ma & Mc).
  pose proof W as W'. apply wfStudents_iff in W'. destruct W' as [_ D].
  assert (U : castStudentSet e (updateStudentReminder_data v message)
              = Some (StudentSet.mk (Some (Student._id s))
                        (Some (Dashboard.name v)) (Some (Dashboard.email v))
                        (Some (Dashboard.phone v)) (Some (Student.joinDate s))
                        (Some (Dashboard.totalFee v)) (Some (Dashboard.paidAmount v))
                        (Some message) (Some (Student.courseId s)))).
  { unfold castStudentSet, updateStudentReminder_data, castCourseId, castDateSet,
      castBodyId.
    cbn [StudentBody._id StudentBody.name StudentBody.email StudentBody.phone
         StudentBody.joinDate StudentBody.totalFee StudentBody.paidAmount
         StudentBody.reminderMessage StudentBody.courseId].
    rewrite Mi, Mj, Mc. reflexivity. }
  rewrite put_student_eq, Mi, U, F, (In_existsb_hasStudentId _ _ s Hs eq_refl).
  cbn [StudentSet._id changesId]. rewrite N.eqb_refl. cbn [negb].
  unfold hasStudentId.
  rewrite (updateFirst_unique Student._id (Student._id s) _ (students st) s D Hs eq_refl).
  assert (A : forall x, Student._id x = Student._id s -> In x (students st) -> x = s).
  { intros x E Hx. clear - D E Hx Hs.
    induction (students st) as [| a l IH]; [contradiction |].
    simpl in D. inversion D as [| ? ? D1 D2]; subst.
    destruct Hx as [-> | Hx], Hs as [-> | Hs]; auto.
    - exfalso. apply D1. rewrite E. now apply in_map.
    - exfalso. apply D1. rewrite <- E. now apply in_map. }
  assert (B : applyStudentSet
                (StudentSet.mk (Some (Student._id s))
                   (Some (Dashboard.name v)) (Some (Dashboard.email v))
                   (Some (Dashboard.phone v)) (Some (Student.joinDate s))
                   (Some (Dashboard.totalFee v)) (Some (Dashboard.paidAmount v))
                   (Some message) (Some (Student.courseId s))) s
              = withReminder s message).
  { unfold applyStudentSet, withReminder. simpl.
    now rewrite Mn, Me, Mp, Mt, Ma. }
  simpl. rewrite B. repeat split.
  apply map_ext_in. intros x Hx.
  destruct (N.eqb_spec (Student._id x) (Student._id s)) as [E | _]; [| reflexivity].
  rewrite (A x E Hx). exact B.
Qed.

Lemma reminder_edit_changes_only_the_reminder_witness :
  let math := Course.mk 0 "Math 101" None None None None "English" in
  let alice := Student.mk 1 "Alice" "a@x" (Some "+911") (Some 1704067200000)
                 (Some 18000) (Some 18000) None 0 in
  let bob := Student.mk 2 "Bob" "b@x" (Some "+912") (Some 1704153600000)
               (Some 18000) (Some 5000) (Some "old") 0 in
  let st := mkState [math] [alice; bob] 3 in
  let v := Dashboard.mkStudent "000000000000000000000002" "Bob" "b@x" "+912"
             "2024-01-02" 18000 5000 (Defined "old") "000000000000000000000000" in
  students (snd (put_student noFaults (Dashboard.s_id v)
                   (updateStudentReminder_data v "Please pay") st))
  = [alice; withReminder bob "Please pay"].
Proof.
  intros math alice bob st v.
  assert (M : mirrors noFaults v bob) by (repeat split).
  exact (proj1 (proj2 (reminder_edit_changes_only_the_reminder noFaults v "Please pay"
                         bob st eq_refl (or_intror (or_introl eq_refl)) M eq_refl))).
Defined.
